(** * CycleGAN image translation for object detection: a verification model

    Shallow embedding of [examples/domain_adaptation/object_detection/cycle_gan.py]:
    the VOC-format dataset ([VOCImageFolder], [make_power_2], [build_dataset]),
    the adversarial training loop ([train]) and the epoch driver ([main]).

    Python exceptions are values of [result]; the file system is a finite map
    from paths to contents; everything the script takes from PIL or PyTorch
    (image resampling, network forward passes, Adam, LambdaLR) is a field of
    a class, so every theorem holds for any behaviour of those libraries.

    The definitions come first, the properties after them. *)

From Stdlib Require Import ZArith QArith_base Ascii String List Lia.
From stdpp Require Import base option list gmap strings.

Local Open Scope Z_scope.

(** ** Python exceptions *)

Inductive exn : Set :=
| FileNotFoundError
| AssertionError
| IndexError
| ZeroDivisionError
| ValueError.

Inductive result (A : Type) : Type :=
| Ok (a : A)
| Raise (e : exn).
Arguments Ok {A} a.
Arguments Raise {A} e.

#[global] Instance result_ret : MRet result := fun _ a => Ok a.
#[global] Instance result_bind : MBind result := fun _ _ f m =>
  match m with
  | Ok a => f a
  | Raise e => Raise e
  end.

Definition is_ok {A} (r : result A) : bool :=
  match r with Ok _ => true | Raise _ => false end.

(** ** The fragment of Python's [str], [os.path] and file objects used by the script *)

Module Py.

Definition newline : ascii := "010"%char.
Definition sep : ascii := "/"%char.

(** [str.isspace] on one character. Characters are code points below 256. *)
Definition isspace (c : ascii) : bool :=
  let n := N_of_ascii c in
  ((9 <=? n) && (n <=? 13) || (28 <=? n) && (n <=? 32)
   || (n =? 133) || (n =? 160))%N.

Fixpoint lstrip (s : string) : string :=
  match s with
  | EmptyString => EmptyString
  | String c s' => if isspace c then lstrip s' else s
  end.

Fixpoint rstrip (s : string) : string :=
  match s with
  | EmptyString => EmptyString
  | String c s' =>
      match rstrip s' with
      | EmptyString => if isspace c then EmptyString else String c EmptyString
      | r => String c r
      end
  end.

(** [s.strip()] *)
Definition strip (s : string) : string := rstrip (lstrip s).

(** [s.startswith(p)] *)
Definition startswith (p s : string) : bool := String.prefix p s.

(** [s.endswith("/")] *)
Fixpoint endswith_sep (s : string) : bool :=
  match s with
  | EmptyString => false
  | String c EmptyString => Ascii.eqb c sep
  | String _ s' => endswith_sep s'
  end.

(** [s.replace(old, new)]: every non-overlapping occurrence of [old], found
    from the left, becomes [new]; an empty [old] matches before every
    character and at the end. [skip] counts the characters of a matched
    occurrence still to be dropped. *)
Fixpoint replace_from (old new : string) (skip : nat) (s : string) : string :=
  match s with
  | EmptyString =>
      match old with EmptyString => new | _ => EmptyString end
  | String c s' =>
      match skip with
      | S k => replace_from old new k s'
      | O =>
          match old with
          | EmptyString => new +:+ String c (replace_from old new O s')
          | String _ old' =>
              if String.prefix old s
              then new +:+ replace_from old new (String.length old') s'
              else String c (replace_from old new O s')
          end
      end
  end.

Definition replace (old new s : string) : string := replace_from old new O s.

(** [os.path.isabs] of [posixpath] *)
Definition isabs (p : string) : bool := startswith "/" p.

(** One round of the loop of [posixpath.join] *)
Definition join_step (path b : string) : string :=
  if startswith "/" b then b
  else if String.eqb path "" || endswith_sep path then path +:+ b
  else path +:+ "/" +:+ b.

(** [os.path.join(a, *p)] of [posixpath] *)
Definition join (a : string) (p : list string) : string :=
  fold_left join_step p a.

(** The part of a path up to and with its last ["/"]: [p[:p.rfind("/") + 1]] *)
Fixpoint head_to_sep (p : string) : string :=
  match p with
  | EmptyString => EmptyString
  | String c p' =>
      match head_to_sep p' with
      | EmptyString => if Ascii.eqb c sep then String sep EmptyString else EmptyString
      | h => String c h
      end
  end.

Fixpoint all_sep (s : string) : bool :=
  match s with
  | EmptyString => true
  | String c s' => Ascii.eqb c sep && all_sep s'
  end.

(** [s.rstrip("/")] *)
Fixpoint rstrip_sep (s : string) : string :=
  match s with
  | EmptyString => EmptyString
  | String c s' =>
      match rstrip_sep s' with
      | EmptyString => if Ascii.eqb c sep then EmptyString else String c EmptyString
      | t => String c t
      end
  end.

(** [os.path.dirname] of [posixpath] *)
Definition dirname (p : string) : string :=
  let head := head_to_sep p in
  if negb (String.eqb head "") && negb (all_sep head) then rstrip_sep head else head.

(** [os.makedirs(name, exist_ok=True)]. Directories are not tracked; what
    is kept is that the empty name raises. *)
Definition makedirs (name : string) : result unit :=
  if String.eqb name "" then Raise FileNotFoundError else Ok tt.

(** [f.readlines()] on the decoded text of a file: the pieces end after
    each newline, the last one may lack it. *)
Fixpoint readlines (s : string) : list string :=
  match s with
  | EmptyString => []
  | String c s' =>
      if Ascii.eqb c newline then String c EmptyString :: readlines s'
      else match readlines s' with
           | [] => [String c EmptyString]
           | l :: ls => String c l :: ls
           end
  end.

(** [l[index]] on a list: negative indices count from the end. *)
Definition getitem {A} (l : list A) (index : Z) : result A :=
  let n := Z.of_nat (length l) in
  let i := if index <? 0 then index + n else index in
  if (i <? 0) || (n <=? i) then Raise IndexError
  else match l !! Z.to_nat i with
       | Some x => Ok x
       | None => Raise IndexError
       end.

(** [l[::2]] and [l[1::2]] *)
Fixpoint evens {A} (l : list A) : list A :=
  match l with
  | [] => []
  | x :: l' => x :: match l' with [] => [] | _ :: l'' => evens l'' end
  end.

Definition odds {A} (l : list A) : list A :=
  match l with [] => [] | _ :: l' => evens l' end.

(** [zip(xs, ys)] *)
Fixpoint zip {A B} (xs : list A) (ys : list B) : list (A * B) :=
  match xs, ys with
  | x :: xs', y :: ys' => (x, y) :: zip xs' ys'
  | _, _ => []
  end.

(** [range(start, stop)] *)
Definition range (start stop : Z) : list Z := seqZ start (stop - start).

(** [round(a / b)] for integers [a], [b] with [b <> 0]: the quotient
    rounded to the nearest integer, ties to the even one. Python rounds the
    binary64 quotient; below 2^52 in magnitude, which covers every image
    side PIL can hold, no quotient other than an exact half is rounded to a
    half by the division, so the exact computation agrees with it. *)
Definition round_div (a b : Z) : Z :=
  let q := a / b in
  let r := Z.abs (a mod b) in
  match Z.compare (2 * r) (Z.abs b) with
  | Lt => q
  | Gt => q + 1
  | Eq => if Z.even q then q else q + 1
  end.

End Py.

(** ** PIL images *)

(** The resampling filters of [PIL.Image] *)
Inductive resample : Set := NEAREST | BILINEAR | BICUBIC | LANCZOS | BOX | HAMMING.

(** The operations of [PIL.Image.Image] the script calls. [img_resize] takes
    [None] where the caller leaves the filter to PIL's default. *)
Class Pil (image : Type) : Type := {
  img_size : image -> Z * Z;
  img_resize : image -> Z * Z -> option resample -> image;
  img_convert_rgb : image -> image
}.

(** What PIL promises about them: [resize] returns an image of the size
    asked for, [convert] keeps the size. *)
Class PilLaws (image : Type) `{Pil image} : Prop := {
  resize_size : forall (i : image) (w h : Z) (m : option resample),
    0 < w -> 0 < h -> img_size (img_resize i (w, h) m) = (w, h);
  convert_size : forall i : image, img_size (img_convert_rgb i) = img_size i
}.

(** A concrete picture: its side lengths and a tag standing for its pixels. *)
Record picture : Set := Picture { pic_w : Z; pic_h : Z; pic_tag : nat }.

#[global] Instance picture_eq_dec : EqDecision picture.
Proof. solve_decision. Defined.

#[global] Instance picture_pil : Pil picture := {
  img_size p := (pic_w p, pic_h p);
  img_resize p s _ := Picture (fst s) (snd s) (S (pic_tag p));
  img_convert_rgb p := p
}.

(** ** The dataset *)

(** Values a dataset item's second component may hold. *)
Inductive pyval : Set :=
| PyInt (n : Z)
| PyStr (s : string).

Section Dataset.

Context {image : Type} `{Pil image}.
(** what a training transform produces *)
Context {item : Type}.
(** [os.path.expanduser], which depends on the process environment *)
Variable expanduser : string -> string.

(** [img.resize(size, resample)]: an image asked for its own size is
    copied; otherwise PIL raises [ValueError] unless both sides asked for
    are positive. *)
Definition resize (img : image) (size : Z * Z) (method : option resample) : result image :=
  if (fst (img_size img) =? fst size) && (snd (img_size img) =? snd size) then Ok img
  else if (fst size <? 1) || (snd size <? 1) then Raise ValueError
  else Ok (img_resize img size method).

(** [make_power_2(img, base, method=Image.BICUBIC)] *)
Definition make_power_2 (img : image) (base : Z) (method : resample) : result image :=
  let '(ow, oh) := img_size img in
  if base =? 0 then Raise ZeroDivisionError
  else
    let h := Z.max (Py.round_div oh base) 1 * base in
    let w := Z.max (Py.round_div ow base) 1 * base in
    if (h =? oh) && (w =? ow) then Ok img
    else resize img (w, h) (Some method).

(** Attributes of a [VOCImageFolder] instance; [loader] is always
    [default_loader]. *)
Record VOCImageFolder : Type := {
  root : string;
  transform : option (image -> item);
  samples : list string;
  data_list_file : string
}.

(** [VOCImageFolder.parse_data_file(self, file_name, extension)];
    [self_root] is [self.root], [files] the text files that can be opened. *)
Definition parse_data_file (files : gmap string string) (self_root : string)
    (file_name : string) (extension : option string) : result (list string) :=
  match files !! file_name with
  | None => Raise FileNotFoundError
  | Some content =>
      Ok (fold_left
            (fun data_list line =>
               let line := Py.strip line in
               let path := match extension with
                           | None => line
                           | Some e => line +:+ e
                           end in
               let path := if negb (Py.isabs path)
                           then Py.join self_root ["JPEGImages"; path]
                           else path in
               data_list ++ [path])
            (Py.readlines content) [])
  end.

(** [VOCImageFolder.__init__(self, root, phase, transform, extension)];
    [VisionDataset.__init__] stores the user-expanded root in [self.root]. *)
Definition VOCImageFolder_init (files : gmap string string) (root_arg phase : string)
    (tf : option (image -> item)) (extension : option string)
    : result VOCImageFolder :=
  let self_root := expanduser root_arg in
  let file := Py.join root_arg ["ImageSets/Main/" +:+ phase +:+ ".txt"] in
  samples ← parse_data_file files self_root file extension;
  mret {| root := self_root; transform := tf; samples := samples;
          data_list_file := file |}.

(** [default_loader(path)]: open the file and convert to RGB *)
Definition default_loader (images : gmap string image) (path : string) : result image :=
  match images !! path with
  | None => Raise FileNotFoundError
  | Some img => Ok (img_convert_rgb img)
  end.

(** [VOCImageFolder.__getitem__(self, index)] *)
Definition VOC_getitem (images : gmap string image) (self : VOCImageFolder)
    (index : Z) : result ((image + item) * pyval) :=
  path ← Py.getitem (samples self) index;
  img ← default_loader images path;
  let img := match transform self with
             | Some t => inr (t img)
             | None => inl img
             end in
  mret (img, PyStr path).

(** [VOCImageFolder.__len__(self)] *)
Definition VOC_len (self : VOCImageFolder) : Z := Z.of_nat (length (samples self)).

(** One round of the loop of [translate]: the image files after it, or
    the exception that stops the loop. *)
Definition translate_one (self : VOCImageFolder) (tf : image -> image)
    (target_root : string) (image_base : Z) (images : gmap string image)
    (path : string) : result (gmap string image) :=
  match images !! path with
  | None => Raise FileNotFoundError
  | Some raw =>
      let image := img_convert_rgb raw in
      let translated_path := Py.replace (root self) target_root path in
      let '(ow, oh) := img_size image in
      image ← make_power_2 image image_base BICUBIC;
      let translated_image := tf image in
      translated_image ← resize translated_image (ow, oh) None;
      _ ← Py.makedirs (Py.dirname translated_path);
      mret (<[translated_path := translated_image]> images)
  end.

(** [VOCImageFolder.translate(self, transform, target_root, image_base)]:
    returns the image files as the loop leaves them and, when it stopped
    early, the exception. The map holds each image file under the path the
    script uses for it; two spellings of a path to one file are not
    related. *)
Fixpoint translate_loop (self : VOCImageFolder) (tf : image -> image)
    (target_root : string) (image_base : Z) (paths : list string)
    (images : gmap string image) : gmap string image * option exn :=
  match paths with
  | [] => (images, None)
  | path :: rest =>
      match translate_one self tf target_root image_base images path with
      | Raise e => (images, Some e)
      | Ok images' => translate_loop self tf target_root image_base rest images'
      end
  end.

Definition translate (self : VOCImageFolder) (tf : image -> image)
    (target_root : string) (image_base : Z) (images : gmap string image)
    : gmap string image * option exn :=
  match Py.makedirs target_root with
  | Raise e => (images, Some e)
  | Ok _ => translate_loop self tf target_root image_base (samples self) images
  end.

(** [torch.utils.data.ConcatDataset]: the constructor asserts that the
    list is not empty and stores the running sums of the lengths. *)
Record ConcatDataset : Type := {
  datasets : list VOCImageFolder;
  cumulative_sizes : list Z
}.

(** One round of the loop of [ConcatDataset.cumsum]: [r.append(l + s)],
    [s += l] *)
Definition cumsum_step (acc : list Z * Z) (e : VOCImageFolder) : list Z * Z :=
  let l := VOC_len e in (fst acc ++ [l + snd acc], snd acc + l).

(** [ConcatDataset.cumsum(sequence)] *)
Definition cumsum (sequence : list VOCImageFolder) : list Z :=
  fst (fold_left cumsum_step sequence ([], 0)).

Definition ConcatDataset_init (ds : list VOCImageFolder) : result ConcatDataset :=
  if (0 <? Z.of_nat (length ds))
  then Ok {| datasets := ds; cumulative_sizes := cumsum ds |}
  else Raise AssertionError.

(** [ConcatDataset.__len__]: [self.cumulative_sizes[-1]] *)
Definition Concat_len (c : ConcatDataset) : result Z :=
  Py.getitem (cumulative_sizes c) (-1).

(** The branch of [build_dataset] taken for one name. *)
Definition build_one (files : gmap string string) (tf : image -> item)
    (dataset_name root_arg : string) : result VOCImageFolder :=
  if bool_decide (dataset_name ∈ ["WaterColor"; "Comic"])
  then VOCImageFolder_init files root_arg "train" (Some tf) (Some ".jpg")
  else if bool_decide (dataset_name ∈ ["Cityscapes"; "FoggyCityscapes"])
  then VOCImageFolder_init files root_arg "trainval" (Some tf) (Some ".png")
  else if bool_decide (dataset_name ∈ ["Sim10k"])
  then VOCImageFolder_init files root_arg "trainval10k" (Some tf) (Some ".jpg")
  else VOCImageFolder_init files root_arg "trainval" (Some tf) (Some ".jpg").

(** The loop of [build_dataset] over [zip(dataset_names, dataset_roots)] *)
Fixpoint build_loop (files : gmap string string) (tf : image -> item)
    (pairs : list (string * string)) (dataset_lists : list VOCImageFolder)
    : result (list VOCImageFolder) :=
  match pairs with
  | [] => Ok dataset_lists
  | (dataset_name, root_arg) :: rest =>
      dataset ← build_one files tf dataset_name root_arg;
      build_loop files tf rest (dataset_lists ++ [dataset])
  end.

(** [build_dataset(dataset_names, dataset_roots, transform)] *)
Definition build_dataset (files : gmap string string)
    (dataset_names dataset_roots : list string) (tf : image -> item)
    : result ConcatDataset :=
  dataset_lists ← build_loop files tf (Py.zip dataset_names dataset_roots) [];
  ConcatDataset_init dataset_lists.

(** The two calls in [main]:
    [build_dataset(args.source[::2], args.source[1::2], train_transform)] *)
Definition main_build_dataset (files : gmap string string) (arg : list string)
    (tf : image -> item) : result ConcatDataset :=
  build_dataset files (Py.evens arg) (Py.odds arg) tf.

End Dataset.

(** ** PyTorch: tensors, networks, criteria *)

(** What the script takes from PyTorch and from [dalib.translation.cyclegan]:
    the forward pass of the generator and discriminator architectures, the
    value of the two criteria, and float arithmetic. [scalar] stands for a
    Python float or a zero-dimensional tensor. *)
Class Torch : Type := {
  tensor : Type;
  scalar : Type;
  weights_G : Type;
  weights_D : Type;
  forward_G : weights_G -> tensor -> tensor;
  forward_D : weights_D -> tensor -> tensor;
  (** [LeastSquaresGenerativeAdversarialLoss()(prediction, real)] *)
  gan_value : tensor -> bool -> scalar;
  (** [nn.L1Loss()(input, target)] *)
  l1_value : tensor -> tensor -> scalar;
  s_add : scalar -> scalar -> scalar;
  s_sub : scalar -> scalar -> scalar;
  s_mul : scalar -> scalar -> scalar;
  s_div : scalar -> scalar -> scalar;
  (** an [int] used where a float is expected *)
  s_of_Z : Z -> scalar;
  (** the literal [0.5] *)
  s_half : scalar;
  (** [x.size(0)] *)
  size0 : tensor -> Z;
  (** [x[0]] *)
  index0 : tensor -> tensor
}.

(** The two generators and the two discriminators *)
Inductive gen : Set := G_S2T | G_T2S.
Inductive dis : Set := D_S | D_T.

(** The parameters of one network, as a group that receives gradients *)
Inductive param_group : Set :=
| OfG (g : gen)
| OfD (d : dis).

Inductive optimizer : Set := Opt_G | Opt_D.

#[global] Instance gen_eq_dec : EqDecision gen.
Proof. solve_decision. Defined.
#[global] Instance dis_eq_dec : EqDecision dis.
Proof. solve_decision. Defined.
#[global] Instance param_group_eq_dec : EqDecision param_group.
Proof. solve_decision. Defined.
#[global] Instance optimizer_eq_dec : EqDecision optimizer.
Proof. solve_decision. Defined.

(** [optimizer_G] holds the parameters of both generators, [optimizer_D]
    those of both discriminators ([itertools.chain] in [main]). *)
Definition owner (p : param_group) : optimizer :=
  match p with OfG _ => Opt_G | OfD _ => Opt_D end.

Section Autograd.

Context `{Torch}.

(** The graph autograd records for a tensor. A forward pass keeps the
    weights it ran with; a discriminator pass also keeps whether its
    parameters required gradients when it ran, which is what decides
    whether [backward] reaches them. *)
Inductive tnode : Type :=
| Leaf (x : tensor)
| Forward_G (g : gen) (w : weights_G) (x : tnode)
| Forward_D (d : dis) (w : weights_D) (requires_grad : bool) (x : tnode).

(** The graph of a loss *)
Inductive lnode : Type :=
| GanLoss (prediction : tnode) (real : bool)
| L1Loss (input target : tnode)
| LAdd (a b : lnode)
| LMulR (a : lnode) (c : scalar)
| LMulL (c : scalar) (a : lnode).

Fixpoint tvalue (x : tnode) : tensor :=
  match x with
  | Leaf v => v
  | Forward_G _ w x' => forward_G w (tvalue x')
  | Forward_D _ w _ x' => forward_D w (tvalue x')
  end.

(** [loss.item()] *)
Fixpoint item_of (l : lnode) : scalar :=
  match l with
  | GanLoss p real => gan_value (tvalue p) real
  | L1Loss x y => l1_value (tvalue x) (tvalue y)
  | LAdd a b => s_add (item_of a) (item_of b)
  | LMulR a c => s_mul (item_of a) c
  | LMulL c a => s_mul c (item_of a)
  end.

(** [x.detach()] *)
Definition detach (x : tnode) : tnode := Leaf (tvalue x).

(** Does [backward] from this node add to the gradients of group [p]?
    Generator parameters always require gradients. *)
Fixpoint treaches (p : param_group) (x : tnode) : bool :=
  match x with
  | Leaf _ => false
  | Forward_G g _ x' => bool_decide (p = OfG g) || treaches p x'
  | Forward_D d _ rg x' => (rg && bool_decide (p = OfD d)) || treaches p x'
  end.

Fixpoint reaches (p : param_group) (l : lnode) : bool :=
  match l with
  | GanLoss x _ => treaches p x
  | L1Loss x y => treaches p x || treaches p y
  | LAdd a b => reaches p a || reaches p b
  | LMulR a _ => reaches p a
  | LMulL _ a => reaches p a
  end.

Definition all_groups : list param_group :=
  [OfG G_S2T; OfG G_T2S; OfD D_S; OfD D_T].

(** The groups whose [.grad] a [backward()] from [l] adds to *)
Definition receivers (l : lnode) : list param_group :=
  filter (fun p => reaches p l = true) all_groups.

(** The terms of a sum, left to right *)
Fixpoint summands (l : lnode) : list lnode :=
  match l with
  | LAdd a b => summands a ++ summands b
  | _ => [l]
  end.

End Autograd.

(** ** Meters *)

Section Meter.

Context `{Torch}.

(** Modelled from the spec: [common.utils.meter.AverageMeter], which is
    not among the sources. It keeps the last value, the weighted sum, the
    count and their quotient, the running average the script reports. *)
Record AverageMeter : Type := {
  name : string;
  val : scalar;
  avg : scalar;
  sum : scalar;
  count : Z
}.

(** [AverageMeter(name, fmt)]: everything starts at 0 *)
Definition AverageMeter_new (nm : string) : AverageMeter :=
  {| name := nm; val := s_of_Z 0; avg := s_of_Z 0; sum := s_of_Z 0; count := 0 |}.

(** [meter.update(val, n)] *)
Definition update (m : AverageMeter) (v : scalar) (n : Z) : AverageMeter :=
  let sum' := s_add (sum m) (s_mul v (s_of_Z n)) in
  let count' := count m + n in
  {| name := name m; val := v;
     avg := if 0 <? count' then s_div sum' (s_of_Z count') else avg m;
     sum := sum'; count := count' |}.

(** The eight loss meters of [train], in the order of its [ProgressMeter]
    list. The two wall-clock meters [batch_time] and [data_time] are left
    out. *)
Record meters : Type := {
  losses_G_S2T : AverageMeter;
  losses_G_T2S : AverageMeter;
  losses_D_S : AverageMeter;
  losses_D_T : AverageMeter;
  losses_cycle_S : AverageMeter;
  losses_cycle_T : AverageMeter;
  losses_identity_S : AverageMeter;
  losses_identity_T : AverageMeter
}.

Definition meters_new : meters :=
  {| losses_G_S2T := AverageMeter_new "G_S2T";
     losses_G_T2S := AverageMeter_new "G_T2S";
     losses_D_S := AverageMeter_new "D_S";
     losses_D_T := AverageMeter_new "D_T";
     losses_cycle_S := AverageMeter_new "cycle_S";
     losses_cycle_T := AverageMeter_new "cycle_T";
     losses_identity_S := AverageMeter_new "idt_S";
     losses_identity_T := AverageMeter_new "idt_T" |}.

Definition meter_list (ms : meters) : list AverageMeter :=
  [losses_G_S2T ms; losses_G_T2S ms; losses_D_S ms; losses_D_T ms;
   losses_cycle_S ms; losses_cycle_T ms; losses_identity_S ms; losses_identity_T ms].

End Meter.

(** ** The training state *)

(** The rest of what [train] and [main] take from outside the script: Adam,
    [LambdaLR], the image pool and the data iterators. Randomness (the
    pool's choices) is threaded through [rng_state]. *)
Class Trainer `{Torch} : Type := {
  adam_state : Type;
  sched_state : Type;
  pool : Type;
  data_iter : Type;
  rng_state : Type;
  (** [optimizer_G.step()]: new optimizer state and generator weights, from
      the losses accumulated in the generators' [.grad] *)
  adam_G : adam_state -> weights_G * weights_G -> list (param_group * lnode) ->
           adam_state * (weights_G * weights_G);
  (** [optimizer_D.step()] *)
  adam_D : adam_state -> weights_D * weights_D -> list (param_group * lnode) ->
           adam_state * (weights_D * weights_D);
  (** [lr_scheduler.step()], which also rewrites the learning rate kept in
      its optimizer *)
  sched_step : sched_state -> adam_state -> sched_state * adam_state;
  (** [ImagePool.query(images)] of [dalib.translation.cyclegan.util] *)
  query : pool -> rng_state -> tensor -> tensor * pool * rng_state;
  (** [next(it)] on a [ForeverDataIterator]; the labels are dropped *)
  next_batch : data_iter -> tensor * data_iter;
  (** [logger.get_checkpoint_path(name)] for the logger rooted at a directory *)
  get_checkpoint_path : string -> string -> string
}.

Section Training.

Context `{Trainer}.

(** The fields of [args] that [train] and the epoch loop of [main] read *)
Record args : Type := {
  start_epoch : Z;
  epochs : Z;
  epochs_decay : Z;
  iters_per_epoch : Z;
  print_freq : Z;
  trade_off_cycle : scalar;
  trade_off_identity : scalar;
  resume : option string;
  phase : string;
  log_root : string
}.

Definition set_start_epoch (v : Z) (a : args) : args :=
  {| start_epoch := v; epochs := epochs a; epochs_decay := epochs_decay a;
     iters_per_epoch := iters_per_epoch a; print_freq := print_freq a;
     trade_off_cycle := trade_off_cycle a;
     trade_off_identity := trade_off_identity a;
     resume := resume a; phase := phase a; log_root := log_root a |}.

(** The dictionary [main] hands to [torch.save]. A network, optimizer or
    scheduler is identified with its [state_dict()]. *)
Record checkpoint : Type := {
  ck_netG_S2T : weights_G;
  ck_netG_T2S : weights_G;
  ck_netD_S : weights_D;
  ck_netD_T : weights_D;
  ck_optimizer_G : adam_state;
  ck_optimizer_D : adam_state;
  ck_lr_scheduler_G : sched_state;
  ck_lr_scheduler_D : sched_state;
  ck_epoch : Z;
  ck_args : args
}.

(** What the run does *)
Inductive event : Type :=
| EvSetRequiresGrad (d : dis) (flag : bool)
| EvZeroGrad (o : optimizer)
| EvBackward (loss : lnode)
| EvStep (o : optimizer)
| EvDisplay (i : Z) (report : list AverageMeter)
| EvVisualize (i : Z) (name : string) (img : tensor)
| EvTrain (epoch : Z)
| EvSchedulerStep (o : optimizer)
| EvSave (path : string) (c : checkpoint).

Record world : Type := {
  netG_S2T : weights_G;
  netG_T2S : weights_G;
  netD_S : weights_D;
  netD_T : weights_D;
  requires_grad_D_S : bool;
  requires_grad_D_T : bool;
  grads : list (param_group * lnode);
  optimizer_G : adam_state;
  optimizer_D : adam_state;
  lr_scheduler_G : sched_state;
  lr_scheduler_D : sched_state;
  fake_S_pool : pool;
  fake_T_pool : pool;
  train_source_iter : data_iter;
  train_target_iter : data_iter;
  rng : rng_state;
  log : list event;
  files : gmap string checkpoint
}.

(** Field updates *)
Definition set_netG_S2T (v : weights_G) (w : world) : world :=
  {| netG_S2T := v;
     netG_T2S := netG_T2S w;
     netD_S := netD_S w;
     netD_T := netD_T w;
     requires_grad_D_S := requires_grad_D_S w;
     requires_grad_D_T := requires_grad_D_T w;
     grads := grads w;
     optimizer_G := optimizer_G w;
     optimizer_D := optimizer_D w;
     lr_scheduler_G := lr_scheduler_G w;
     lr_scheduler_D := lr_scheduler_D w;
     fake_S_pool := fake_S_pool w;
     fake_T_pool := fake_T_pool w;
     train_source_iter := train_source_iter w;
     train_target_iter := train_target_iter w;
     rng := rng w;
     log := log w;
     files := files w |}.

Definition set_netG_T2S (v : weights_G) (w : world) : world :=
  {| netG_S2T := netG_S2T w;
     netG_T2S := v;
     netD_S := netD_S w;
     netD_T := netD_T w;
     requires_grad_D_S := requires_grad_D_S w;
     requires_grad_D_T := requires_grad_D_T w;
     grads := grads w;
     optimizer_G := optimizer_G w;
     optimizer_D := optimizer_D w;
     lr_scheduler_G := lr_scheduler_G w;
     lr_scheduler_D := lr_scheduler_D w;
     fake_S_pool := fake_S_pool w;
     fake_T_pool := fake_T_pool w;
     train_source_iter := train_source_iter w;
     train_target_iter := train_target_iter w;
     rng := rng w;
     log := log w;
     files := files w |}.

Definition set_netD_S (v : weights_D) (w : world) : world :=
  {| netG_S2T := netG_S2T w;
     netG_T2S := netG_T2S w;
     netD_S := v;
     netD_T := netD_T w;
     requires_grad_D_S := requires_grad_D_S w;
     requires_grad_D_T := requires_grad_D_T w;
     grads := grads w;
     optimizer_G := optimizer_G w;
     optimizer_D := optimizer_D w;
     lr_scheduler_G := lr_scheduler_G w;
     lr_scheduler_D := lr_scheduler_D w;
     fake_S_pool := fake_S_pool w;
     fake_T_pool := fake_T_pool w;
     train_source_iter := train_source_iter w;
     train_target_iter := train_target_iter w;
     rng := rng w;
     log := log w;
     files := files w |}.

Definition set_netD_T (v : weights_D) (w : world) : world :=
  {| netG_S2T := netG_S2T w;
     netG_T2S := netG_T2S w;
     netD_S := netD_S w;
     netD_T := v;
     requires_grad_D_S := requires_grad_D_S w;
     requires_grad_D_T := requires_grad_D_T w;
     grads := grads w;
     optimizer_G := optimizer_G w;
     optimizer_D := optimizer_D w;
     lr_scheduler_G := lr_scheduler_G w;
     lr_scheduler_D := lr_scheduler_D w;
     fake_S_pool := fake_S_pool w;
     fake_T_pool := fake_T_pool w;
     train_source_iter := train_source_iter w;
     train_target_iter := train_target_iter w;
     rng := rng w;
     log := log w;
     files := files w |}.

Definition set_requires_grad_D_S (v : bool) (w : world) : world :=
  {| netG_S2T := netG_S2T w;
     netG_T2S := netG_T2S w;
     netD_S := netD_S w;
     netD_T := netD_T w;
     requires_grad_D_S := v;
     requires_grad_D_T := requires_grad_D_T w;
     grads := grads w;
     optimizer_G := optimizer_G w;
     optimizer_D := optimizer_D w;
     lr_scheduler_G := lr_scheduler_G w;
     lr_scheduler_D := lr_scheduler_D w;
     fake_S_pool := fake_S_pool w;
     fake_T_pool := fake_T_pool w;
     train_source_iter := train_source_iter w;
     train_target_iter := train_target_iter w;
     rng := rng w;
     log := log w;
     files := files w |}.

Definition set_requires_grad_D_T (v : bool) (w : world) : world :=
  {| netG_S2T := netG_S2T w;
     netG_T2S := netG_T2S w;
     netD_S := netD_S w;
     netD_T := netD_T w;
     requires_grad_D_S := requires_grad_D_S w;
     requires_grad_D_T := v;
     grads := grads w;
     optimizer_G := optimizer_G w;
     optimizer_D := optimizer_D w;
     lr_scheduler_G := lr_scheduler_G w;
     lr_scheduler_D := lr_scheduler_D w;
     fake_S_pool := fake_S_pool w;
     fake_T_pool := fake_T_pool w;
     train_source_iter := train_source_iter w;
     train_target_iter := train_target_iter w;
     rng := rng w;
     log := log w;
     files := files w |}.

Definition set_grads (v : list (param_group * lnode)) (w : world) : world :=
  {| netG_S2T := netG_S2T w;
     netG_T2S := netG_T2S w;
     netD_S := netD_S w;
     netD_T := netD_T w;
     requires_grad_D_S := requires_grad_D_S w;
     requires_grad_D_T := requires_grad_D_T w;
     grads := v;
     optimizer_G := optimizer_G w;
     optimizer_D := optimizer_D w;
     lr_scheduler_G := lr_scheduler_G w;
     lr_scheduler_D := lr_scheduler_D w;
     fake_S_pool := fake_S_pool w;
     fake_T_pool := fake_T_pool w;
     train_source_iter := train_source_iter w;
     train_target_iter := train_target_iter w;
     rng := rng w;
     log := log w;
     files := files w |}.

Definition set_optimizer_G (v : adam_state) (w : world) : world :=
  {| netG_S2T := netG_S2T w;
     netG_T2S := netG_T2S w;
     netD_S := netD_S w;
     netD_T := netD_T w;
     requires_grad_D_S := requires_grad_D_S w;
     requires_grad_D_T := requires_grad_D_T w;
     grads := grads w;
     optimizer_G := v;
     optimizer_D := optimizer_D w;
     lr_scheduler_G := lr_scheduler_G w;
     lr_scheduler_D := lr_scheduler_D w;
     fake_S_pool := fake_S_pool w;
     fake_T_pool := fake_T_pool w;
     train_source_iter := train_source_iter w;
     train_target_iter := train_target_iter w;
     rng := rng w;
     log := log w;
     files := files w |}.

Definition set_optimizer_D (v : adam_state) (w : world) : world :=
  {| netG_S2T := netG_S2T w;
     netG_T2S := netG_T2S w;
     netD_S := netD_S w;
     netD_T := netD_T w;
     requires_grad_D_S := requires_grad_D_S w;
     requires_grad_D_T := requires_grad_D_T w;
     grads := grads w;
     optimizer_G := optimizer_G w;
     optimizer_D := v;
     lr_scheduler_G := lr_scheduler_G w;
     lr_scheduler_D := lr_scheduler_D w;
     fake_S_pool := fake_S_pool w;
     fake_T_pool := fake_T_pool w;
     train_source_iter := train_source_iter w;
     train_target_iter := train_target_iter w;
     rng := rng w;
     log := log w;
     files := files w |}.

Definition set_lr_scheduler_G (v : sched_state) (w : world) : world :=
  {| netG_S2T := netG_S2T w;
     netG_T2S := netG_T2S w;
     netD_S := netD_S w;
     netD_T := netD_T w;
     requires_grad_D_S := requires_grad_D_S w;
     requires_grad_D_T := requires_grad_D_T w;
     grads := grads w;
     optimizer_G := optimizer_G w;
     optimizer_D := optimizer_D w;
     lr_scheduler_G := v;
     lr_scheduler_D := lr_scheduler_D w;
     fake_S_pool := fake_S_pool w;
     fake_T_pool := fake_T_pool w;
     train_source_iter := train_source_iter w;
     train_target_iter := train_target_iter w;
     rng := rng w;
     log := log w;
     files := files w |}.

Definition set_lr_scheduler_D (v : sched_state) (w : world) : world :=
  {| netG_S2T := netG_S2T w;
     netG_T2S := netG_T2S w;
     netD_S := netD_S w;
     netD_T := netD_T w;
     requires_grad_D_S := requires_grad_D_S w;
     requires_grad_D_T := requires_grad_D_T w;
     grads := grads w;
     optimizer_G := optimizer_G w;
     optimizer_D := optimizer_D w;
     lr_scheduler_G := lr_scheduler_G w;
     lr_scheduler_D := v;
     fake_S_pool := fake_S_pool w;
     fake_T_pool := fake_T_pool w;
     train_source_iter := train_source_iter w;
     train_target_iter := train_target_iter w;
     rng := rng w;
     log := log w;
     files := files w |}.

Definition set_fake_S_pool (v : pool) (w : world) : world :=
  {| netG_S2T := netG_S2T w;
     netG_T2S := netG_T2S w;
     netD_S := netD_S w;
     netD_T := netD_T w;
     requires_grad_D_S := requires_grad_D_S w;
     requires_grad_D_T := requires_grad_D_T w;
     grads := grads w;
     optimizer_G := optimizer_G w;
     optimizer_D := optimizer_D w;
     lr_scheduler_G := lr_scheduler_G w;
     lr_scheduler_D := lr_scheduler_D w;
     fake_S_pool := v;
     fake_T_pool := fake_T_pool w;
     train_source_iter := train_source_iter w;
     train_target_iter := train_target_iter w;
     rng := rng w;
     log := log w;
     files := files w |}.

Definition set_fake_T_pool (v : pool) (w : world) : world :=
  {| netG_S2T := netG_S2T w;
     netG_T2S := netG_T2S w;
     netD_S := netD_S w;
     netD_T := netD_T w;
     requires_grad_D_S := requires_grad_D_S w;
     requires_grad_D_T := requires_grad_D_T w;
     grads := grads w;
     optimizer_G := optimizer_G w;
     optimizer_D := optimizer_D w;
     lr_scheduler_G := lr_scheduler_G w;
     lr_scheduler_D := lr_scheduler_D w;
     fake_S_pool := fake_S_pool w;
     fake_T_pool := v;
     train_source_iter := train_source_iter w;
     train_target_iter := train_target_iter w;
     rng := rng w;
     log := log w;
     files := files w |}.

Definition set_train_source_iter (v : data_iter) (w : world) : world :=
  {| netG_S2T := netG_S2T w;
     netG_T2S := netG_T2S w;
     netD_S := netD_S w;
     netD_T := netD_T w;
     requires_grad_D_S := requires_grad_D_S w;
     requires_grad_D_T := requires_grad_D_T w;
     grads := grads w;
     optimizer_G := optimizer_G w;
     optimizer_D := optimizer_D w;
     lr_scheduler_G := lr_scheduler_G w;
     lr_scheduler_D := lr_scheduler_D w;
     fake_S_pool := fake_S_pool w;
     fake_T_pool := fake_T_pool w;
     train_source_iter := v;
     train_target_iter := train_target_iter w;
     rng := rng w;
     log := log w;
     files := files w |}.

Definition set_train_target_iter (v : data_iter) (w : world) : world :=
  {| netG_S2T := netG_S2T w;
     netG_T2S := netG_T2S w;
     netD_S := netD_S w;
     netD_T := netD_T w;
     requires_grad_D_S := requires_grad_D_S w;
     requires_grad_D_T := requires_grad_D_T w;
     grads := grads w;
     optimizer_G := optimizer_G w;
     optimizer_D := optimizer_D w;
     lr_scheduler_G := lr_scheduler_G w;
     lr_scheduler_D := lr_scheduler_D w;
     fake_S_pool := fake_S_pool w;
     fake_T_pool := fake_T_pool w;
     train_source_iter := train_source_iter w;
     train_target_iter := v;
     rng := rng w;
     log := log w;
     files := files w |}.

Definition set_rng (v : rng_state) (w : world) : world :=
  {| netG_S2T := netG_S2T w;
     netG_T2S := netG_T2S w;
     netD_S := netD_S w;
     netD_T := netD_T w;
     requires_grad_D_S := requires_grad_D_S w;
     requires_grad_D_T := requires_grad_D_T w;
     grads := grads w;
     optimizer_G := optimizer_G w;
     optimizer_D := optimizer_D w;
     lr_scheduler_G := lr_scheduler_G w;
     lr_scheduler_D := lr_scheduler_D w;
     fake_S_pool := fake_S_pool w;
     fake_T_pool := fake_T_pool w;
     train_source_iter := train_source_iter w;
     train_target_iter := train_target_iter w;
     rng := v;
     log := log w;
     files := files w |}.

Definition set_log (v : list event) (w : world) : world :=
  {| netG_S2T := netG_S2T w;
     netG_T2S := netG_T2S w;
     netD_S := netD_S w;
     netD_T := netD_T w;
     requires_grad_D_S := requires_grad_D_S w;
     requires_grad_D_T := requires_grad_D_T w;
     grads := grads w;
     optimizer_G := optimizer_G w;
     optimizer_D := optimizer_D w;
     lr_scheduler_G := lr_scheduler_G w;
     lr_scheduler_D := lr_scheduler_D w;
     fake_S_pool := fake_S_pool w;
     fake_T_pool := fake_T_pool w;
     train_source_iter := train_source_iter w;
     train_target_iter := train_target_iter w;
     rng := rng w;
     log := v;
     files := files w |}.

Definition set_files (v : gmap string checkpoint) (w : world) : world :=
  {| netG_S2T := netG_S2T w;
     netG_T2S := netG_T2S w;
     netD_S := netD_S w;
     netD_T := netD_T w;
     requires_grad_D_S := requires_grad_D_S w;
     requires_grad_D_T := requires_grad_D_T w;
     grads := grads w;
     optimizer_G := optimizer_G w;
     optimizer_D := optimizer_D w;
     lr_scheduler_G := lr_scheduler_G w;
     lr_scheduler_D := lr_scheduler_D w;
     fake_S_pool := fake_S_pool w;
     fake_T_pool := fake_T_pool w;
     train_source_iter := train_source_iter w;
     train_target_iter := train_target_iter w;
     rng := rng w;
     log := log w;
     files := v |}.

(** ** Statements as state transformers that may raise *)

Definition M (A : Type) : Type := world -> world * result A.

Definition ret {A} (a : A) : M A := fun w => (w, Ok a).

Definition bind {A B} (m : M A) (f : A -> M B) : M B :=
  fun w => match m w with
           | (w', Ok a) => f a w'
           | (w', Raise e) => (w', Raise e)
           end.

Definition raise {A} (e : exn) : M A := fun w => (w, Raise e).

Definition get : M world := fun w => (w, Ok w).

Definition modify (f : world -> world) : M unit := fun w => (f w, Ok tt).

End Training.

Notation "'let*' x ':=' m 'in' k" := (bind m (fun x => k))
  (at level 10, x name, m at level 100, k at level 200).
Notation "m ;; k" := (bind m (fun _ => k))
  (at level 100, k at level 200, right associativity).

(** ** The training loop *)

Section Train.

Context `{Trainer}.

(** [log] holds the events so far, the latest first. *)
Definition emit (e : event) : M unit :=
  modify (fun w => set_log (e :: log w) w).

Definition weights_of_G (w : world) (g : gen) : weights_G :=
  match g with G_S2T => netG_S2T w | G_T2S => netG_T2S w end.

Definition weights_of_D (w : world) (d : dis) : weights_D :=
  match d with D_S => netD_S w | D_T => netD_T w end.

Definition requires_grad_of (w : world) (d : dis) : bool :=
  match d with D_S => requires_grad_D_S w | D_T => requires_grad_D_T w end.

(** [netG_S2T(x)], [netG_T2S(x)] *)
Definition call_G (g : gen) (x : tnode) : M tnode :=
  let* w := get in ret (Forward_G g (weights_of_G w g) x).

(** [netD_S(x)], [netD_T(x)] *)
Definition call_D (d : dis) (x : tnode) : M tnode :=
  let* w := get in ret (Forward_D d (weights_of_D w d) (requires_grad_of w d) x).

(** Modelled from the spec: [set_requires_grad(net, requires_grad)] of
    [dalib.translation.cyclegan.util], which is not among the sources; it
    sets [requires_grad] on every parameter of the network. *)
Definition set_requires_grad (d : dis) (flag : bool) : M unit :=
  modify (match d with
          | D_S => set_requires_grad_D_S flag
          | D_T => set_requires_grad_D_T flag
          end) ;;
  emit (EvSetRequiresGrad d flag).

(** [optimizer.zero_grad()]: forget what its parameters accumulated *)
Definition zero_grad (o : optimizer) : M unit :=
  modify (fun w => set_grads (filter (fun pl => owner (fst pl) <> o) (grads w)) w) ;;
  emit (EvZeroGrad o).

(** [loss.backward()]: every group the graph reaches accumulates *)
Definition backward (l : lnode) : M unit :=
  modify (fun w => set_grads (grads w ++ map (fun p => (p, l)) (receivers l)) w) ;;
  emit (EvBackward l).

(** [optimizer.step()] *)
Definition step (o : optimizer) : M unit :=
  modify (fun w =>
    let g := filter (fun pl => owner (fst pl) = o) (grads w) in
    match o with
    | Opt_G =>
        let r := adam_G (optimizer_G w) (netG_S2T w, netG_T2S w) g in
        set_optimizer_G (fst r)
          (set_netG_S2T (fst (snd r)) (set_netG_T2S (snd (snd r)) w))
    | Opt_D =>
        let r := adam_D (optimizer_D w) (netD_S w, netD_T w) g in
        set_optimizer_D (fst r)
          (set_netD_S (fst (snd r)) (set_netD_T (snd (snd r)) w))
    end) ;;
  emit (EvStep o).

(** [fake_S_pool.query(x)] *)
Definition query_S (x : tnode) : M tnode :=
  fun w =>
    let r := query (fake_S_pool w) (rng w) (tvalue x) in
    (set_fake_S_pool (snd (fst r)) (set_rng (snd r) w), Ok (Leaf (fst (fst r)))).

(** [fake_T_pool.query(x)] *)
Definition query_T (x : tnode) : M tnode :=
  fun w =>
    let r := query (fake_T_pool w) (rng w) (tvalue x) in
    (set_fake_T_pool (snd (fst r)) (set_rng (snd r) w), Ok (Leaf (fst (fst r)))).

(** [real_S, _ = next(train_source_iter)] *)
Definition next_source : M tnode :=
  fun w =>
    let r := next_batch (train_source_iter w) in
    (set_train_source_iter (snd r) w, Ok (Leaf (fst r))).

(** [real_T, _ = next(train_target_iter)] *)
Definition next_target : M tnode :=
  fun w =>
    let r := next_batch (train_target_iter w) in
    (set_train_target_iter (snd r) w, Ok (Leaf (fst r))).

(** The criteria [train] is called with *)
Record criteria : Type := {
  criterion_gan : tnode -> bool -> lnode;
  criterion_cycle : tnode -> tnode -> lnode;
  criterion_identity : tnode -> tnode -> lnode
}.

(** The local variables of one round of the loop of [train] *)
Record locals : Type := {
  real_S : tnode; real_T : tnode;
  fake_S : tnode; fake_T : tnode;
  rec_S : tnode; rec_T : tnode;
  identity_S : tnode; identity_T : tnode;
  fake_S_ : tnode; fake_T_ : tnode;
  loss_G_S2T : lnode; loss_G_T2S : lnode;
  loss_cycle_S : lnode; loss_cycle_T : lnode;
  loss_identity_S : lnode; loss_identity_T : lnode;
  loss_G : lnode; loss_D_S : lnode; loss_D_T : lnode
}.

(** One round of the loop of [train], from the two [next] calls to
    [optimizer_D.step()] *)
Definition train_step (a : args) (c : criteria) : M locals :=
  let* real_S := next_source in
  let* real_T := next_target in
  (* Compute fake images and reconstruction images. *)
  let* fake_T := call_G G_S2T real_S in
  let* rec_S := call_G G_T2S fake_T in
  let* fake_S := call_G G_T2S real_T in
  let* rec_T := call_G G_S2T fake_S in
  (* Optimizing generators; discriminators require no gradients *)
  set_requires_grad D_S false ;;
  set_requires_grad D_T false ;;
  zero_grad Opt_G ;;
  let* d_fake_T := call_D D_T fake_T in
  let loss_G_S2T := criterion_gan c d_fake_T true in
  let* d_fake_S := call_D D_S fake_S in
  let loss_G_T2S := criterion_gan c d_fake_S true in
  let loss_cycle_S := LMulR (criterion_cycle c rec_S real_S) (trade_off_cycle a) in
  let loss_cycle_T := LMulR (criterion_cycle c rec_T real_T) (trade_off_cycle a) in
  let* identity_T := call_G G_S2T real_T in
  let loss_identity_T :=
    LMulR (criterion_identity c identity_T real_T) (trade_off_identity a) in
  let* identity_S := call_G G_T2S real_S in
  let loss_identity_S :=
    LMulR (criterion_identity c identity_S real_S) (trade_off_identity a) in
  let loss_G :=
    LAdd (LAdd (LAdd (LAdd (LAdd loss_G_S2T loss_G_T2S) loss_cycle_S) loss_cycle_T)
               loss_identity_S) loss_identity_T in
  backward loss_G ;;
  step Opt_G ;;
  (* Optimize discriminator *)
  set_requires_grad D_S true ;;
  set_requires_grad D_T true ;;
  zero_grad Opt_D ;;
  let* fake_S_ := query_S (detach fake_S) in
  let* d_real_S := call_D D_S real_S in
  let* d_pool_S := call_D D_S fake_S_ in
  let loss_D_S :=
    LMulL s_half (LAdd (criterion_gan c d_real_S true) (criterion_gan c d_pool_S false)) in
  backward loss_D_S ;;
  let* fake_T_ := query_T (detach fake_T) in
  let* d_real_T := call_D D_T real_T in
  let* d_pool_T := call_D D_T fake_T_ in
  let loss_D_T :=
    LMulL s_half (LAdd (criterion_gan c d_real_T true) (criterion_gan c d_pool_T false)) in
  backward loss_D_T ;;
  step Opt_D ;;
  ret {| real_S := real_S; real_T := real_T; fake_S := fake_S; fake_T := fake_T;
         rec_S := rec_S; rec_T := rec_T;
         identity_S := identity_S; identity_T := identity_T;
         fake_S_ := fake_S_; fake_T_ := fake_T_;
         loss_G_S2T := loss_G_S2T; loss_G_T2S := loss_G_T2S;
         loss_cycle_S := loss_cycle_S; loss_cycle_T := loss_cycle_T;
         loss_identity_S := loss_identity_S; loss_identity_T := loss_identity_T;
         loss_G := loss_G; loss_D_S := loss_D_S; loss_D_T := loss_D_T |}.

(** The eight [update] calls that follow [optimizer_D.step()] *)
Definition update_meters (ms : meters) (v : locals) : meters :=
  let n := size0 (tvalue (real_S v)) in
  {| losses_G_S2T := update (losses_G_S2T ms) (item_of (loss_G_S2T v)) n;
     losses_G_T2S := update (losses_G_T2S ms) (item_of (loss_G_T2S v)) n;
     losses_D_S := update (losses_D_S ms) (item_of (loss_D_S v)) n;
     losses_D_T := update (losses_D_T ms) (item_of (loss_D_T v)) n;
     losses_cycle_S := update (losses_cycle_S ms) (item_of (loss_cycle_S v)) n;
     losses_cycle_T := update (losses_cycle_T ms) (item_of (loss_cycle_T v)) n;
     losses_identity_S := update (losses_identity_S ms) (item_of (loss_identity_S v)) n;
     losses_identity_T := update (losses_identity_T ms) (item_of (loss_identity_T v)) n |}.

(** [for tensor, name in zip([...], [...]): visualize(tensor[0], ...)] *)
Fixpoint visualize_all (i : Z) (l : list (tnode * string)) : M unit :=
  match l with
  | [] => ret tt
  | (x, nm) :: rest =>
      emit (EvVisualize i nm (index0 (tvalue x))) ;; visualize_all i rest
  end.

(** [if i % args.print_freq == 0: ...] *)
Definition display (a : args) (i : Z) (ms : meters) (v : locals) : M unit :=
  if print_freq a =? 0 then raise ZeroDivisionError
  else if i mod print_freq a =? 0 then
    emit (EvDisplay i (meter_list ms)) ;;
    visualize_all i
      (Py.zip [real_S v; real_T v; fake_S v; fake_T v; rec_S v; rec_T v;
               identity_S v; identity_T v]
              ["real_S"; "real_T"; "fake_S"; "fake_T"; "rec_S"; "rec_T";
               "identity_S"; "identity_T"])
  else ret tt.

(** The body of the loop of [train] *)
Definition train_body (a : args) (c : criteria) (i : Z) (ms : meters) : M meters :=
  let* v := train_step a c in
  let ms := update_meters ms v in
  display a i ms v ;;
  ret ms.

(** [for i in ...:] with the meters as loop-carried state *)
Fixpoint train_loop (a : args) (c : criteria) (iters : list Z) (ms : meters) : M meters :=
  match iters with
  | [] => ret ms
  | i :: rest =>
      let* ms := train_body a c i ms in
      train_loop a c rest ms
  end.

(** [train(...)]: the networks, optimizers, pools and iterators it is
    handed live in the state. The first event marks the call. *)
Definition train (a : args) (c : criteria) (epoch : Z) : M unit :=
  emit (EvTrain epoch) ;;
  let ms := meters_new in
  train_loop a c (Py.range 0 (iters_per_epoch a)) ms ;;
  ret tt.

(** ** The epoch loop of [main] *)

(** The criteria [main] creates *)
Definition main_criteria : criteria :=
  {| criterion_gan := GanLoss; criterion_cycle := L1Loss;
     criterion_identity := L1Loss |}.

(** [torch.load(path)] *)
Definition torch_load (path : string) : M checkpoint :=
  fun w => match files w !! path with
           | Some c => (w, Ok c)
           | None => (w, Raise FileNotFoundError)
           end.

(** [lr_scheduler.step()] *)
Definition scheduler_step (o : optimizer) : M unit :=
  modify (fun w =>
    match o with
    | Opt_G =>
        let r := sched_step (lr_scheduler_G w) (optimizer_G w) in
        set_lr_scheduler_G (fst r) (set_optimizer_G (snd r) w)
    | Opt_D =>
        let r := sched_step (lr_scheduler_D w) (optimizer_D w) in
        set_lr_scheduler_D (fst r) (set_optimizer_D (snd r) w)
    end) ;;
  emit (EvSchedulerStep o).

(** The dictionary built for [torch.save] *)
Definition state_dicts (w : world) (epoch : Z) (a : args) : checkpoint :=
  {| ck_netG_S2T := netG_S2T w; ck_netG_T2S := netG_T2S w;
     ck_netD_S := netD_S w; ck_netD_T := netD_T w;
     ck_optimizer_G := optimizer_G w; ck_optimizer_D := optimizer_D w;
     ck_lr_scheduler_G := lr_scheduler_G w; ck_lr_scheduler_D := lr_scheduler_D w;
     ck_epoch := epoch; ck_args := a |}.

(** [torch.save({...}, logger.get_checkpoint_path('latest'))] *)
Definition save_checkpoint (a : args) (epoch : Z) : M unit :=
  let* w := get in
  let c := state_dicts w epoch a in
  let path := get_checkpoint_path (log_root a) "latest" in
  modify (fun w => set_files (<[path := c]> (files w)) w) ;;
  emit (EvSave path c).

(** The [if args.resume:] block: returns [args] with [start_epoch] set *)
Definition resume_from (a : args) : M args :=
  match resume a with
  | Some path =>
      if String.eqb path "" then ret a
      else
        let* c := torch_load path in
        modify (set_netG_S2T (ck_netG_S2T c)) ;;
        modify (set_netG_T2S (ck_netG_T2S c)) ;;
        modify (set_netD_S (ck_netD_S c)) ;;
        modify (set_netD_T (ck_netD_T c)) ;;
        modify (set_optimizer_G (ck_optimizer_G c)) ;;
        modify (set_optimizer_D (ck_optimizer_D c)) ;;
        modify (set_lr_scheduler_G (ck_lr_scheduler_G c)) ;;
        modify (set_lr_scheduler_D (ck_lr_scheduler_D c)) ;;
        ret (set_start_epoch (ck_epoch c + 1) a)
  | None => ret a
  end.

(** The body of [for epoch in range(...)]. [logger.set_epoch] and the
    printing of the learning rate only write to the console and are left
    out. *)
Definition epoch_body (a : args) (epoch : Z) : M unit :=
  train a main_criteria epoch ;;
  scheduler_step Opt_G ;;
  scheduler_step Opt_D ;;
  save_checkpoint a epoch.

Fixpoint epoch_loop (a : args) (es : list Z) : M unit :=
  match es with
  | [] => ret tt
  | epoch :: rest => epoch_body a epoch ;; epoch_loop a rest
  end.

(** [lr_decay_function = lambda epoch:
      1.0 - max(0, epoch - args.epochs) / float(args.epochs_decay)].
    The division of floats raises when the divisor is [0.0]; the value is
    written in the float arithmetic of [Torch]. The integers are epoch
    counts, within the range of a float. *)
Definition lr_decay_function (a : args) (epoch : Z) : result scalar :=
  if epochs_decay a =? 0 then Raise ZeroDivisionError
  else Ok (s_sub (s_of_Z 1)
             (s_div (s_of_Z (Z.max 0 (epoch - epochs a))) (s_of_Z (epochs_decay a)))).

(** [LambdaLR(optimizer, lr_lambda=lr_decay_function)]: the constructor
    takes the initial step of the scheduler, which calls [lr_lambda(0)].
    When the call returns, the scheduler built is the one the state
    holds. *)
Definition LambdaLR (a : args) : M unit :=
  match lr_decay_function a 0 with
  | Raise e => raise e
  | Ok _ => ret tt
  end.

(** [main(args)] from the construction of the two schedulers to the end
    of the training phase. The state it starts in holds the freshly built
    networks, pools, optimizers and iterators, the schedulers as their
    constructors leave them, and the logger ([get_checkpoint_path]). *)
Definition main (a : args) : M unit :=
  LambdaLR a ;;
  LambdaLR a ;;
  let* a := resume_from a in
  if String.eqb (phase a) "train"
  then epoch_loop a (Py.range (start_epoch a) (epochs a + epochs_decay a))
  else ret tt.

End Train.

(** ** A small concrete instance, to run the definitions on *)

(** A batch is a number, a network a number added or multiplied to it. *)
#[global] Instance toy_torch : Torch := {|
  tensor := Z;
  scalar := Q;
  weights_G := Z;
  weights_D := Z;
  forward_G w x := w + x;
  forward_D w x := w * x;
  gan_value x real := inject_Z (if real then (x - 1) * (x - 1) else x * x);
  l1_value x y := inject_Z (Z.abs (x - y));
  s_add := Qplus;
  s_sub := Qminus;
  s_mul := Qmult;
  s_div := Qdiv;
  s_of_Z := inject_Z;
  s_half := Qmake 1 2;
  size0 _ := 2;
  index0 x := x
|}.

#[global] Instance toy_trainer : Trainer := {|
  adam_state := nat;
  sched_state := nat;
  pool := list Z;
  data_iter := Z;
  rng_state := nat;
  adam_G st ws g := (S st, (fst ws - Z.of_nat (length g), snd ws - 1));
  adam_D st ws g := (S st, (fst ws + Z.of_nat (length g), snd ws + 1));
  sched_step s st := (S s, st);
  query p r x := (hd x p, x :: p, S r);
  next_batch n := (n, n + 1);
  get_checkpoint_path root nm := root +:+ "/checkpoints/" +:+ nm +:+ ".pth"
|}.

Definition toy_world : world :=
  {| netG_S2T := 1; netG_T2S := 2; netD_S := 3; netD_T := 4;
     requires_grad_D_S := true; requires_grad_D_T := true;
     grads := [];
     optimizer_G := 0%nat; optimizer_D := 0%nat;
     lr_scheduler_G := 0%nat; lr_scheduler_D := 0%nat;
     fake_S_pool := []; fake_T_pool := [];
     train_source_iter := 10; train_target_iter := 20;
     rng := 0%nat; log := []; files := ∅ |}.

Definition toy_args : args :=
  {| start_epoch := 0; epochs := 1; epochs_decay := 1; iters_per_epoch := 2;
     print_freq := 2; trade_off_cycle := inject_Z 10; trade_off_identity := inject_Z 5;
     resume := None; phase := "train"; log_root := "cyclegan" |}.

(** ** Reading the log *)

Section Reading.

Context `{Trainer}.

(** The optimisation events of a run, with each [backward] reduced to the
    parameter groups it reaches *)
Inductive op : Set :=
| OpSetRequiresGrad (d : dis) (flag : bool)
| OpZeroGrad (o : optimizer)
| OpBackward (to : list param_group)
| OpStep (o : optimizer).

Definition optim_op (e : event) : option op :=
  match e with
  | EvSetRequiresGrad d flag => Some (OpSetRequiresGrad d flag)
  | EvZeroGrad o => Some (OpZeroGrad o)
  | EvBackward l => Some (OpBackward (receivers l))
  | EvStep o => Some (OpStep o)
  | _ => None
  end.

(** The order of one round: the generator update with both discriminators
    frozen, then the discriminator update. *)
Definition iteration_ops : list op :=
  [OpSetRequiresGrad D_S false; OpSetRequiresGrad D_T false;
   OpZeroGrad Opt_G; OpBackward [OfG G_S2T; OfG G_T2S]; OpStep Opt_G;
   OpSetRequiresGrad D_S true; OpSetRequiresGrad D_T true;
   OpZeroGrad Opt_D; OpBackward [OfD D_S]; OpBackward [OfD D_T]; OpStep Opt_D].

(** The rounds [train] runs: all of them, or the first only when
    [print_freq] is 0 and [i % args.print_freq] raises. *)
Definition iterations_run (a : args) : nat :=
  let n := Z.to_nat (iters_per_epoch a) in
  if print_freq a =? 0 then Nat.min 1 n else n.

(** The events of one round, in order *)
Definition step_events (v : locals) : list event :=
  [EvSetRequiresGrad D_S false; EvSetRequiresGrad D_T false; EvZeroGrad Opt_G;
   EvBackward (loss_G v); EvStep Opt_G;
   EvSetRequiresGrad D_S true; EvSetRequiresGrad D_T true; EvZeroGrad Opt_D;
   EvBackward (loss_D_S v); EvBackward (loss_D_T v); EvStep Opt_D].

(** The events of the epoch loop of [main] *)
Inductive main_op : Set :=
| MTrain (epoch : Z)
| MSchedulerStep (o : optimizer)
| MSave (path : string) (epoch : Z).

Definition main_op_of (e : event) : option main_op :=
  match e with
  | EvTrain epoch => Some (MTrain epoch)
  | EvSchedulerStep o => Some (MSchedulerStep o)
  | EvSave path c => Some (MSave path (ck_epoch c))
  | _ => None
  end.

Definition epoch_ops (latest : string) (epoch : Z) : list main_op :=
  [MTrain epoch; MSchedulerStep Opt_G; MSchedulerStep Opt_D; MSave latest epoch].

(** The state in which round [k] of a call of [train] starts *)
Definition world_before (a : args) (c : criteria) (k : nat) (w0 : world) : world :=
  fst (train_loop a c (Py.range 0 (Z.of_nat k)) meters_new w0).

(** The weighted sum and the total weight of a list of values with their
    weights, added up from the left as a meter does *)
Definition weighted_sum (l : list (scalar * Z)) : scalar :=
  fold_left (fun s vn => s_add s (s_mul (fst vn) (s_of_Z (snd vn)))) l (s_of_Z 0).

Definition total_weight (l : list (scalar * Z)) : Z :=
  fold_left (fun n vn => n + snd vn) l 0.

Definition running_average (l : list (scalar * Z)) : scalar :=
  s_div (weighted_sum l) (s_of_Z (total_weight l)).

(** The values one loss takes over some rounds, each with the size of the
    source batch of its round *)
Definition loss_series (sel : locals -> lnode) (vs : list locals) : list (scalar * Z) :=
  map (fun v => (item_of (sel v), size0 (tvalue (real_S v)))) vs.

(** A meter holds the sum, the count and, once updated, the average of the
    series [l]. *)
Definition tracks (m : AverageMeter) (l : list (scalar * Z)) : Prop :=
  sum m = weighted_sum l /\ count m = total_weight l /\
  (l <> [] -> avg m = running_average l).


(** The eight meters hold the series of their losses over the rounds [vs]. *)
Definition meters_track (ms : meters) (vs : list locals) : Prop :=
  Forall2 (fun m sel => tracks m (loss_series sel vs))
    (meter_list ms)
    [loss_G_S2T; loss_G_T2S; loss_D_S; loss_D_T;
     loss_cycle_S; loss_cycle_T; loss_identity_S; loss_identity_T].


End Reading.

(** ** Vocabulary and sample data for the dataset properties *)

(** The side [make_power_2] asks for *)
Definition target_side (o base : Z) : Z := Z.max (Py.round_div o base) 1 * base.

(** A list file with two lines, the second padded with blanks. *)
Definition voc_list : string :=
  "2007_000027" +:+ String Py.newline ("  2007_000032 " +:+ String Py.newline "").

Definition voc_files : gmap string string :=
  {[ "data/voc/ImageSets/Main/trainval.txt" := voc_list ]}.

Definition voc_dataset : @VOCImageFolder picture unit :=
  {| root := "data/voc"; transform := None;
     samples := ["data/voc/JPEGImages/2007_000027.jpg";
                 "data/voc/JPEGImages/2007_000032.jpg"];
     data_list_file := "data/voc/ImageSets/Main/trainval.txt" |}.

Definition voc_images : gmap string picture :=
  {[ "data/voc/JPEGImages/2007_000027.jpg" := Picture 10 7 0;
     "data/voc/JPEGImages/2007_000032.jpg" := Picture 8 8 5 ]}.

(** A list file naming an image by an absolute path outside the root. *)
Definition abs_files : gmap string string :=
  {[ "data/voc/ImageSets/Main/trainval.txt" := "/abs/img" +:+ String Py.newline "" ]}.

Definition abs_dataset : @VOCImageFolder picture unit :=
  {| root := "data/voc"; transform := None; samples := ["/abs/img.jpg"];
     data_list_file := "data/voc/ImageSets/Main/trainval.txt" |}.

Definition abs_images : gmap string picture := {[ "/abs/img.jpg" := Picture 10 7 0 ]}.

(** A translation that changes the pixels and keeps the sides. *)
Definition repaint (p : picture) : picture :=
  Picture (pic_w p) (pic_h p) (100 + pic_tag p).

(** The phase and the extension [build_dataset] picks for a name *)
Definition phase_of (dataset_name : string) : string :=
  if bool_decide (dataset_name = "WaterColor" \/ dataset_name = "Comic") then "train"
  else if bool_decide (dataset_name = "Sim10k") then "trainval10k"
  else "trainval".

Definition extension_of (dataset_name : string) : string :=
  if bool_decide (dataset_name = "Cityscapes" \/ dataset_name = "FoggyCityscapes")
  then ".png" else ".jpg".

(** Two datasets: one list file with two lines, one with one. *)
Definition two_files : gmap string string :=
  {[ "data/voc/ImageSets/Main/trainval.txt" := voc_list;
     "data/city/ImageSets/Main/trainval.txt" := "aachen_000000" +:+ String Py.newline "" ]}.

(** The same arguments with [print_freq] 0, and with a checkpoint to resume *)
Definition toy_args_no_print : args :=
  {| start_epoch := 0; epochs := 1; epochs_decay := 1; iters_per_epoch := 2;
     print_freq := 0; trade_off_cycle := inject_Z 10; trade_off_identity := inject_Z 5;
     resume := None; phase := "train"; log_root := "cyclegan" |}.

Definition toy_args_resume : args :=
  {| start_epoch := 0; epochs := 1; epochs_decay := 2; iters_per_epoch := 2;
     print_freq := 2; trade_off_cycle := inject_Z 10; trade_off_identity := inject_Z 5;
     resume := Some "cyclegan/checkpoints/latest.pth"; phase := "train";
     log_root := "cyclegan" |}.

(** One epoch to train and none of decay *)
Definition toy_args_no_decay : args :=
  {| start_epoch := 0; epochs := 1; epochs_decay := 0; iters_per_epoch := 2;
     print_freq := 2; trade_off_cycle := inject_Z 10; trade_off_identity := inject_Z 5;
     resume := None; phase := "train"; log_root := "cyclegan" |}.

(** The state a first run of two epochs leaves behind *)
Definition toy_world_after : world := fst (main toy_args toy_world).

#[global] Instance picture_laws : PilLaws picture.
Proof. split; reflexivity. Qed.

Example strip_line : Py.strip ("  2007_000027 " +:+ String Py.newline "") = "2007_000027".
Proof. reflexivity. Qed.

Example replace_root :
  Py.replace "data/voc" "out" "data/voc/JPEGImages/a.jpg" = "out/JPEGImages/a.jpg".
Proof. reflexivity. Qed.

Example replace_empty_old : Py.replace "" "-" "ab" = "-a-b-".
Proof. reflexivity. Qed.

Example replace_no_overlap : Py.replace "aa" "b" "aaaaa" = "bba".
Proof. reflexivity. Qed.

Example join_voc : Py.join "data/voc" ["JPEGImages"; "a.jpg"] = "data/voc/JPEGImages/a.jpg".
Proof. reflexivity. Qed.

Example join_trailing_sep : Py.join "data/" ["JPEGImages"; "a.jpg"] = "data/JPEGImages/a.jpg".
Proof. reflexivity. Qed.

Example dirname_cases :
  map Py.dirname ["/abs/img.jpg"; "img.jpg"; "/x"; "a//b"; "//x"; "a/"; ""]
  = ["/abs"; ""; "/"; "a"; "//"; "a"; ""].
Proof. reflexivity. Qed.

Example readlines_two :
  Py.readlines ("a" +:+ String Py.newline "b") = ["a" +:+ String Py.newline ""; "b"].
Proof. reflexivity. Qed.

Example round_div_ties : (Py.round_div 2 4, Py.round_div 6 4, Py.round_div 10 4, Py.round_div 7 4) = (0, 2, 2, 2).
Proof. reflexivity. Qed.


(** ** The translation phase of [main] *)

(** Iterating over a [str] yields its characters, each a string of length 1. *)
Fixpoint str_iter (s : string) : list string :=
  match s with
  | EmptyString => []
  | String c s' => String c EmptyString :: str_iter s'
  end.

(** [s.isspace()] for every character of [s] (true for the empty string) *)
Fixpoint all_space (s : string) : bool :=
  match s with
  | EmptyString => true
  | String c s' => Py.isspace c && all_space s'
  end.

Section Translation.

Context {image : Type} `{Pil image} {item : Type}.

(** [for dataset, root in zip(datasets, roots):
       dataset.translate(transform, root, image_base=args.image_base)];
    an exception ends the loop and leaves the files as they are then. *)
Fixpoint translate_all (tf : image -> image) (image_base : Z)
    (pairs : list (@VOCImageFolder image item * string))
    (images : gmap string image) : gmap string image * option exn :=
  match pairs with
  | [] => (images, None)
  | (dataset, target_root) :: rest =>
      match translate dataset tf target_root image_base images with
      | (images', Some e) => (images', Some e)
      | (images', None) => translate_all tf image_base rest images'
      end
  end.

(** The two [if args.translated_... is not None:] blocks that end [main].
    [--translated-source] is declared with [nargs='+'], so it is a list of
    roots; [--translated-target] is declared without, so it is one string
    and [zip] walks over its characters. [tf_S2T] and [tf_T2S] are the
    [Translation] transforms made from the two generators. *)
Definition main_translate (source_datasets target_datasets : list (@VOCImageFolder image item))
    (translated_source : option (list string)) (translated_target : option string)
    (tf_S2T tf_T2S : image -> image) (image_base : Z)
    (images : gmap string image) : gmap string image * option exn :=
  let after_source :=
    match translated_source with
    | None => (images, None)
    | Some roots =>
        translate_all tf_S2T image_base (Py.zip source_datasets roots) images
    end in
  match snd after_source with
  | Some e => (fst after_source, Some e)
  | None =>
      match translated_target with
      | None => (fst after_source, None)
      | Some s =>
          translate_all tf_T2S image_base (Py.zip target_datasets (str_iter s))
            (fst after_source)
      end
  end.

(** The path [translate] saves the sample [path] under *)
Definition translated_path (self : @VOCImageFolder image item) (target_root path : string)
    : string :=
  Py.replace (root self) target_root path.

End Translation.

(** ** What [train] shows *)

(** The display events of a run *)
Inductive shown : Set :=
| ShDisplay (i : Z)
| ShVisualize (i : Z) (name : string).

Definition shown_of `{Trainer} (e : event) : option shown :=
  match e with
  | EvDisplay i _ => Some (ShDisplay i)
  | EvVisualize i nm _ => Some (ShVisualize i nm)
  | _ => None
  end.

(** What round [i] shows: the progress line and the eight images, when
    [i % print_freq == 0] *)
Definition round_shows (freq i : Z) : list shown :=
  if i mod freq =? 0
  then ShDisplay i ::
       map (ShVisualize i)
         ["real_S"; "real_T"; "fake_S"; "fake_T"; "rec_S"; "rec_T";
          "identity_S"; "identity_T"]
  else [].

(** ** More sample data *)

(** A list file with a name and a blank line, under an absolute root *)
Definition blank_list : string :=
  "2007_000027" +:+ String Py.newline (String " " (String Py.newline "")).

Definition rooted_files : gmap string string :=
  {[ "/data/voc/ImageSets/Main/trainval.txt" := blank_list ]}.

(** A second run over the checkpoint of the first, with no epoch left *)
Definition toy_args_again : args :=
  {| start_epoch := 0; epochs := 1; epochs_decay := 1; iters_per_epoch := 2;
     print_freq := 2; trade_off_cycle := inject_Z 10; trade_off_identity := inject_Z 5;
     resume := Some "cyclegan/checkpoints/latest.pth"; phase := "train";
     log_root := "cyclegan" |}.

(** * Properties *)

(** ** Rounding *)

Lemma round_div_exact (k b : Z) : 0 < b -> Py.round_div (k * b) b = k.
Proof.
  intros Hb. unfold Py.round_div.
  rewrite Z.div_mul, Z.mod_mul by lia.
  change (2 * Z.abs 0) with 0.
  destruct (Z.compare_spec 0 (Z.abs b)); lia.
Qed.

(** [round_div] is a nearest integer to the quotient. *)
Lemma round_div_nearest (a b : Z) :
  0 < b -> 2 * Z.abs (a - b * Py.round_div a b) <= b.
Proof.
  intros Hb. unfold Py.round_div.
  pose proof (Z.div_mod a b ltac:(lia)) as Hdm.
  pose proof (Z.mod_pos_bound a b Hb) as Hm.
  rewrite (Z.abs_eq (a mod b)), (Z.abs_eq b) by lia.
  destruct (Z.compare_spec (2 * (a mod b)) b); [destruct (Z.even (a / b))| |]; lia.
Qed.

Lemma round_div_nonneg (a b : Z) : 0 <= a -> 0 < b -> 0 <= Py.round_div a b.
Proof.
  intros Ha Hb. unfold Py.round_div.
  pose proof (Z.div_pos a b Ha Hb).
  destruct (Z.compare _ _); [destruct (Z.even _)| |]; lia.
Qed.

(** ** [make_power_2] *)

Section MakePower2.

Context {image : Type} `{PilLaws image}.

Lemma target_side_pos (o base : Z) : 0 < base -> 0 < target_side o base.
Proof. intros. unfold target_side. nia. Qed.

Lemma target_side_multiple (o base : Z) : (base | target_side o base).
Proof. unfold target_side. apply Z.divide_factor_r. Qed.

Lemma target_side_fixed (o base : Z) :
  0 < o -> 0 < base -> (base | o) -> target_side o base = o.
Proof.
  intros Ho Hb [k ->]. unfold target_side.
  rewrite round_div_exact by lia. nia.
Qed.

Lemma resize_other_size (img : image) (w h : Z) (m : option resample) :
  0 < w -> 0 < h -> img_size img <> (w, h) ->
  resize img (w, h) m = Ok (img_resize img (w, h) m).
Proof.
  intros Hw Hh Hne. unfold resize. cbn [fst snd].
  destruct (img_size img) as [ow oh]. cbn [fst snd].
  destruct (Z.eqb_spec ow w) as [->|_]; [destruct (Z.eqb_spec oh h) as [->|_]|];
    [congruence| |]; cbn [andb];
    destruct (Z.ltb_spec w 1); try lia; destruct (Z.ltb_spec h 1); try lia;
    reflexivity.
Qed.

Lemma resize_sized (img img' : image) (w h : Z) (m : option resample) :
  resize img (w, h) m = Ok img' -> img_size img' = (w, h).
Proof.
  unfold resize. cbn [fst snd].
  destruct (Z.eqb_spec (fst (img_size img)) w) as [Ew|_];
    [destruct (Z.eqb_spec (snd (img_size img)) h) as [Eh|_]|]; cbn [andb].
  - intros [= <-]. destruct (img_size img); simpl in *; congruence.
  - destruct (Z.ltb_spec w 1); [discriminate|].
    destruct (Z.ltb_spec h 1); [discriminate|]. cbn [orb].
    intros [= <-]. apply resize_size; lia.
  - destruct (Z.ltb_spec w 1); [discriminate|].
    destruct (Z.ltb_spec h 1); [discriminate|]. cbn [orb].
    intros [= <-]. apply resize_size; lia.
Qed.

Lemma make_power_2_resized (img : image) (base : Z) (m : resample) :
  0 < base ->
  exists img', make_power_2 img base m = Ok img' /\
    img_size img' = (target_side (fst (img_size img)) base,
                     target_side (snd (img_size img)) base) /\
    (img_size img' = img_size img -> img' = img).
Proof.
  intros Hb. unfold make_power_2.
  destruct (img_size img) as [ow oh] eqn:Hs. simpl.
  destruct (Z.eqb_spec base 0) as [|_]; [lia|].
  fold (target_side oh base). fold (target_side ow base).
  destruct (Z.eqb_spec (target_side oh base) oh) as [Hh|Hh];
    [destruct (Z.eqb_spec (target_side ow base) ow) as [Hw|Hw]|]; simpl.
  - exists img. rewrite Hs, Hh, Hw. auto.
  - rewrite resize_other_size by (auto using target_side_pos; congruence).
    eexists. split; [reflexivity|].
    rewrite resize_size by auto using target_side_pos.
    split; [reflexivity|]. intros [= ? ?]. congruence.
  - rewrite resize_other_size by (auto using target_side_pos; congruence).
    eexists. split; [reflexivity|].
    rewrite resize_size by auto using target_side_pos.
    split; [reflexivity|]. intros [= ? ?]. congruence.
Qed.

(** C8: for positive sides and a positive base, [make_power_2] returns
    an image whose width and height are [max(round(ow/base), 1) * base] and
    [max(round(oh/base), 1) * base], positive multiples of [base]; when both
    sides already are multiples of [base] it returns the image it was
    given; and applying it again with the same base returns the same
    image. *)
Theorem make_power_2_idempotent (img : image) (base : Z) (m m' : resample) :
  0 < fst (img_size img) -> 0 < snd (img_size img) -> 0 < base ->
  exists img',
    make_power_2 img base m = Ok img' /\
    img_size img' = (Z.max (Py.round_div (fst (img_size img)) base) 1 * base,
                     Z.max (Py.round_div (snd (img_size img)) base) 1 * base) /\
    0 < fst (img_size img') /\ 0 < snd (img_size img') /\
    (base | fst (img_size img')) /\ (base | snd (img_size img')) /\
    ((base | fst (img_size img)) -> (base | snd (img_size img)) -> img' = img) /\
    make_power_2 img' base m' = Ok img'.
Proof.
  intros Hw Hh Hb.
  destruct (make_power_2_resized img base m Hb) as (img' & Hrun & Hsize & Hsame).
  exists img'. fold (target_side (fst (img_size img)) base).
  fold (target_side (snd (img_size img)) base).
  split; [exact Hrun|]. split; [exact Hsize|].
  rewrite Hsize. simpl.
  repeat split; auto using target_side_pos, target_side_multiple.
  - intros Dw Dh. apply Hsame. rewrite Hsize.
    rewrite !target_side_fixed by assumption.
    destruct (img_size img); reflexivity.
  - destruct (make_power_2_resized img' base m' Hb) as (img'' & Hrun' & Hsize' & Hsame').
    rewrite Hrun'. f_equal. apply Hsame'. rewrite Hsize', Hsize. simpl.
    rewrite (target_side_fixed (target_side (fst (img_size img)) base) base),
      (target_side_fixed (target_side (snd (img_size img)) base) base);
      auto using target_side_pos, target_side_multiple.
Qed.

End MakePower2.

(** A 10 x 7 picture and base 4: resized to 8 x 8, then left alone. *)
Lemma make_power_2_idempotent_witness :
  exists img',
    make_power_2 (Picture 10 7 0) 4 BICUBIC = Ok img' /\
    img_size img' = (Z.max (Py.round_div 10 4) 1 * 4, Z.max (Py.round_div 7 4) 1 * 4) /\
    0 < fst (img_size img') /\ 0 < snd (img_size img') /\
    (4 | fst (img_size img')) /\ (4 | snd (img_size img')) /\
    ((4 | 10) -> (4 | 7) -> img' = Picture 10 7 0) /\
    make_power_2 img' 4 BICUBIC = Ok img'.
Proof.
  assert (H10 : 0 < 10) by lia. assert (H7 : 0 < 7) by lia. assert (H4 : 0 < 4) by lia.
  exact (make_power_2_idempotent (Picture 10 7 0) 4 BICUBIC BICUBIC H10 H7 H4).
Defined.

Example make_power_2_runs :
  make_power_2 (Picture 10 7 0) 4 BICUBIC = Ok (Picture 8 8 1).
Proof. reflexivity. Qed.

(** ** [parse_data_file] *)

Lemma fold_left_snoc_map {A B} (f : A -> B) (l : list A) (acc : list B) :
  fold_left (fun data_list x => data_list ++ [f x]) l acc = acc ++ map f l.
Proof.
  revert acc. induction l as [|x l IH]; intros acc; simpl.
  - by rewrite app_nil_r.
  - rewrite IH. by rewrite <- app_assoc.
Qed.

(** The lines [readlines] returns are the file, cut. *)
Lemma readlines_concat (s : string) :
  fold_right String.append EmptyString (Py.readlines s) = s.
Proof.
  induction s as [|c s IH]; simpl; [done|].
  destruct (Ascii.eqb c Py.newline); simpl.
  - by rewrite IH.
  - destruct (Py.readlines s) as [|l ls]; simpl in *; by rewrite <- IH.
Qed.

Lemma readlines_nonempty (s : string) : Forall (fun l => l <> EmptyString) (Py.readlines s).
Proof.
  induction s as [|c s IH]; simpl; [constructor|].
  destruct (Ascii.eqb c Py.newline).
  - constructor; [done|exact IH].
  - destruct (Py.readlines s) as [|l ls]; [by repeat constructor|].
    inversion IH; subst. by constructor.
Qed.

Lemma endswith_sep_suffix (x : string) (c : ascii) (t : string) :
  Py.endswith_sep (x +:+ String c t) = Py.endswith_sep (String c t).
Proof.
  induction x as [|d x IH]; [reflexivity|].
  simpl in *. rewrite <- IH. by destruct (x +:+ String c t) eqn:E; [destruct x|].
Qed.

(** Joining a relative path under [root/JPEGImages] puts the directory and a
    separator in front of it. *)
Lemma join_JPEGImages (self_root path : string) :
  Py.isabs path = false ->
  Py.join self_root ["JPEGImages"; path]
  = Py.join self_root ["JPEGImages"] +:+ "/" +:+ path.
Proof.
  intros Hrel. unfold Py.join. simpl.
  unfold Py.join_step at 1. unfold Py.isabs in Hrel. rewrite Hrel.
  unfold Py.join_step. simpl.
  destruct (String.eqb self_root "" || Py.endswith_sep self_root).
  - rewrite (endswith_sep_suffix self_root "J" "PEGImages").
    by destruct self_root.
  - change (self_root +:+ "/" +:+ "JPEGImages")
      with (self_root +:+ String "/" "JPEGImages").
    rewrite (endswith_sep_suffix self_root "/" "JPEGImages").
    by destruct self_root.
Qed.

Section ParseDataFile.

Context {image : Type} `{Pil image} {item : Type}.
Variable expanduser : string -> string.

(** C6: [parse_data_file] returns one entry per line of the data list
    file, in file order: the line stripped, the extension appended unless it
    is [None], and [root/JPEGImages] joined in front unless the path is
    absolute, which puts that directory and a separator before the path; so
    the length of a dataset built from the file is the number of its
    lines. *)
Theorem parse_data_file_entries (files : gmap string string)
    (self_root file_name : string) (extension : option string) (content : string) :
  files !! file_name = Some content ->
  parse_data_file files self_root file_name extension
    = Ok (map (fun line =>
                 let path := match extension with
                             | None => Py.strip line
                             | Some e => Py.strip line +:+ e
                             end in
                 if Py.isabs path then path
                 else Py.join self_root ["JPEGImages"; path])
              (Py.readlines content)) /\
  (forall path : string,
      Py.isabs path = false ->
      Py.join self_root ["JPEGImages"; path]
      = Py.join self_root ["JPEGImages"] +:+ "/" +:+ path) /\
  (forall (root_arg phase : string) (tf : option (image -> item)),
      Py.join root_arg ["ImageSets/Main/" +:+ phase +:+ ".txt"] = file_name ->
      expanduser root_arg = self_root ->
      exists ds : VOCImageFolder,
        VOCImageFolder_init expanduser files root_arg phase tf extension = Ok ds /\
        root ds = self_root /\
        VOC_len ds = Z.of_nat (length (Py.readlines content))).
Proof.
  intros Hfile.
  assert (Hparse : parse_data_file files self_root file_name extension
                   = Ok (map (fun line =>
                                let path := match extension with
                                            | None => Py.strip line
                                            | Some e => Py.strip line +:+ e
                                            end in
                                if Py.isabs path then path
                                else Py.join self_root ["JPEGImages"; path])
                             (Py.readlines content))).
  { unfold parse_data_file. rewrite Hfile. f_equal.
    rewrite fold_left_snoc_map. simpl. apply map_ext. intros line.
    destruct extension as [e|]; by destruct (Py.isabs _). }
  split; [exact Hparse|]. split.
  - intros path. apply join_JPEGImages.
  - intros root_arg phase tf Hjoin Hroot.
    unfold VOCImageFolder_init. rewrite Hjoin, Hroot, Hparse.
    eexists. split; [reflexivity|]. split; [reflexivity|].
    unfold VOC_len. simpl. by rewrite length_map.
Qed.

End ParseDataFile.

Example voc_dataset_built :
  VOCImageFolder_init (fun p => p) voc_files "data/voc" "trainval" None (Some ".jpg")
  = Ok voc_dataset.
Proof. vm_compute. reflexivity. Qed.

Lemma parse_data_file_entries_witness :
  parse_data_file voc_files "data/voc" "data/voc/ImageSets/Main/trainval.txt" (Some ".jpg")
    = Ok (map (fun line =>
                 let path := match Some ".jpg" with
                             | None => Py.strip line
                             | Some e => Py.strip line +:+ e
                             end in
                 if Py.isabs path then path
                 else Py.join "data/voc" ["JPEGImages"; path])
              (Py.readlines voc_list)) /\
  (forall path : string,
      Py.isabs path = false ->
      Py.join "data/voc" ["JPEGImages"; path]
      = Py.join "data/voc" ["JPEGImages"] +:+ "/" +:+ path) /\
  (forall (root_arg phase : string) (tf : option (picture -> unit)),
      Py.join root_arg ["ImageSets/Main/" +:+ phase +:+ ".txt"]
        = "data/voc/ImageSets/Main/trainval.txt" ->
      (fun p : string => p) root_arg = "data/voc" ->
      exists ds : VOCImageFolder,
        VOCImageFolder_init (fun p => p) voc_files root_arg phase tf (Some ".jpg") = Ok ds /\
        root ds = "data/voc" /\
        VOC_len ds = Z.of_nat (length (Py.readlines voc_list))).
Proof.
  assert (Hfile : voc_files !! "data/voc/ImageSets/Main/trainval.txt" = Some voc_list)
    by reflexivity.
  exact (parse_data_file_entries (image := picture) (item := unit) (fun p => p) voc_files
           "data/voc" "data/voc/ImageSets/Main/trainval.txt" (Some ".jpg") voc_list Hfile).
Defined.

(** ** [__getitem__] *)

Lemma getitem_in_range {A} (l : list A) (index : Z) :
  0 <= index < Z.of_nat (length l) ->
  exists x, l !! Z.to_nat index = Some x /\ Py.getitem l index = Ok x.
Proof.
  intros Hi. unfold Py.getitem.
  assert (E1 : (index <? 0) = false) by (apply Z.ltb_ge; lia).
  assert (E2 : (Z.of_nat (length l) <=? index) = false) by (apply Z.leb_gt; lia).
  rewrite E1, E1, E2. simpl.
  destruct (l !! Z.to_nat index) as [x|] eqn:Hx; [by exists x|].
  apply lookup_ge_None in Hx. lia.
Qed.

(** C4, as the code has it: the second component of an item is the path of
    the image, [samples[index]], not a class index; the first is the image
    at that path, converted to RGB and passed through the transform if there
    is one. *)
Theorem VOC_getitem_returns_path {image : Type} `{Pil image} {item : Type}
    (images : gmap string image) (self : @VOCImageFolder image item) (index : Z) :
  0 <= index < VOC_len self ->
  exists path : string,
    samples self !! Z.to_nat index = Some path /\
    match images !! path with
    | Some raw =>
        VOC_getitem images self index
        = Ok (match transform self with
              | Some t => inr (t (img_convert_rgb raw))
              | None => inl (img_convert_rgb raw)
              end, PyStr path)
    | None => VOC_getitem images self index = Raise FileNotFoundError
    end.
Proof.
  intros Hi. destruct (getitem_in_range (samples self) index Hi) as (path & Hl & Hg).
  exists path. split; [exact Hl|].
  unfold VOC_getitem, default_loader. rewrite Hg. simpl.
  destruct (images !! path); reflexivity.
Qed.

Lemma VOC_getitem_returns_path_witness :
  exists path : string,
    samples voc_dataset !! Z.to_nat 1 = Some path /\
    match voc_images !! path with
    | Some raw =>
        VOC_getitem voc_images voc_dataset 1
        = Ok (match transform voc_dataset with
              | Some t => inr (t (img_convert_rgb raw))
              | None => inl (img_convert_rgb raw)
              end, PyStr path)
    | None => VOC_getitem voc_images voc_dataset 1 = Raise FileNotFoundError
    end.
Proof.
  assert (Hi : 0 <= 1 < VOC_len voc_dataset) by (vm_compute; split; congruence).
  exact (VOC_getitem_returns_path voc_images voc_dataset 1 Hi).
Defined.

(** C4 as stated fails: item 0 of this dataset carries a path, and no
    class index. *)
Lemma VOC_getitem_target_not_class_index :
  VOC_getitem voc_images voc_dataset 0
    = Ok (inl (Picture 10 7 0), PyStr "data/voc/JPEGImages/2007_000027.jpg") /\
  ~ (exists (img : picture + unit) (c : Z),
        VOC_getitem voc_images voc_dataset 0 = Ok (img, PyInt c)).
Proof.
  assert (Hrun : VOC_getitem voc_images voc_dataset 0
                 = Ok (inl (Picture 10 7 0), PyStr "data/voc/JPEGImages/2007_000027.jpg"))
    by (vm_compute; reflexivity).
  split; [exact Hrun|].
  intros (img & c & Hc). rewrite Hrun in Hc. discriminate Hc.
Qed.

(** ** [translate] *)

(** What [translate] saves for a sample has the sides of the image it read. *)
Lemma translate_one_keeps_size {image : Type} `{PilLaws image} {item : Type}
    (self : @VOCImageFolder image item) (tf : image -> image)
    (target_root : string) (image_base : Z)
    (images images' : gmap string image) (path : string) (raw : image) :
  images !! path = Some raw ->
  0 < fst (img_size raw) -> 0 < snd (img_size raw) ->
  translate_one self tf target_root image_base images path = Ok images' ->
  exists saved : image,
    images' = <[Py.replace (root self) target_root path := saved]> images /\
    img_size saved = img_size raw.
Proof.
  intros Hraw Hw Hh. unfold translate_one. rewrite Hraw.
  rewrite <- (convert_size raw) in Hw, Hh |- *.
  destruct (img_size (img_convert_rgb raw)) as [ow oh]. simpl in Hw, Hh.
  destruct (make_power_2 _ _ _) as [img|e]; simpl; [|discriminate].
  destruct (resize (tf img) (ow, oh) None) as [saved|e] eqn:Hsaved; simpl; [|discriminate].
  destruct (Py.makedirs _); simpl; [|discriminate].
  intros [= <-]. exists saved. split; [reflexivity|].
  exact (resize_sized _ _ _ _ _ Hsaved).
Qed.

(** C9 fails on such a sample: the path does not contain the root, so
    [replace] returns it as it is and the translated image is saved over the
    source image; nothing is written under the target root. *)
Lemma translate_overwrites_absolute_sample :
  VOCImageFolder_init (fun p => p) abs_files "data/voc" "trainval" None (Some ".jpg")
    = Ok abs_dataset /\
  translate abs_dataset repaint "out" 4 abs_images
    = ({[ "/abs/img.jpg" := Picture 10 7 102 ]}, None) /\
  abs_images !! "/abs/img.jpg" = Some (Picture 10 7 0).
Proof. repeat split; vm_compute; reflexivity. Qed.

(** ** [build_dataset] *)

Lemma getitem_last {A} (l : list A) (x : A) :
  last l = Some x -> Py.getitem l (-1) = Ok x.
Proof.
  intros Hl. rewrite last_lookup in Hl.
  assert (Hlen : (0 < length l)%nat) by (apply lookup_lt_Some in Hl; lia).
  unfold Py.getitem.
  change (-1 <? 0) with true. cbv iota.
  assert (E1 : (-1 + Z.of_nat (length l) <? 0) = false) by (apply Z.ltb_ge; lia).
  assert (E2 : (Z.of_nat (length l) <=? -1 + Z.of_nat (length l)) = false)
    by (apply Z.leb_gt; lia).
  rewrite E1, E2. simpl.
  replace (Z.to_nat (-1 + Z.of_nat (length l))) with (pred (length l)) by lia.
  by rewrite Hl.
Qed.

Lemma list_pair_ind {A} (P : list A -> Prop) :
  P [] -> (forall x, P [x]) -> (forall a b l, P l -> P (a :: b :: l)) ->
  forall l, P l.
Proof.
  intros H0 H1 H2.
  assert (Hboth : forall l, P l /\ forall a, P (a :: l)).
  { induction l as [|b l [IH1 IH2]]; split; auto. }
  intros l. apply Hboth.
Qed.

Lemma evens_cons2 {A} (a b : A) (l : list A) : Py.evens (a :: b :: l) = a :: Py.evens l.
Proof. reflexivity. Qed.

Lemma odds_cons2 {A} (a b : A) (l : list A) : Py.odds (a :: b :: l) = b :: Py.odds l.
Proof. reflexivity. Qed.

Lemma evens_odds_snoc {A} (l : list A) (x : A) :
  Nat.even (length l) = true ->
  Py.evens (l ++ [x]) = Py.evens l ++ [x] /\
  Py.odds (l ++ [x]) = Py.odds l /\
  length (Py.evens l) = length (Py.odds l).
Proof.
  induction l as [| |a b l IH] using list_pair_ind; intros Hl.
  - done.
  - discriminate.
  - destruct (IH Hl) as (He & Ho & Hlen).
    change ((a :: b :: l) ++ [x]) with (a :: b :: (l ++ [x])).
    rewrite !evens_cons2, !odds_cons2, He, Ho. simpl. auto.
Qed.

Lemma zip_snoc_left {A B} (xs : list A) (ys : list B) (x : A) :
  length xs = length ys -> Py.zip (xs ++ [x]) ys = Py.zip xs ys.
Proof.
  revert ys. induction xs as [|a xs IH]; intros [|b ys] Hl; simpl in *;
    try done. f_equal. apply IH. lia.
Qed.

Lemma zip_length {A B} (xs : list A) (ys : list B) :
  length (Py.zip xs ys) = Nat.min (length xs) (length ys).
Proof.
  revert ys. induction xs as [|a xs IH]; intros [|b ys]; simpl; auto.
Qed.

Section BuildDataset.

Context {image : Type} `{Pil image} {item : Type}.
Variable expanduser : string -> string.

Abbreviation dataset := (@VOCImageFolder image item).

Lemma build_one_choice (files : gmap string string) (tf : image -> item)
    (dataset_name root_arg : string) :
  build_one expanduser files tf dataset_name root_arg
  = VOCImageFolder_init expanduser files root_arg (phase_of dataset_name)
      (Some tf) (Some (extension_of dataset_name)).
Proof.
  unfold build_one, phase_of, extension_of.
  rewrite (bool_decide_ext (dataset_name ∈ ["WaterColor"; "Comic"])
             (dataset_name = "WaterColor" \/ dataset_name = "Comic"))
    by (rewrite !elem_of_cons, elem_of_nil; tauto).
  rewrite (bool_decide_ext (dataset_name ∈ ["Cityscapes"; "FoggyCityscapes"])
             (dataset_name = "Cityscapes" \/ dataset_name = "FoggyCityscapes"))
    by (rewrite !elem_of_cons, elem_of_nil; tauto).
  rewrite (bool_decide_ext (dataset_name ∈ ["Sim10k"]) (dataset_name = "Sim10k"))
    by (rewrite !elem_of_cons, elem_of_nil; tauto).
  repeat case_bool_decide; try reflexivity; exfalso;
    intuition (subst; discriminate).
Qed.

Lemma init_ok (files : gmap string string) (root_arg phase : string)
    (tf : option (image -> item)) (extension : option string) :
  is_Some (files !! Py.join root_arg ["ImageSets/Main/" +:+ phase +:+ ".txt"]) ->
  exists ds : dataset,
    VOCImageFolder_init expanduser files root_arg phase tf extension = Ok ds.
Proof.
  intros [content Hc]. unfold VOCImageFolder_init, parse_data_file.
  rewrite Hc. simpl. eauto.
Qed.

Lemma build_loop_ok (files : gmap string string) (tf : image -> item)
    (pairs : list (string * string)) (acc : list dataset) :
  Forall (fun nr => is_Some (files !! Py.join (snd nr)
            ["ImageSets/Main/" +:+ phase_of (fst nr) +:+ ".txt"])) pairs ->
  exists ds : list dataset,
    build_loop expanduser files tf pairs acc = Ok (acc ++ ds) /\
    Forall2 (fun nr d =>
               VOCImageFolder_init expanduser files (snd nr) (phase_of (fst nr))
                 (Some tf) (Some (extension_of (fst nr))) = Ok d) pairs ds.
Proof.
  intros Hfiles. revert acc.
  induction Hfiles as [|[nm rt] pairs Hf _ IH]; intros acc; simpl.
  - exists []. by rewrite app_nil_r.
  - rewrite build_one_choice.
    destruct (init_ok files rt (phase_of nm) (Some tf) (Some (extension_of nm)) Hf)
      as [d Hd].
    rewrite Hd. simpl.
    destruct (IH (acc ++ [d])) as (ds & Hloop & Hall).
    exists (d :: ds). rewrite Hloop, <- app_assoc. split; [done|].
    by constructor.
Qed.

Lemma cumsum_fold (ds : list dataset) (r : list Z) (s : Z) :
  snd (fold_left cumsum_step ds (r, s)) = s + foldr Z.add 0 (map VOC_len ds) /\
  (ds <> [] -> last (fst (fold_left cumsum_step ds (r, s)))
               = Some (snd (fold_left cumsum_step ds (r, s)))).
Proof.
  revert r s. induction ds as [|d ds IH]; intros r s.
  - simpl. split; [lia|done].
  - cbn [fold_left map foldr].
    change (cumsum_step (r, s) d) with (r ++ [VOC_len d + s], s + VOC_len d).
    destruct (IH (r ++ [VOC_len d + s]) (s + VOC_len d)) as [Hs Hl].
    split; [rewrite Hs; lia|]. intros _.
    destruct ds as [|d' ds]; [|by apply Hl].
    simpl. rewrite last_snoc. f_equal. lia.
Qed.

Lemma Concat_len_sum (ds : list dataset) (c : ConcatDataset) :
  ConcatDataset_init ds = Ok c ->
  datasets c = ds /\ Concat_len c = Ok (foldr Z.add 0 (map VOC_len ds)).
Proof.
  unfold ConcatDataset_init.
  destruct (Z.ltb_spec 0 (Z.of_nat (length ds))) as [Hlen|]; [|discriminate].
  intros [= <-]. split; [reflexivity|].
  unfold Concat_len, cumsum. simpl.
  destruct (cumsum_fold ds [] 0) as [Hs Hl].
  apply getitem_last. rewrite Hl.
  - f_equal. rewrite Hs. lia.
  - intros ->. simpl in Hlen. lia.
Qed.

(** C10, as the code has it: names and roots are paired positionally;
    when there is at least one pair and every data list file can be opened,
    [build_dataset] returns a [ConcatDataset] of exactly
    [min(len(dataset_names), len(dataset_roots))] datasets, each built with
    the phase and the extension its name selects, whose length is the sum of
    their lengths. With no pair at all [ConcatDataset] refuses the empty
    list. An argument list of odd length gives the names and roots, and so
    the result, of the list without its last element. *)
Theorem build_dataset_pairs (files : gmap string string)
    (dataset_names dataset_roots : list string) (tf : image -> item) :
  (0 < Nat.min (length dataset_names) (length dataset_roots))%nat ->
  Forall (fun nr =>
            is_Some (files !! Py.join (snd nr)
              ["ImageSets/Main/"
               +:+ (if bool_decide (fst nr = "WaterColor" \/ fst nr = "Comic") then "train"
                    else if bool_decide (fst nr = "Sim10k") then "trainval10k"
                    else "trainval")
               +:+ ".txt"]))
         (Py.zip dataset_names dataset_roots) ->
  (exists c : ConcatDataset,
      build_dataset expanduser files dataset_names dataset_roots tf = Ok c /\
      length (datasets c) = Nat.min (length dataset_names) (length dataset_roots) /\
      Forall2 (fun nr d =>
                 VOCImageFolder_init expanduser files (snd nr)
                   (if bool_decide (fst nr = "WaterColor" \/ fst nr = "Comic") then "train"
                    else if bool_decide (fst nr = "Sim10k") then "trainval10k"
                    else "trainval")
                   (Some tf)
                   (Some (if bool_decide (fst nr = "Cityscapes" \/ fst nr = "FoggyCityscapes")
                          then ".png" else ".jpg")) = Ok d)
              (Py.zip dataset_names dataset_roots) (datasets c) /\
      Concat_len c = Ok (foldr Z.add 0 (map VOC_len (datasets c)))) /\
  (forall names' roots' : list string,
      Nat.min (length names') (length roots') = 0%nat ->
      build_dataset expanduser files names' roots' tf = Raise AssertionError) /\
  (forall (arg : list string) (last_arg : string),
      Nat.even (length arg) = true ->
      main_build_dataset expanduser files (arg ++ [last_arg]) tf
      = main_build_dataset expanduser files arg tf).
Proof.
  intros Hmin Hfiles. split; [|split].
  - destruct (build_loop_ok files tf _ [] Hfiles) as (ds & Hloop & Hall).
    simpl in Hloop.
    assert (Hlen : length ds = Nat.min (length dataset_names) (length dataset_roots)).
    { rewrite <- zip_length. symmetry. eapply Forall2_length, Hall. }
    destruct (ConcatDataset_init ds) as [c|e] eqn:Hc.
    + destruct (Concat_len_sum ds c Hc) as [Hds Hsum].
      exists c. unfold build_dataset. rewrite Hloop. simpl.
      rewrite Hds. repeat split; try assumption.
    + exfalso. unfold ConcatDataset_init in Hc.
      destruct (Z.ltb_spec 0 (Z.of_nat (length ds))); [discriminate|lia].
  - intros names' roots' Hz. unfold build_dataset.
    assert (Hnil : Py.zip names' roots' = []).
    { destruct names', roots'; simpl in *; try done. }
    rewrite Hnil. reflexivity.
  - intros arg last_arg Heven. unfold main_build_dataset, build_dataset.
    destruct (evens_odds_snoc arg last_arg Heven) as (He & Ho & Hlen).
    rewrite He, Ho. by rewrite zip_snoc_left.
Qed.

End BuildDataset.

Lemma build_dataset_pairs_witness :
  build_dataset (image := picture) (fun p => p) two_files
    ["VOC2007"; "Cityscapes"; "Comic"] ["data/voc"; "data/city"] (fun _ => tt)
  = Ok {| datasets :=
            [ {| root := "data/voc"; transform := Some (fun _ => tt);
                 samples := ["data/voc/JPEGImages/2007_000027.jpg";
                             "data/voc/JPEGImages/2007_000032.jpg"];
                 data_list_file := "data/voc/ImageSets/Main/trainval.txt" |};
              {| root := "data/city"; transform := Some (fun _ => tt);
                 samples := ["data/city/JPEGImages/aachen_000000.png"];
                 data_list_file := "data/city/ImageSets/Main/trainval.txt" |} ];
          cumulative_sizes := [2; 3] |} /\
  main_build_dataset (image := picture) (fun p => p) two_files
    (["VOC2007"; "data/voc"; "Cityscapes"; "data/city"] ++ ["Comic"]) (fun _ => tt)
  = main_build_dataset (image := picture) (fun p => p) two_files
      ["VOC2007"; "data/voc"; "Cityscapes"; "data/city"] (fun _ => tt).
Proof.
  assert (Hmin : (0 < Nat.min (length ["VOC2007"; "Cityscapes"; "Comic"])
                              (length ["data/voc"; "data/city"]))%nat)
    by (simpl; lia).
  assert (Hfiles : Forall (fun nr =>
            is_Some (two_files !! Py.join (snd nr)
              ["ImageSets/Main/"
               +:+ (if bool_decide (fst nr = "WaterColor" \/ fst nr = "Comic") then "train"
                    else if bool_decide (fst nr = "Sim10k") then "trainval10k"
                    else "trainval")
               +:+ ".txt"]))
         (Py.zip ["VOC2007"; "Cityscapes"; "Comic"] ["data/voc"; "data/city"])).
  { repeat constructor; vm_compute; eauto. }
  pose proof (build_dataset_pairs (image := picture) (item := unit) (fun p => p) two_files
                ["VOC2007"; "Cityscapes"; "Comic"] ["data/voc"; "data/city"]
                (fun _ => tt) Hmin Hfiles) as (_ & _ & Hodd).
  split; [vm_compute; reflexivity|].
  apply Hodd. reflexivity.
Defined.

(** C10 as stated fails when no pair is left: with a single argument
    there is a name and no root, and [build_dataset] raises instead of
    returning a [ConcatDataset] of zero datasets. *)
Lemma build_dataset_single_argument_raises :
  main_build_dataset (image := picture) (fun p => p) two_files ["VOC2007"] (fun _ => tt)
    = Raise AssertionError /\
  ~ (exists c : ConcatDataset,
        build_dataset (image := picture) (item := unit) (fun p => p) two_files
          ["VOC2007"] [] (fun _ => tt) = Ok c /\
        length (datasets c) = Nat.min 1 0).
Proof.
  split; [reflexivity|].
  intros (c & Hc & _). discriminate Hc.
Qed.

(** ** One round of [train] *)

Section TrainStep.

Context `{Trainer}.

(** With the criteria of [main], a round never raises, draws its source batch
    from the source iterator, leaves the saved files alone, and logs the
    events of a round, each [backward] reaching the groups of its phase. *)
Lemma train_step_events (a : args) (w : world) :
  exists (w' : world) (v : locals),
    train_step a main_criteria w = (w', Ok v) /\
    real_S v = Leaf (fst (next_batch (train_source_iter w))) /\
    files w' = files w /\
    log w' = rev (step_events v) ++ log w /\
    omap optim_op (step_events v) = iteration_ops /\
    omap main_op_of (step_events v) = [].
Proof.
  eexists _, _. split; [vm_compute; reflexivity|].
  repeat split; vm_compute; reflexivity.
Qed.

(** [display] only writes to the log, and nothing an optimizer or the epoch
    loop would write. *)
Lemma display_events (a : args) (i : Z) (ms : meters) (v : locals) (w : world) :
  print_freq a <> 0 ->
  exists (w' : world) (evs : list event),
    display a i ms v w = (w', Ok tt) /\
    w' = set_log (log w') w /\
    log w' = rev evs ++ log w /\
    omap optim_op evs = [] /\
    omap main_op_of evs = [].
Proof.
  intros Hpf. unfold display.
  destruct (Z.eqb_spec (print_freq a) 0) as [|_]; [contradiction|].
  destruct (i mod print_freq a =? 0).
  - eexists _, [_; _; _; _; _; _; _; _; _].
    split; [vm_compute; reflexivity|].
    repeat split; vm_compute; reflexivity.
  - exists w, []. destruct w. repeat split.
Qed.

Lemma display_raises (a : args) (i : Z) (ms : meters) (v : locals) (w : world) :
  print_freq a = 0 -> display a i ms v w = (w, Raise ZeroDivisionError).
Proof. intros Hpf. unfold display. rewrite Hpf. reflexivity. Qed.

Lemma bind_ok {A B} (m : M A) (f : A -> M B) (w w1 : world) (x : A) :
  m w = (w1, Ok x) -> bind m f w = f x w1.
Proof. intros Hm. unfold bind. by rewrite Hm. Qed.

Lemma bind_raise {A B} (m : M A) (f : A -> M B) (w w1 : world) (e : exn) :
  m w = (w1, Raise e) -> bind m f w = (w1, Raise e).
Proof. intros Hm. unfold bind. by rewrite Hm. Qed.

(** The body of the loop, when [print_freq] is not 0 *)
Lemma train_body_events (a : args) (i : Z) (ms : meters) (w : world) :
  print_freq a <> 0 ->
  exists (w' : world) (v : locals) (evs : list event),
    snd (train_step a main_criteria w) = Ok v /\
    train_body a main_criteria i ms w = (w', Ok (update_meters ms v)) /\
    real_S v = Leaf (fst (next_batch (train_source_iter w))) /\
    files w' = files w /\
    log w' = rev evs ++ log w /\
    omap optim_op evs = iteration_ops /\
    omap main_op_of evs = [].
Proof.
  intros Hpf.
  destruct (train_step_events a w) as (w1 & v & Hstep & Hreal & Hfiles & Hlog & Hops & Hmain).
  destruct (display_events a i (update_meters ms v) v w1 Hpf)
    as (w2 & evs & Hdisp & Hframe & Hlog2 & Hops2 & Hmain2).
  exists w2, v, (step_events v ++ evs).
  split; [by rewrite Hstep|].
  split.
  { unfold train_body. rewrite (bind_ok _ _ _ _ _ Hstep).
    by rewrite (bind_ok _ _ _ _ _ Hdisp). }
  split; [exact Hreal|].
  split; [rewrite Hframe; simpl; exact Hfiles|].
  split; [rewrite Hlog2, Hlog, rev_app_distr; by rewrite <- app_assoc|].
  rewrite !omap_app, Hops, Hops2, Hmain, Hmain2. by rewrite !app_nil_r.
Qed.

(** The body of the loop, when [print_freq] is 0: the round is done, then
    [i % args.print_freq] raises. *)
Lemma train_body_raises (a : args) (i : Z) (ms : meters) (w : world) :
  print_freq a = 0 ->
  exists (w' : world) (evs : list event),
    train_body a main_criteria i ms w = (w', Raise ZeroDivisionError) /\
    log w' = rev evs ++ log w /\
    omap optim_op evs = iteration_ops /\
    omap main_op_of evs = [].
Proof.
  intros Hpf.
  destruct (train_step_events a w) as (w1 & v & Hstep & _ & _ & Hlog & Hops & Hmain).
  exists w1, (step_events v). split; [|by auto].
  unfold train_body. rewrite (bind_ok _ _ _ _ _ Hstep).
  by rewrite (bind_raise _ _ _ _ _ (display_raises a i _ v w1 Hpf)).
Qed.

Lemma train_loop_events (a : args) (iters : list Z) (ms : meters) (w : world) :
  print_freq a <> 0 ->
  exists (w' : world) (ms' : meters) (evs : list event),
    train_loop a main_criteria iters ms w = (w', Ok ms') /\
    files w' = files w /\
    log w' = rev evs ++ log w /\
    omap optim_op evs = concat (replicate (length iters) iteration_ops) /\
    omap main_op_of evs = [].
Proof.
  intros Hpf. revert ms w.
  induction iters as [|i iters IH]; intros ms w.
  - exists w, ms, []. by repeat split.
  - destruct (train_body_events a i ms w Hpf)
      as (w1 & v & evs1 & _ & Hbody & _ & Hfiles1 & Hlog1 & Hops1 & Hmain1).
    destruct (IH (update_meters ms v) w1) as (w2 & ms2 & evs2 & Hloop & Hfiles2 & Hlog2 & Hops2 & Hmain2).
    exists w2, ms2, (evs1 ++ evs2).
    split; [cbn [train_loop]; by rewrite (bind_ok _ _ _ _ _ Hbody)|].
    split; [congruence|].
    split; [rewrite Hlog2, Hlog1, rev_app_distr; by rewrite <- app_assoc|].
    rewrite !omap_app, Hops1, Hops2, Hmain1, Hmain2. by split.
Qed.

Lemma train_loop_app (a : args) (c : criteria) (l1 l2 : list Z) (ms : meters) (w : world) :
  train_loop a c (l1 ++ l2) ms w
  = bind (train_loop a c l1 ms) (fun ms' => train_loop a c l2 ms') w.
Proof.
  revert ms w. induction l1 as [|i l1 IH]; intros ms w.
  - reflexivity.
  - simpl. unfold bind.
    destruct (train_body a c i ms w) as [w1 [ms1|e]]; [|reflexivity].
    rewrite IH. reflexivity.
Qed.

End TrainStep.

(** ** [train] *)

Section TrainFacts.

Context `{Trainer}.

Lemma emit_run {B} (e : event) (f : unit -> M B) (w : world) :
  bind (emit e) f w = f tt (set_log (e :: log w) w).
Proof. reflexivity. Qed.

Lemma range_length (n : Z) : length (Py.range 0 n) = Z.to_nat n.
Proof. unfold Py.range. rewrite length_seqZ. f_equal. lia. Qed.

(** C1: in every round of [train] the generator loss is backpropagated
    and [optimizer_G.step()] called while [requires_grad] is off on both
    discriminators, and only then are the discriminators switched back on,
    their two losses backpropagated and [optimizer_D.step()] called. The
    generator [backward] reaches the two generators only, so no
    discriminator parameter receives a gradient during the generator
    update. This holds for each of the [iters_per_epoch] rounds (for the
    single round that runs when [print_freq] is 0), from any state. *)
Theorem train_alternates (a : args) (epoch : Z) (w : world) :
  exists (w' : world) (r : result unit) (evs : list event),
    train a main_criteria epoch w = (w', r) /\
    log w' = rev evs ++ log w /\
    omap optim_op evs = concat (replicate (iterations_run a) iteration_ops) /\
    (print_freq a <> 0 ->
     r = Ok tt /\ iterations_run a = Z.to_nat (iters_per_epoch a)).
Proof.
  unfold train, iterations_run. rewrite emit_run.
  set (w0 := set_log (EvTrain epoch :: log w) w).
  destruct (Z.eqb_spec (print_freq a) 0) as [Hpf|Hpf].
  - unfold Py.range. rewrite Z.sub_0_r.
    destruct (Z.ltb_spec 0 (iters_per_epoch a)) as [Hn|Hn].
    + rewrite seqZ_cons by exact Hn.
      destruct (train_body_raises a 0 meters_new w0 Hpf) as (w1 & evs & Hbody & Hlog & Hops & _).
      exists w1, (Raise ZeroDivisionError), (EvTrain epoch :: evs).
      split.
      { apply bind_raise. cbn [train_loop]. apply bind_raise, Hbody. }
      split; [rewrite Hlog; simpl; by rewrite <- app_assoc|].
      split; [|done].
      replace (Nat.min 1 (Z.to_nat (iters_per_epoch a))) with 1%nat by lia.
      change (omap optim_op (EvTrain epoch :: evs)) with (omap optim_op evs).
      rewrite Hops. reflexivity.
    + rewrite seqZ_nil by lia.
      exists w0, (Ok tt), [EvTrain epoch].
      replace (Z.to_nat (iters_per_epoch a)) with 0%nat by lia.
      by repeat split.
  - destruct (train_loop_events a (Py.range 0 (iters_per_epoch a)) meters_new w0 Hpf)
      as (w1 & ms & evs & Hloop & _ & Hlog & Hops & _).
    exists w1, (Ok tt), (EvTrain epoch :: evs).
    split; [by rewrite (bind_ok _ _ _ _ _ Hloop)|].
    split; [rewrite Hlog; simpl; by rewrite <- app_assoc|].
    split; [|done].
    change (omap optim_op (EvTrain epoch :: evs)) with (omap optim_op evs).
    rewrite Hops. by rewrite range_length.
Qed.

(** C2: in every round the generator loss is the sum of exactly six
    terms: the GAN loss of [netD_T] on [netG_S2T(real_S)] and of [netD_S] on
    [netG_T2S(real_T)], both judged as real; the two cycle losses, L1 between
    the reconstruction and the batch, times [trade_off_cycle]; and the two
    identity losses, L1 between [netG_T2S(real_S)] and [real_S] and between
    [netG_S2T(real_T)] and [real_T], times [trade_off_identity]. It is the
    loss the generator [backward] of the round starts from. *)
Theorem generator_loss_six_terms (a : args) (w : world) :
  let rS := fst (next_batch (train_source_iter w)) in
  let rT := fst (next_batch (train_target_iter w)) in
  let S2T := Forward_G G_S2T (netG_S2T w) in
  let T2S := Forward_G G_T2S (netG_T2S w) in
  exists (w' : world) (v : locals),
    train_step a main_criteria w = (w', Ok v) /\
    log w' = rev (step_events v) ++ log w /\
    loss_G v = LAdd (LAdd (LAdd (LAdd (LAdd (loss_G_S2T v) (loss_G_T2S v))
                                      (loss_cycle_S v)) (loss_cycle_T v))
                          (loss_identity_S v)) (loss_identity_T v) /\
    summands (loss_G v) =
      [ GanLoss (Forward_D D_T (netD_T w) false (S2T (Leaf rS))) true;
        GanLoss (Forward_D D_S (netD_S w) false (T2S (Leaf rT))) true;
        LMulR (L1Loss (T2S (S2T (Leaf rS))) (Leaf rS)) (trade_off_cycle a);
        LMulR (L1Loss (S2T (T2S (Leaf rT))) (Leaf rT)) (trade_off_cycle a);
        LMulR (L1Loss (T2S (Leaf rS)) (Leaf rS)) (trade_off_identity a);
        LMulR (L1Loss (S2T (Leaf rT)) (Leaf rT)) (trade_off_identity a) ] /\
    item_of (loss_G v) =
      s_add (s_add (s_add (s_add (s_add
        (gan_value (forward_D (netD_T w) (forward_G (netG_S2T w) rS)) true)
        (gan_value (forward_D (netD_S w) (forward_G (netG_T2S w) rT)) true))
        (s_mul (l1_value (forward_G (netG_T2S w) (forward_G (netG_S2T w) rS)) rS)
               (trade_off_cycle a)))
        (s_mul (l1_value (forward_G (netG_S2T w) (forward_G (netG_T2S w) rT)) rT)
               (trade_off_cycle a)))
        (s_mul (l1_value (forward_G (netG_T2S w) rS) rS) (trade_off_identity a)))
        (s_mul (l1_value (forward_G (netG_S2T w) rT) rT) (trade_off_identity a)).
Proof.
  cbv zeta. eexists _, _. split; [vm_compute; reflexivity|].
  repeat split; vm_compute; reflexivity.
Qed.

Lemma filter_owner_D_of_rest (g : list (param_group * lnode)) :
  filter (fun pl => owner (fst pl) = Opt_D)
    (filter (fun pl => owner (fst pl) <> Opt_D) g) = [].
Proof.
  induction g as [|pl g IH]; [done|].
  rewrite filter_cons. case_decide as Hd.
  - rewrite filter_cons. case_decide; [contradiction|exact IH].
  - exact IH.
Qed.

(** C3: in every round each discriminator's loss is 0.5 times the sum of
    its GAN loss on the real batch, labelled real, and its GAN loss on what
    its image pool returns for the detached fake batch, labelled fake; and
    when [optimizer_D.step()] runs, the gradients of the discriminators come
    from these two losses and nothing else, so never from a pass over the
    fake batch as generated. *)
Theorem discriminator_losses_use_pool (a : args) (w : world) :
  let rS := fst (next_batch (train_source_iter w)) in
  let rT := fst (next_batch (train_target_iter w)) in
  let fresh_S := forward_G (netG_T2S w) rT in
  let fresh_T := forward_G (netG_S2T w) rS in
  let qS := query (fake_S_pool w) (rng w) fresh_S in
  let qT := query (fake_T_pool w) (snd qS) fresh_T in
  exists (w' : world) (v : locals),
    train_step a main_criteria w = (w', Ok v) /\
    tvalue (fake_S v) = fresh_S /\ tvalue (fake_T v) = fresh_T /\
    fake_S_ v = Leaf (fst (fst qS)) /\
    fake_T_ v = Leaf (fst (fst qT)) /\
    loss_D_S v = LMulL s_half
      (LAdd (GanLoss (Forward_D D_S (netD_S w) true (Leaf rS)) true)
            (GanLoss (Forward_D D_S (netD_S w) true (fake_S_ v)) false)) /\
    loss_D_T v = LMulL s_half
      (LAdd (GanLoss (Forward_D D_T (netD_T w) true (Leaf rT)) true)
            (GanLoss (Forward_D D_T (netD_T w) true (fake_T_ v)) false)) /\
    item_of (loss_D_S v) =
      s_mul s_half (s_add (gan_value (forward_D (netD_S w) rS) true)
                          (gan_value (forward_D (netD_S w) (fst (fst qS))) false)) /\
    item_of (loss_D_T v) =
      s_mul s_half (s_add (gan_value (forward_D (netD_T w) rT) true)
                          (gan_value (forward_D (netD_T w) (fst (fst qT))) false)) /\
    filter (fun pl => owner (fst pl) = Opt_D) (grads w')
      = [(OfD D_S, loss_D_S v); (OfD D_T, loss_D_T v)].
Proof.
  cbv zeta. eexists _, _. split; [vm_compute; reflexivity|].
  do 8 (split; [vm_compute; reflexivity|]).
  match goal with
  | |- filter _ (grads ?W) = [(_, loss_D_S ?V); _] =>
      assert (Hg : grads W =
        (filter (fun pl => owner (fst pl) <> Opt_D)
           (filter (fun pl => owner (fst pl) <> Opt_G) (grads w)
            ++ [(OfG G_S2T, loss_G V); (OfG G_T2S, loss_G V)])
         ++ [(OfD D_S, loss_D_S V)]) ++ [(OfD D_T, loss_D_T V)])
        by (vm_compute; reflexivity)
  end.
  rewrite Hg, !filter_app, filter_owner_D_of_rest. reflexivity.
Qed.

End TrainFacts.

(** ** Meters *)

Section MeterFacts.

Context `{Torch}.

Lemma weighted_sum_snoc (l : list (scalar * Z)) (v : scalar) (n : Z) :
  weighted_sum (l ++ [(v, n)]) = s_add (weighted_sum l) (s_mul v (s_of_Z n)).
Proof. unfold weighted_sum. by rewrite fold_left_app. Qed.

Lemma total_weight_snoc (l : list (scalar * Z)) (v : scalar) (n : Z) :
  total_weight (l ++ [(v, n)]) = total_weight l + n.
Proof. unfold total_weight. by rewrite fold_left_app. Qed.

Lemma total_weight_nonneg (l : list (scalar * Z)) :
  Forall (fun vn => 0 < snd vn) l -> 0 <= total_weight l.
Proof.
  induction l as [|[v n] l IH] using rev_ind; intros Hl; [done|].
  apply Forall_app in Hl as [Hl Hn]. inversion Hn; subst; simpl in *.
  rewrite total_weight_snoc. specialize (IH Hl). lia.
Qed.

Lemma tracks_new (nm : string) : tracks (AverageMeter_new nm) [].
Proof. by repeat split. Qed.

Lemma tracks_update (m : AverageMeter) (l : list (scalar * Z)) (v : scalar) (n : Z) :
  tracks m l -> Forall (fun vn => 0 < snd vn) l -> 0 < n ->
  tracks (update m v n) (l ++ [(v, n)]).
Proof.
  intros (Hs & Hc & _) Hl Hn. pose proof (total_weight_nonneg l Hl) as Hw.
  unfold tracks, update, running_average. simpl.
  rewrite weighted_sum_snoc, total_weight_snoc, Hs, Hc.
  repeat split. intros _.
  destruct (Z.ltb_spec 0 (total_weight l + n)); [reflexivity|lia].
Qed.

End MeterFacts.

Section TrainMeters.

Context `{Trainer}.

Lemma loss_series_snoc (sel : locals -> lnode) (vs : list locals) (v : locals) :
  loss_series sel (vs ++ [v])
  = loss_series sel vs ++ [(item_of (sel v), size0 (tvalue (real_S v)))].
Proof. unfold loss_series. by rewrite map_app. Qed.

Lemma loss_series_weights (sel : locals -> lnode) (vs : list locals) :
  Forall (fun v => 0 < size0 (tvalue (real_S v))) vs ->
  Forall (fun vn => 0 < snd vn) (loss_series sel vs).
Proof. intros Hvs. unfold loss_series. by rewrite Forall_map. Qed.

Lemma meters_track_update (ms : meters) (vs : list locals) (v : locals) :
  meters_track ms vs ->
  Forall (fun v => 0 < size0 (tvalue (real_S v))) vs ->
  0 < size0 (tvalue (real_S v)) ->
  meters_track (update_meters ms v) (vs ++ [v]).
Proof.
  unfold meters_track, meter_list, update_meters. simpl. intros Htr Hvs Hv.
  repeat match goal with
         | Hf : Forall2 _ (_ :: _) (_ :: _) |- _ =>
             apply Forall2_cons in Hf as [? Hf]
         end.
  repeat (apply Forall2_cons; split;
          [rewrite loss_series_snoc;
           apply tracks_update; auto using loss_series_weights|]).
  constructor.
Qed.

Lemma train_rounds (a : args) (w0 : world) (k : nat) :
  print_freq a <> 0 ->
  (forall it : data_iter, 0 < size0 (fst (next_batch it))) ->
  exists (vs : list locals) (ms : meters) (w' : world),
    Forall2 (fun j v =>
               snd (train_step a main_criteria (world_before a main_criteria j w0)) = Ok v)
            (seq 0 k) vs /\
    train_loop a main_criteria (Py.range 0 (Z.of_nat k)) meters_new w0 = (w', Ok ms) /\
    Forall (fun v => 0 < size0 (tvalue (real_S v))) vs /\
    meters_track ms vs.
Proof.
  intros Hpf Hbatch. induction k as [|k IH].
  - exists [], meters_new, w0. split; [constructor|]. split; [reflexivity|].
    split; [constructor|]. unfold meters_track. simpl.
    repeat (apply Forall2_cons; split; [apply tracks_new|]). constructor.
  - destruct IH as (vs & ms & w1 & Hvs & Hloop & Hpos & Htr).
    destruct (train_body_events a (Z.of_nat k) ms w1 Hpf)
      as (w2 & v & evs & Hv & Hbody & Hreal & _).
    assert (Hvpos : 0 < size0 (tvalue (real_S v))) by (rewrite Hreal; apply Hbatch).
    exists (vs ++ [v]), (update_meters ms v), w2.
    split.
    { rewrite seq_S. apply Forall2_app; [exact Hvs|].
      constructor; [|constructor]. simpl.
      unfold world_before. by rewrite Hloop. }
    split.
    { unfold Py.range in *. rewrite Z.sub_0_r in *. rewrite seqZ_S.
      rewrite train_loop_app, (bind_ok _ _ _ _ _ Hloop). simpl.
      by rewrite (bind_ok _ _ _ _ _ Hbody). }
    split; [apply Forall_app; split; [exact Hpos|by constructor]|].
    by apply meters_track_update.
Qed.

(** The loop of [train] passes through the state its first rounds reach. *)
Lemma train_loop_prefix (a : args) (c : criteria) (k : nat) (n : Z) (w0 : world) :
  Z.of_nat k <= n ->
  train_loop a c (Py.range 0 n) meters_new w0
  = bind (train_loop a c (Py.range 0 (Z.of_nat k)) meters_new)
      (fun ms => train_loop a c (Py.range (Z.of_nat k) n) ms) w0.
Proof.
  intros Hk. unfold Py.range. rewrite !Z.sub_0_r.
  replace n with (Z.of_nat k + (n - Z.of_nat k)) at 1 by lia.
  rewrite seqZ_app by lia. apply train_loop_app.
Qed.

(** C7: within a call of [train], after round [k] each of the eight loss
    meters holds the running average of the values its loss took in rounds
    [0..k], each weighted by the size of the source batch of its round; the
    loop of every call starts from new meters, so nothing of an earlier
    epoch enters the average; and the loop over all rounds passes through
    the state reached after round [k]. *)
Theorem train_meters_running_average (a : args) (w0 : world) (k : nat) :
  print_freq a <> 0 ->
  (forall it : data_iter, 0 < size0 (fst (next_batch it))) ->
  (exists (vs : list locals) (ms : meters) (w' : world),
      Forall2 (fun j v =>
                 snd (train_step a main_criteria (world_before a main_criteria j w0)) = Ok v)
              (seq 0 (S k)) vs /\
      train_loop a main_criteria (Py.range 0 (Z.of_nat (S k))) meters_new w0 = (w', Ok ms) /\
      Forall2 (fun m sel =>
                 avg m = running_average (loss_series sel vs) /\
                 count m = total_weight (loss_series sel vs))
        (meter_list ms)
        [loss_G_S2T; loss_G_T2S; loss_D_S; loss_D_T;
         loss_cycle_S; loss_cycle_T; loss_identity_S; loss_identity_T]) /\
  (forall (epoch : Z) (w : world),
      train a main_criteria epoch w
      = bind (train_loop a main_criteria (Py.range 0 (iters_per_epoch a)) meters_new)
          (fun _ => ret tt) (set_log (EvTrain epoch :: log w) w)) /\
  (Z.of_nat (S k) <= iters_per_epoch a ->
   train_loop a main_criteria (Py.range 0 (iters_per_epoch a)) meters_new w0
   = bind (train_loop a main_criteria (Py.range 0 (Z.of_nat (S k))) meters_new)
       (fun ms => train_loop a main_criteria
                    (Py.range (Z.of_nat (S k)) (iters_per_epoch a)) ms) w0).
Proof.
  intros Hpf Hbatch. split; [|split; [reflexivity|apply train_loop_prefix]].
  destruct (train_rounds a w0 (S k) Hpf Hbatch) as (vs & ms & w' & Hvs & Hloop & _ & Htr).
  exists vs, ms, w'. split; [exact Hvs|]. split; [exact Hloop|].
  assert (Hne : vs <> []).
  { intros ->. apply Forall2_length in Hvs. discriminate Hvs. }
  eapply Forall2_impl; [exact Htr|].
  intros m sel (Hs & Hc & Havg). split; [|exact Hc].
  apply Havg. unfold loss_series. destruct vs; [done|discriminate].
Qed.

End TrainMeters.

(** ** The epoch loop of [main] *)

Section MainFacts.

Context `{Trainer}.

Lemma train_ok (a : args) (epoch : Z) (w : world) :
  print_freq a <> 0 ->
  exists (w1 : world) (evs : list event),
    train a main_criteria epoch w = (w1, Ok tt) /\
    files w1 = files w /\
    log w1 = rev evs ++ log w /\
    omap main_op_of evs = [MTrain epoch].
Proof.
  intros Hpf. unfold train. rewrite emit_run.
  destruct (train_loop_events a (Py.range 0 (iters_per_epoch a)) meters_new
              (set_log (EvTrain epoch :: log w) w) Hpf)
    as (w1 & ms & evs & Hloop & Hfiles & Hlog & _ & Hmain).
  exists w1, (EvTrain epoch :: evs).
  split; [by rewrite (bind_ok _ _ _ _ _ Hloop)|].
  split; [exact Hfiles|].
  split; [rewrite Hlog; simpl; by rewrite <- app_assoc|].
  change (omap main_op_of (EvTrain epoch :: evs))
    with (MTrain epoch :: omap main_op_of evs).
  by rewrite Hmain.
Qed.

(** One epoch: [train], then both scheduler steps, then the checkpoint,
    which records the eight states as the scheduler steps left them. *)
Lemma epoch_body_events (a : args) (epoch : Z) (w0 : world) :
  print_freq a <> 0 ->
  exists (w1 w2 : world) (evs : list event),
    train a main_criteria epoch w0 = (w1, Ok tt) /\
    epoch_body a epoch w0 = (w2, Ok tt) /\
    lr_scheduler_G w2 = fst (sched_step (lr_scheduler_G w1) (optimizer_G w1)) /\
    optimizer_G w2 = snd (sched_step (lr_scheduler_G w1) (optimizer_G w1)) /\
    lr_scheduler_D w2 = fst (sched_step (lr_scheduler_D w1) (optimizer_D w1)) /\
    optimizer_D w2 = snd (sched_step (lr_scheduler_D w1) (optimizer_D w1)) /\
    netG_S2T w2 = netG_S2T w1 /\ netG_T2S w2 = netG_T2S w1 /\
    netD_S w2 = netD_S w1 /\ netD_T w2 = netD_T w1 /\
    files w2 = <[get_checkpoint_path (log_root a) "latest" := state_dicts w2 epoch a]>
                 (files w1) /\
    log w2 = [EvSave (get_checkpoint_path (log_root a) "latest") (state_dicts w2 epoch a);
              EvSchedulerStep Opt_D; EvSchedulerStep Opt_G] ++ log w1 /\
    log w2 = rev evs ++ log w0 /\
    omap main_op_of evs = epoch_ops (get_checkpoint_path (log_root a) "latest") epoch.
Proof.
  intros Hpf.
  destruct (train_ok a epoch w0 Hpf) as (w1 & evs & Htrain & _ & Hlog & Hmain).
  set (w2 := fst (save_checkpoint a epoch
                    (fst (scheduler_step Opt_D (fst (scheduler_step Opt_G w1)))))).
  exists w1, w2,
    (evs ++ [EvSchedulerStep Opt_G; EvSchedulerStep Opt_D;
             EvSave (get_checkpoint_path (log_root a) "latest") (state_dicts w2 epoch a)]).
  split; [exact Htrain|].
  split; [unfold epoch_body; rewrite (bind_ok _ _ _ _ _ Htrain); reflexivity|].
  do 10 (split; [reflexivity|]).
  split; [rewrite rev_app_distr, <- app_assoc, <- Hlog; reflexivity|].
  rewrite omap_app, Hmain. reflexivity.
Qed.

Lemma epoch_loop_events (a : args) (es : list Z) (w : world) :
  print_freq a <> 0 ->
  exists (w' : world) (evs : list event),
    epoch_loop a es w = (w', Ok tt) /\
    log w' = rev evs ++ log w /\
    omap main_op_of evs
    = flat_map (epoch_ops (get_checkpoint_path (log_root a) "latest")) es.
Proof.
  intros Hpf. revert w. induction es as [|e es IH]; intros w.
  - exists w, []. by repeat split.
  - destruct (epoch_body_events a e w Hpf)
      as (w1 & w2 & evs1' & _ & Hbody & _ & _ & _ & _ & _ & _ & _ & _ & _ & _ & Hlog1 & Hops1).
    destruct (IH w2) as (w3 & evs2 & Hloop & Hlog2 & Hops2).
    exists w3, (evs1' ++ evs2).
    split; [cbn [epoch_loop]; by rewrite (bind_ok _ _ _ _ _ Hbody)|].
    split; [rewrite Hlog2, Hlog1, rev_app_distr; by rewrite <- app_assoc|].
    rewrite omap_app, Hops1, Hops2. reflexivity.
Qed.

(** With a divisor other than 0 the two schedulers are constructed and
    [main] goes on to the resume block. *)
Lemma LambdaLR_ok (a : args) (w : world) :
  epochs_decay a <> 0 -> LambdaLR a w = (w, Ok tt).
Proof.
  intros Hd. unfold LambdaLR, lr_decay_function.
  destruct (Z.eqb_spec (epochs_decay a) 0) as [|_]; [contradiction|reflexivity].
Qed.

Lemma main_constructed (a : args) (w : world) :
  epochs_decay a <> 0 ->
  main a w
  = (let* a := resume_from a in
     if String.eqb (phase a) "train"
     then epoch_loop a (Py.range (start_epoch a) (epochs a + epochs_decay a))
     else ret tt) w.
Proof.
  intros Hd. unfold main.
  rewrite (bind_ok _ _ _ _ _ (LambdaLR_ok a w Hd)).
  by rewrite (bind_ok _ _ _ _ _ (LambdaLR_ok a w Hd)).
Qed.

(** C5: when the schedulers can be constructed ([epochs_decay] is not 0)
    and [train] returns ([print_freq] is not 0), in the train phase [main]
    calls [train] once for each epoch of
    [range(start_epoch, epochs + epochs_decay)]; after each call it steps
    both schedulers and then saves a checkpoint that records the two
    generators, the two discriminators, the two optimizers and the two
    schedulers as they are then, and the epoch; and when [args.resume] names
    a saved checkpoint, those eight states are restored from it and the loop
    starts at the saved epoch plus one. *)
Theorem main_epochs_and_checkpoints (a : args) (w : world) :
  epochs_decay a <> 0 -> print_freq a <> 0 -> phase a = "train" ->
  let latest := get_checkpoint_path (log_root a) "latest" in
  (forall (epoch : Z) (w0 : world),
      exists (w1 w2 : world),
        train a main_criteria epoch w0 = (w1, Ok tt) /\
        epoch_body a epoch w0 = (w2, Ok tt) /\
        lr_scheduler_G w2 = fst (sched_step (lr_scheduler_G w1) (optimizer_G w1)) /\
        optimizer_G w2 = snd (sched_step (lr_scheduler_G w1) (optimizer_G w1)) /\
        lr_scheduler_D w2 = fst (sched_step (lr_scheduler_D w1) (optimizer_D w1)) /\
        optimizer_D w2 = snd (sched_step (lr_scheduler_D w1) (optimizer_D w1)) /\
        netG_S2T w2 = netG_S2T w1 /\ netG_T2S w2 = netG_T2S w1 /\
        netD_S w2 = netD_S w1 /\ netD_T w2 = netD_T w1 /\
        files w2 = <[latest := state_dicts w2 epoch a]> (files w1) /\
        log w2 = [EvSave latest (state_dicts w2 epoch a);
                  EvSchedulerStep Opt_D; EvSchedulerStep Opt_G] ++ log w1) /\
  ((resume a = None \/ resume a = Some "") ->
   exists (w' : world) (evs : list event),
     main a w = (w', Ok tt) /\
     log w' = rev evs ++ log w /\
     omap main_op_of evs
     = flat_map (epoch_ops latest) (Py.range (start_epoch a) (epochs a + epochs_decay a))) /\
  (forall (path : string) (c : checkpoint),
      resume a = Some path -> path <> "" -> files w !! path = Some c ->
      exists (w0 w' : world) (evs : list event),
        resume_from a w = (w0, Ok (set_start_epoch (ck_epoch c + 1) a)) /\
        state_dicts w0 (ck_epoch c) (ck_args c) = c /\
        main a w = (w', Ok tt) /\
        log w' = rev evs ++ log w /\
        omap main_op_of evs
        = flat_map (epoch_ops latest) (Py.range (ck_epoch c + 1) (epochs a + epochs_decay a))).
Proof.
  intros Hd Hpf Hphase latest. split; [|split].
  - intros epoch w0.
    destruct (epoch_body_events a epoch w0 Hpf) as (w1 & w2 & evs & Hall).
    exists w1, w2. repeat (split; [apply Hall|]). apply Hall.
  - intros Hres.
    assert (Hr : resume_from a w = (w, Ok a)).
    { unfold resume_from. destruct Hres as [-> | ->]; reflexivity. }
    destruct (epoch_loop_events a (Py.range (start_epoch a) (epochs a + epochs_decay a)) w Hpf)
      as (w' & evs & Hloop & Hlog & Hops).
    exists w', evs. split; [|by split].
    rewrite (main_constructed a w Hd), (bind_ok _ _ _ _ _ Hr), Hphase. exact Hloop.
  - intros path c Hres Hpath Hfile.
    set (a' := set_start_epoch (ck_epoch c + 1) a).
    assert (Hr : exists w0, resume_from a w = (w0, Ok a') /\
                            state_dicts w0 (ck_epoch c) (ck_args c) = c /\
                            log w0 = log w).
    { unfold resume_from. rewrite Hres.
      destruct (String.eqb_spec path "") as [|_]; [contradiction|].
      assert (Hload : torch_load path w = (w, Ok c))
        by (unfold torch_load; by rewrite Hfile).
      rewrite (bind_ok _ _ _ _ _ Hload).
      eexists. split; [reflexivity|]. split; [by destruct c|reflexivity]. }
    destruct Hr as (w0 & Hr & Hstates & Hlog0).
    destruct (epoch_loop_events a' (Py.range (ck_epoch c + 1) (epochs a + epochs_decay a)) w0 Hpf)
      as (w' & evs & Hloop & Hlog & Hops).
    exists w0, w', evs. split; [exact Hr|]. split; [exact Hstates|].
    split; [|split; [by rewrite Hlog, Hlog0|exact Hops]].
    rewrite (main_constructed a w Hd), (bind_ok _ _ _ _ _ Hr).
    change (phase a') with (phase a). rewrite Hphase. exact Hloop.
Qed.

End MainFacts.

(** ** The definitions at work on the small instance *)

Example toy_train_ops :
  omap optim_op (rev (log (fst (train toy_args main_criteria 0 toy_world))))
  = iteration_ops ++ iteration_ops.
Proof. vm_compute. reflexivity. Qed.

Example toy_train_no_print :
  snd (train toy_args_no_print main_criteria 0 toy_world) = Raise ZeroDivisionError /\
  omap optim_op (rev (log (fst (train toy_args_no_print main_criteria 0 toy_world))))
  = iteration_ops.
Proof. split; vm_compute; reflexivity. Qed.

Example toy_main_ops :
  snd (main toy_args toy_world) = Ok tt /\
  omap main_op_of (rev (log toy_world_after))
  = [MTrain 0; MSchedulerStep Opt_G; MSchedulerStep Opt_D;
     MSave "cyclegan/checkpoints/latest.pth" 0;
     MTrain 1; MSchedulerStep Opt_G; MSchedulerStep Opt_D;
     MSave "cyclegan/checkpoints/latest.pth" 1].
Proof. split; vm_compute; reflexivity. Qed.

Example toy_main_resumes :
  omap main_op_of
    (rev (take 35 (log (fst (main toy_args_resume toy_world_after)))))
  = [MTrain 2; MSchedulerStep Opt_G; MSchedulerStep Opt_D;
     MSave "cyclegan/checkpoints/latest.pth" 2] /\
  length (log (fst (main toy_args_resume toy_world_after)))
  = (35 + length (log toy_world_after))%nat.
Proof. split; vm_compute; reflexivity. Qed.

Example toy_meters :
  match train_loop toy_args main_criteria (Py.range 0 2) meters_new toy_world with
  | (_, Ok ms) => map (fun m => (name m, avg m, count m)) (meter_list ms)
  | _ => []
  end
  = [("G_S2T", Qdiv (inject_Z 8500) (inject_Z 4), 4);
     ("G_T2S", Qdiv (inject_Z 32212) (inject_Z 4), 4);
     ("D_S", Qdiv (Qmake 80852 4) (inject_Z 4), 4);
     ("D_T", Qdiv (Qmake 88072 4) (inject_Z 4), 4);
     ("cycle_S", Qdiv (inject_Z 60) (inject_Z 4), 4);
     ("cycle_T", Qdiv (inject_Z 60) (inject_Z 4), 4);
     ("idt_S", Qdiv (inject_Z 30) (inject_Z 4), 4);
     ("idt_T", Qdiv (inject_Z 20) (inject_Z 4), 4)].
Proof. vm_compute. reflexivity. Qed.

Lemma train_meters_running_average_witness :
  exists (vs : list locals) (ms : meters) (w' : world),
    Forall2 (fun j v =>
               snd (train_step toy_args main_criteria
                      (world_before toy_args main_criteria j toy_world)) = Ok v)
            (seq 0 2) vs /\
    train_loop toy_args main_criteria (Py.range 0 (Z.of_nat 2)) meters_new toy_world
      = (w', Ok ms) /\
    Forall2 (fun m sel =>
               avg m = running_average (loss_series sel vs) /\
               count m = total_weight (loss_series sel vs))
      (meter_list ms)
      [loss_G_S2T; loss_G_T2S; loss_D_S; loss_D_T;
       loss_cycle_S; loss_cycle_T; loss_identity_S; loss_identity_T].
Proof.
  assert (Hpf : print_freq toy_args <> 0) by (simpl; lia).
  assert (Hbatch : forall it : data_iter, 0 < size0 (fst (next_batch it)))
    by (intros it; simpl; lia).
  exact (proj1 (train_meters_running_average toy_args toy_world 1 Hpf Hbatch)).
Defined.

Lemma main_epochs_and_checkpoints_witness :
  exists (w' : world) (evs : list event),
    main toy_args toy_world = (w', Ok tt) /\
    log w' = rev evs ++ log toy_world /\
    omap main_op_of evs
    = flat_map (epoch_ops (get_checkpoint_path (log_root toy_args) "latest"))
        (Py.range (start_epoch toy_args) (epochs toy_args + epochs_decay toy_args)).
Proof.
  assert (Hd : epochs_decay toy_args <> 0) by (simpl; lia).
  assert (Hpf : print_freq toy_args <> 0) by (simpl; lia).
  assert (Hphase : phase toy_args = "train") by reflexivity.
  exact (proj1 (proj2 (main_epochs_and_checkpoints toy_args toy_world Hd Hpf Hphase))
           (or_introl eq_refl)).
Defined.

(** C5 as stated fails without epochs of decay: the train phase has the
    one epoch of [range(0, 1)] to run, but constructing the first scheduler
    divides by [float(0)] and [main] ends there, with nothing trained and
    nothing saved. *)
Lemma main_no_decay_epoch_not_trained :
  phase toy_args_no_decay = "train" /\
  Py.range (start_epoch toy_args_no_decay)
    (epochs toy_args_no_decay + epochs_decay toy_args_no_decay) = [0] /\
  main toy_args_no_decay toy_world = (toy_world, Raise ZeroDivisionError) /\
  ~ (exists (w' : world) (evs : list event),
        main toy_args_no_decay toy_world = (w', Ok tt) /\
        log w' = rev evs ++ log toy_world /\
        omap main_op_of evs
        = flat_map (epoch_ops (get_checkpoint_path (log_root toy_args_no_decay) "latest"))
            (Py.range (start_epoch toy_args_no_decay)
               (epochs toy_args_no_decay + epochs_decay toy_args_no_decay))).
Proof.
  assert (Hrun : main toy_args_no_decay toy_world = (toy_world, Raise ZeroDivisionError))
    by (vm_compute; reflexivity).
  split; [reflexivity|]. split; [vm_compute; reflexivity|]. split; [exact Hrun|].
  intros (w' & evs & Hok & _). rewrite Hrun in Hok. discriminate Hok.
Qed.

(** * Further properties of the dataset *)

(** ** [make_power_2] moves a side to a nearest multiple *)

Lemma target_side_near (o base : Z) :
  0 < o -> 0 < base ->
  2 * Z.abs (target_side o base - o) <= base \/
  (2 * o < base /\ target_side o base = base).
Proof.
  intros Ho Hb. unfold target_side.
  pose proof (round_div_nearest o base Hb) as Hn.
  pose proof (round_div_nonneg o base ltac:(lia) Hb) as Hq.
  destruct (Z.max_spec (Py.round_div o base) 1) as [[Hlt ->]|[Hge ->]].
  - assert (Hz : Py.round_div o base = 0) by lia. rewrite Hz in Hn.
    destruct (Z.lt_ge_cases (2 * o) base); [right; lia|left; lia].
  - left. replace (Py.round_div o base * base - o)
      with (- (o - base * Py.round_div o base)) by lia.
    by rewrite Z.abs_opp.
Qed.

(** X1: [make_power_2] changes each side by at most half the base, except
    that a side shorter than half the base becomes the base; no side
    becomes 0. *)
Theorem make_power_2_nearest {image : Type} `{PilLaws image}
    (img : image) (base : Z) (m : resample) :
  0 < fst (img_size img) -> 0 < snd (img_size img) -> 0 < base ->
  exists img' : image,
    make_power_2 img base m = Ok img' /\
    0 < fst (img_size img') /\ 0 < snd (img_size img') /\
    (2 * Z.abs (fst (img_size img') - fst (img_size img)) <= base \/
     (2 * fst (img_size img) < base /\ fst (img_size img') = base)) /\
    (2 * Z.abs (snd (img_size img') - snd (img_size img)) <= base \/
     (2 * snd (img_size img) < base /\ snd (img_size img') = base)).
Proof.
  intros Hw Hh Hb.
  destruct (make_power_2_resized img base m Hb) as (img' & Hrun & Hsize & _).
  exists img'. split; [exact Hrun|]. rewrite Hsize. simpl.
  split; [by apply target_side_pos|]. split; [by apply target_side_pos|].
  split; by apply target_side_near.
Qed.

Lemma make_power_2_nearest_witness :
  exists img' : picture,
    make_power_2 (Picture 10 1 0) 4 BICUBIC = Ok img' /\
    0 < fst (img_size img') /\ 0 < snd (img_size img') /\
    (2 * Z.abs (fst (img_size img') - 10) <= 4 \/
     (2 * 10 < 4 /\ fst (img_size img') = 4)) /\
    (2 * Z.abs (snd (img_size img') - 1) <= 4 \/
     (2 * 1 < 4 /\ snd (img_size img') = 4)).
Proof.
  assert (H10 : 0 < 10) by lia. assert (H1 : 0 < 1) by lia. assert (H4 : 0 < 4) by lia.
  exact (make_power_2_nearest (Picture 10 1 0) 4 BICUBIC H10 H1 H4).
Defined.

(** ** Indexing a dataset *)

Lemma getitem_out_of_range {A} (l : list A) (index : Z) :
  index < - Z.of_nat (length l) \/ Z.of_nat (length l) <= index ->
  Py.getitem l index = Raise IndexError.
Proof.
  intros Hi. unfold Py.getitem.
  destruct (Z.ltb_spec index 0).
  - assert (E : (index + Z.of_nat (length l) <? 0) = true) by (apply Z.ltb_lt; lia).
    by rewrite E.
  - assert (E : (Z.of_nat (length l) <=? index) = true) by (apply Z.leb_le; lia).
    rewrite E. by rewrite orb_true_r.
Qed.

Lemma getitem_negative {A} (l : list A) (index : Z) :
  - Z.of_nat (length l) <= index < 0 ->
  Py.getitem l index = Py.getitem l (index + Z.of_nat (length l)).
Proof.
  intros Hi. unfold Py.getitem.
  assert (E1 : (index <? 0) = true) by (apply Z.ltb_lt; lia).
  assert (E2 : (index + Z.of_nat (length l) <? 0) = false) by (apply Z.ltb_ge; lia).
  cbv zeta. rewrite E1, E2. cbv iota. by rewrite E2.
Qed.

(** X2: [__getitem__] follows list indexing: an index at or beyond the
    length, or below minus the length, raises [IndexError] before any file
    is read; a negative index in range counts from the end. *)
Theorem VOC_getitem_bounds {image : Type} `{Pil image} {item : Type}
    (images : gmap string image) (self : @VOCImageFolder image item) (index : Z) :
  (index < - VOC_len self \/ VOC_len self <= index ->
   VOC_getitem images self index = Raise IndexError) /\
  (- VOC_len self <= index < 0 ->
   VOC_getitem images self index = VOC_getitem images self (index + VOC_len self)).
Proof.
  unfold VOC_getitem, VOC_len. split; intros Hi.
  - by rewrite getitem_out_of_range.
  - by rewrite getitem_negative.
Qed.

(** ** Sample paths *)

Lemma isabs_cons (p : string) :
  Py.isabs p = true -> exists r, p = String "/" r.
Proof.
  destruct p as [|c r]; [discriminate|].
  unfold Py.isabs, Py.startswith.
  destruct c as [[] [] [] [] [] [] [] []]; simpl; try discriminate. eauto.
Qed.

Lemma isabs_slash (x : string) : Py.isabs (String "/" x) = true.
Proof. by destruct x. Qed.

Lemma join_absolute_root (self_root : string) (p : list string) :
  Py.isabs self_root = true -> Py.isabs (Py.join self_root p) = true.
Proof.
  unfold Py.join. revert self_root.
  induction p as [|b p IH]; intros self_root Habs; [exact Habs|].
  simpl. apply IH. unfold Py.join_step.
  destruct (Py.startswith "/" b) eqn:Hb; [exact Hb|].
  destruct (isabs_cons self_root Habs) as [r ->].
  destruct (String.eqb (String "/" r) "" || Py.endswith_sep (String "/" r));
    apply isabs_slash.
Qed.

(** X3: when the root of the dataset is an absolute path, every sample
    [parse_data_file] returns is an absolute path. *)
Theorem parse_data_file_absolute (files : gmap string string)
    (self_root file_name : string) (extension : option string) (content : string) :
  files !! file_name = Some content ->
  Py.isabs self_root = true ->
  exists data_list : list string,
    parse_data_file files self_root file_name extension = Ok data_list /\
    length data_list = length (Py.readlines content) /\
    Forall (fun path => Py.isabs path = true) data_list.
Proof.
  intros Hfile Habs. unfold parse_data_file. rewrite Hfile.
  eexists. split; [reflexivity|]. rewrite fold_left_snoc_map.
  split; [simpl; by rewrite length_map|].
  simpl. apply Forall_map, Forall_forall. intros line _. simpl.
  destruct (Py.isabs (match extension with Some e => _ | None => _ end)) eqn:Hp; simpl.
  - exact Hp.
  - by apply (join_absolute_root self_root ["JPEGImages"; _]).
Qed.

(** ** Blank lines *)

Lemma lstrip_all_space (s : string) : all_space s = true -> Py.lstrip s = EmptyString.
Proof.
  induction s as [|c s IH]; simpl; [done|].
  destruct (Py.isspace c); simpl; [exact IH|discriminate].
Qed.

(** X4: [parse_data_file] does not skip blank lines: a line of
    whitespace only still yields an entry, made of the extension alone
    under [root/JPEGImages]. *)
Theorem parse_data_file_blank_line (files : gmap string string)
    (self_root file_name : string) (extension : option string)
    (content line : string) :
  files !! file_name = Some content ->
  In line (Py.readlines content) ->
  all_space line = true ->
  exists data_list : list string,
    parse_data_file files self_root file_name extension = Ok data_list /\
    In (let path := match extension with None => EmptyString | Some e => e end in
        if Py.isabs path then path else Py.join self_root ["JPEGImages"; path])
       data_list.
Proof.
  intros Hfile Hline Hblank. unfold parse_data_file. rewrite Hfile.
  eexists. split; [reflexivity|]. rewrite fold_left_snoc_map. simpl.
  apply in_map_iff. exists line. split; [|exact Hline].
  unfold Py.strip. rewrite (lstrip_all_space line Hblank). simpl.
  destruct extension as [e|]; simpl; [|reflexivity].
  change ("" +:+ e) with e. by destruct (Py.isabs e).
Qed.

(** ** [translate] with a base that is not positive *)

Section TranslateFacts.

Context {image : Type} `{PilLaws image} {item : Type}.

Abbreviation folder := (@VOCImageFolder image item).

Lemma round_div_negative_base (o base : Z) :
  0 <= o -> base < 0 -> Py.round_div o base <= 1.
Proof.
  intros Ho Hb. unfold Py.round_div.
  assert (Hq : o / base <= 0).
  { pose proof (Z.div_mod o base ltac:(lia)) as Hdm.
    pose proof (Z.mod_neg_bound o base Hb) as Hm. nia. }
  destruct (2 * Z.abs (o mod base) ?= Z.abs base); [destruct (Z.even (o / base))| |]; lia.
Qed.

(** With a base that is not positive [make_power_2] returns no image: the
    division raises for 0, and for a negative base both sides asked of
    [resize] are the base itself. *)
Lemma make_power_2_bad_base (img : image) (base : Z) (m : resample) :
  base <= 0 -> 0 <= fst (img_size img) -> 0 <= snd (img_size img) ->
  make_power_2 img base m
  = Raise (if base =? 0 then ZeroDivisionError else ValueError).
Proof.
  intros Hb Hw Hh. unfold make_power_2, resize.
  destruct (img_size img) as [ow oh]. cbn [fst snd] in *.
  destruct (Z.eqb_spec base 0) as [|Hne]; [reflexivity|].
  pose proof (round_div_negative_base oh base Hh ltac:(lia)) as Hrh.
  pose proof (round_div_negative_base ow base Hw ltac:(lia)) as Hrw.
  rewrite !Z.max_r by lia. rewrite !Z.mul_1_l.
  destruct (Z.eqb_spec base oh); [lia|]. cbn [andb].
  destruct (Z.eqb_spec ow base); [lia|]. cbn [andb].
  destruct (Z.ltb_spec base 1); [reflexivity|lia].
Qed.

Lemma translate_one_bad_base (self : folder) (tf : image -> image)
    (target_root : string) (image_base : Z) (images : gmap string image)
    (path : string) :
  image_base <= 0 ->
  map_Forall (fun _ img => 0 <= fst (img_size img) /\ 0 <= snd (img_size img)) images ->
  exists e : exn, translate_one self tf target_root image_base images path = Raise e.
Proof.
  intros Hb Hsides. unfold translate_one.
  destruct (images !! path) as [raw|] eqn:Hraw; [|eauto].
  destruct (Hsides path raw Hraw) as [Hw Hh].
  rewrite <- (convert_size raw) in Hw, Hh.
  rewrite (surjective_pairing (img_size (img_convert_rgb raw))).
  rewrite (make_power_2_bad_base _ _ _ Hb Hw Hh). simpl. eauto.
Qed.

(** X19: with an [image_base] that is not positive [translate] saves
    nothing: [make_power_2] raises for every image, [ZeroDivisionError] for
    base 0 and [ValueError] from [resize] for a negative base, so the loop
    ends in an exception at its first sample. *)
Theorem translate_bad_base_saves_nothing (self : folder) (tf : image -> image)
    (target_root : string) (image_base : Z) (images : gmap string image) :
  image_base <= 0 ->
  map_Forall (fun _ img => 0 <= fst (img_size img) /\ 0 <= snd (img_size img)) images ->
  (forall (img : image) (m : resample),
      0 <= fst (img_size img) -> 0 <= snd (img_size img) ->
      make_power_2 img image_base m
      = Raise (if image_base =? 0 then ZeroDivisionError else ValueError)) /\
  fst (translate self tf target_root image_base images) = images /\
  (samples self <> [] ->
   snd (translate self tf target_root image_base images) <> None).
Proof.
  intros Hb Hsides. split; [intros img m; by apply make_power_2_bad_base|].
  unfold translate. destruct (Py.makedirs target_root) as [[]|e]; [|by split].
  destruct (samples self) as [|p rest]; [by split|].
  destruct (translate_one_bad_base self tf target_root image_base images p Hb Hsides)
    as [e He].
  cbn [translate_loop]. rewrite He. by split.
Qed.

End TranslateFacts.

Lemma translate_bad_base_saves_nothing_witness :
  (forall (img : picture) (m : resample),
      0 <= fst (img_size img) -> 0 <= snd (img_size img) ->
      make_power_2 img (-4) m = Raise (if -4 =? 0 then ZeroDivisionError else ValueError)) /\
  fst (translate voc_dataset repaint "out" (-4) voc_images) = voc_images /\
  (samples voc_dataset <> [] ->
   snd (translate voc_dataset repaint "out" (-4) voc_images) <> None).
Proof.
  assert (Hb : -4 <= 0) by lia.
  assert (Hsides : map_Forall (fun (_ : string) (img : picture) =>
                                 0 <= fst (img_size img) /\ 0 <= snd (img_size img))
                     voc_images).
  { unfold voc_images. apply map_Forall_insert_2; [simpl; lia|].
    apply map_Forall_insert_2; [simpl; lia|]. apply map_Forall_empty. }
  exact (translate_bad_base_saves_nothing voc_dataset repaint "out" (-4) voc_images
           Hb Hsides).
Defined.

Example translate_negative_base :
  translate voc_dataset repaint "out" (-4) voc_images = (voc_images, Some ValueError) /\
  translate voc_dataset repaint "out" 0 voc_images = (voc_images, Some ZeroDivisionError) /\
  translate voc_dataset repaint "" 4 voc_images = (voc_images, Some FileNotFoundError).
Proof. repeat split; vm_compute; reflexivity. Qed.
(** ** Where the translated files go *)








(** ** A missing data list file *)

Section BuildDatasetErrors.

Context {image : Type} `{Pil image} {item : Type}.
Variable expanduser : string -> string.

Lemma init_cases (files : gmap string string) (root_arg phase : string)
    (tf : option (image -> item)) (extension : option string) :
  match files !! Py.join root_arg ["ImageSets/Main/" +:+ phase +:+ ".txt"] with
  | Some _ => exists ds : @VOCImageFolder image item,
      VOCImageFolder_init expanduser files root_arg phase tf extension = Ok ds
  | None =>
      VOCImageFolder_init expanduser files root_arg phase tf extension
      = Raise FileNotFoundError
  end.
Proof.
  unfold VOCImageFolder_init, parse_data_file.
  destruct (files !! _); simpl; eauto.
Qed.

Lemma build_loop_missing (files : gmap string string) (tf : image -> item)
    (pairs : list (string * string)) (acc : list (@VOCImageFolder image item)) :
  Exists (fun nr => files !! Py.join (snd nr)
            ["ImageSets/Main/" +:+ phase_of (fst nr) +:+ ".txt"] = None) pairs ->
  build_loop expanduser files tf pairs acc = Raise FileNotFoundError.
Proof.
  revert acc. induction pairs as [|[nm rt] pairs IH]; intros acc Hex.
  - inversion Hex.
  - simpl. rewrite build_one_choice.
    pose proof (init_cases files rt (phase_of nm) (Some tf) (Some (extension_of nm)))
      as Hinit.
    destruct (files !! Py.join rt ["ImageSets/Main/" +:+ phase_of nm +:+ ".txt"])
      as [content|] eqn:Hfile.
    + destruct Hinit as [d ->]. simpl. apply IH.
      inversion Hex as [? ? Hhead|]; subst; [|assumption].
      cbn [fst snd] in Hhead. rewrite Hfile in Hhead. discriminate Hhead.
    + by rewrite Hinit.
Qed.

(** X8: when the data list file of any pair cannot be opened,
    [build_dataset] raises [FileNotFoundError] and builds no
    [ConcatDataset], whatever the other pairs are. *)
Theorem build_dataset_missing_list_file (files : gmap string string)
    (dataset_names dataset_roots : list string) (tf : image -> item) :
  Exists (fun nr =>
            files !! Py.join (snd nr)
              ["ImageSets/Main/"
               +:+ (if bool_decide (fst nr = "WaterColor" \/ fst nr = "Comic") then "train"
                    else if bool_decide (fst nr = "Sim10k") then "trainval10k"
                    else "trainval")
               +:+ ".txt"] = None)
         (Py.zip dataset_names dataset_roots) ->
  build_dataset expanduser files dataset_names dataset_roots tf
  = Raise FileNotFoundError.
Proof.
  intros Hex. unfold build_dataset.
  by rewrite (build_loop_missing files tf _ [] Hex).
Qed.

End BuildDatasetErrors.

(** ** The translation phase of [main] *)

Lemma str_iter_length (s : string) : length (str_iter s) = String.length s.
Proof. induction s as [|c s IH]; simpl; [done|by rewrite IH]. Qed.

Lemma str_iter_single (s : string) :
  Forall (fun c => String.length c = 1%nat) (str_iter s).
Proof. induction s as [|c s IH]; simpl; by constructor. Qed.

Lemma zip_snd_Forall {A B} (P : B -> Prop) (xs : list A) (ys : list B) :
  Forall P ys -> Forall (fun xy => P (snd xy)) (Py.zip xs ys).
Proof.
  intros Hys. revert xs. induction Hys as [|y ys Hy _ IH]; intros [|x xs]; simpl;
    constructor; auto.
Qed.

(** X9: [main] pairs the target datasets with the characters of
    [args.translated_target]: dataset number [i] is translated into the
    directory named by character [i] alone, and no more datasets are
    translated than the string has characters. A single dataset goes to the
    directory named by the first character. *)
Theorem main_translate_target_by_character {image : Type} `{Pil image} {item : Type}
    (source_datasets target_datasets : list (@VOCImageFolder image item))
    (translated_target : string) (tf_S2T tf_T2S : image -> image) (image_base : Z)
    (images : gmap string image) :
  main_translate source_datasets target_datasets None (Some translated_target)
    tf_S2T tf_T2S image_base images
  = translate_all tf_T2S image_base
      (Py.zip target_datasets (str_iter translated_target)) images /\
  length (Py.zip target_datasets (str_iter translated_target))
  = Nat.min (length target_datasets) (String.length translated_target) /\
  Forall (fun pair => String.length (snd pair) = 1%nat)
    (Py.zip target_datasets (str_iter translated_target)) /\
  (forall (dataset : @VOCImageFolder image item) (c : ascii) (rest : string),
      target_datasets = [dataset] -> translated_target = String c rest ->
      main_translate source_datasets target_datasets None (Some translated_target)
        tf_S2T tf_T2S image_base images
      = translate dataset tf_T2S (String c EmptyString) image_base images).
Proof.
  split; [reflexivity|]. split; [by rewrite zip_length, str_iter_length|].
  split; [apply (zip_snd_Forall (fun c => String.length c = 1%nat)), str_iter_single|].
  intros dataset c rest -> ->. unfold main_translate. simpl.
  by destruct (translate dataset tf_T2S (String c "") image_base images) as [im [e|]].
Qed.

(** The target root "out" sends the only target dataset to "o". *)
Example main_translate_out :
  fst (main_translate [] [voc_dataset] None (Some "out") repaint repaint 4 voc_images)
    !! "o/JPEGImages/2007_000027.jpg" = Some (Picture 10 7 102) /\
  fst (main_translate [] [voc_dataset] None (Some "out") repaint repaint 4 voc_images)
    !! "out/JPEGImages/2007_000027.jpg" = None.
Proof. split; vm_compute; reflexivity. Qed.

(** ** The dataset properties at work *)

Lemma parse_data_file_absolute_witness :
  exists data_list : list string,
    parse_data_file rooted_files "/data/voc" "/data/voc/ImageSets/Main/trainval.txt"
      (Some ".jpg") = Ok data_list /\
    length data_list = length (Py.readlines blank_list) /\
    Forall (fun path => Py.isabs path = true) data_list.
Proof.
  assert (Hfile : rooted_files !! "/data/voc/ImageSets/Main/trainval.txt" = Some blank_list)
    by reflexivity.
  assert (Habs : Py.isabs "/data/voc" = true) by reflexivity.
  exact (parse_data_file_absolute rooted_files "/data/voc"
           "/data/voc/ImageSets/Main/trainval.txt" (Some ".jpg") blank_list Hfile Habs).
Defined.

Lemma parse_data_file_blank_line_witness :
  exists data_list : list string,
    parse_data_file rooted_files "/data/voc" "/data/voc/ImageSets/Main/trainval.txt"
      (Some ".jpg") = Ok data_list /\
    In (let path := match Some ".jpg" with None => EmptyString | Some e => e end in
        if Py.isabs path then path else Py.join "/data/voc" ["JPEGImages"; path])
       data_list.
Proof.
  assert (Hfile : rooted_files !! "/data/voc/ImageSets/Main/trainval.txt" = Some blank_list)
    by reflexivity.
  assert (Hline : In (String " " (String Py.newline "")) (Py.readlines blank_list))
    by (vm_compute; tauto).
  assert (Hblank : all_space (String " " (String Py.newline "")) = true) by reflexivity.
  exact (parse_data_file_blank_line rooted_files "/data/voc"
           "/data/voc/ImageSets/Main/trainval.txt" (Some ".jpg") blank_list
           (String " " (String Py.newline "")) Hfile Hline Hblank).
Defined.

Example blank_line_entry :
  parse_data_file rooted_files "/data/voc" "/data/voc/ImageSets/Main/trainval.txt"
    (Some ".jpg")
  = Ok ["/data/voc/JPEGImages/2007_000027.jpg"; "/data/voc/JPEGImages/.jpg"].
Proof. vm_compute. reflexivity. Qed.


(** The first sample of the dataset goes from [data/voc] to [out]. *)
Example translate_one_out :
  translated_path voc_dataset "out" "data/voc/JPEGImages/2007_000027.jpg"
  = "out/JPEGImages/2007_000027.jpg" /\
  translate_one voc_dataset repaint "out" 4 voc_images
    "data/voc/JPEGImages/2007_000027.jpg"
  = Ok (<["out/JPEGImages/2007_000027.jpg" := Picture 10 7 102]> voc_images).
Proof. split; vm_compute; reflexivity. Qed.

Lemma build_dataset_missing_list_file_witness :
  build_dataset (image := picture) (item := unit) (fun p => p) voc_files
    ["VOC2007"; "Comic"] ["data/voc"; "data/comic"] (fun _ => tt)
  = Raise FileNotFoundError.
Proof.
  assert (Hex : Exists (fun nr =>
            voc_files !! Py.join (snd nr)
              ["ImageSets/Main/"
               +:+ (if bool_decide (fst nr = "WaterColor" \/ fst nr = "Comic") then "train"
                    else if bool_decide (fst nr = "Sim10k") then "trainval10k"
                    else "trainval")
               +:+ ".txt"] = None)
         (Py.zip ["VOC2007"; "Comic"] ["data/voc"; "data/comic"])).
  { apply Exists_cons_tl, Exists_cons_hd. vm_compute. reflexivity. }
  exact (build_dataset_missing_list_file (image := picture) (item := unit) (fun p => p)
           voc_files ["VOC2007"; "Comic"] ["data/voc"; "data/comic"] (fun _ => tt) Hex).
Defined.

(** * Further properties of the training script *)

(** ** What a round of [train] leaves behind *)

Section TrainFrame.

Context `{Trainer}.

Lemma train_step_frame (a : args) (w : world) :
  exists (w' : world) (v : locals),
    train_step a main_criteria w = (w', Ok v) /\
    requires_grad_D_S w' = true /\ requires_grad_D_T w' = true /\
    lr_scheduler_G w' = lr_scheduler_G w /\
    lr_scheduler_D w' = lr_scheduler_D w /\
    files w' = files w.
Proof.
  eexists _, _. split; [vm_compute; reflexivity|].
  repeat split; vm_compute; reflexivity.
Qed.

Lemma train_body_frame (a : args) (i : Z) (ms : meters) (w : world) :
  print_freq a <> 0 ->
  exists (w' : world) (ms' : meters),
    train_body a main_criteria i ms w = (w', Ok ms') /\
    requires_grad_D_S w' = true /\ requires_grad_D_T w' = true /\
    lr_scheduler_G w' = lr_scheduler_G w /\
    lr_scheduler_D w' = lr_scheduler_D w /\
    files w' = files w.
Proof.
  intros Hpf.
  destruct (train_step_frame a w) as (w1 & v & Hstep & HS & HT & HG & HD & Hf).
  destruct (display_events a i (update_meters ms v) v w1 Hpf)
    as (w2 & evs & Hdisp & Hframe & _).
  exists w2, (update_meters ms v). split.
  { unfold train_body. rewrite (bind_ok _ _ _ _ _ Hstep).
    by rewrite (bind_ok _ _ _ _ _ Hdisp). }
  rewrite Hframe. simpl. auto.
Qed.

Lemma train_loop_frame (a : args) (iters : list Z) (ms : meters) (w : world) :
  print_freq a <> 0 ->
  exists (w' : world) (ms' : meters),
    train_loop a main_criteria iters ms w = (w', Ok ms') /\
    lr_scheduler_G w' = lr_scheduler_G w /\
    lr_scheduler_D w' = lr_scheduler_D w /\
    files w' = files w /\
    (iters = [] -> w' = w) /\
    (iters <> [] -> requires_grad_D_S w' = true /\ requires_grad_D_T w' = true).
Proof.
  intros Hpf. revert ms w. induction iters as [|i iters IH]; intros ms w.
  - exists w, ms. by repeat split.
  - destruct (train_body_frame a i ms w Hpf)
      as (w1 & ms1 & Hbody & HS & HT & HG & HD & Hf).
    destruct (IH ms1 w1) as (w2 & ms2 & Hloop & HG2 & HD2 & Hf2 & Hnil & Hne).
    exists w2, ms2.
    split; [cbn [train_loop]; by rewrite (bind_ok _ _ _ _ _ Hbody)|].
    split; [congruence|]. split; [congruence|]. split; [congruence|].
    split; [discriminate|]. intros _.
    destruct iters as [|j iters]; [|by apply Hne].
    rewrite (Hnil eq_refl). by split.
Qed.

(** X11: a call of [train] that returns leaves both discriminators with
    [requires_grad] on as soon as one round ran, never touches the two
    schedulers or the saved files, and with no round to run
    ([iters_per_epoch <= 0]) changes nothing at all. *)
Theorem train_leaves_discriminators_trainable (a : args) (epoch : Z) (w : world) :
  print_freq a <> 0 ->
  exists w' : world,
    train a main_criteria epoch w = (w', Ok tt) /\
    lr_scheduler_G w' = lr_scheduler_G w /\
    lr_scheduler_D w' = lr_scheduler_D w /\
    files w' = files w /\
    (0 < iters_per_epoch a ->
     requires_grad_D_S w' = true /\ requires_grad_D_T w' = true) /\
    (iters_per_epoch a <= 0 -> w' = set_log (EvTrain epoch :: log w) w).
Proof.
  intros Hpf. unfold train. rewrite emit_run.
  destruct (train_loop_frame a (Py.range 0 (iters_per_epoch a)) meters_new
              (set_log (EvTrain epoch :: log w) w) Hpf)
    as (w1 & ms & Hloop & HG & HD & Hf & Hnil & Hne).
  exists w1. split; [by rewrite (bind_ok _ _ _ _ _ Hloop)|].
  split; [exact HG|]. split; [exact HD|]. split; [exact Hf|].
  split.
  - intros Hn. apply Hne. intros Hr.
    apply (f_equal (@length Z)) in Hr. rewrite range_length in Hr. simpl in Hr. lia.
  - intros Hn. apply Hnil. unfold Py.range. apply seqZ_nil. lia.
Qed.

Lemma filter_owner_of_rest (o : optimizer) (g : list (param_group * lnode)) :
  filter (fun pl => owner (fst pl) = o)
    (filter (fun pl => owner (fst pl) <> o) g) = [].
Proof.
  induction g as [|pl g IH]; [done|].
  rewrite filter_cons. case_decide as Hd.
  - rewrite filter_cons. case_decide; [contradiction|exact IH].
  - exact IH.
Qed.

(** X12: in every round each optimizer steps on the gradients of its own
    phase of that round and on nothing older: the generators are updated by
    Adam from the gradient of [loss_G] alone, the discriminators from the
    gradients of [loss_D_S] and [loss_D_T] alone, each from the weights the
    round started with. *)
Theorem optimizers_step_on_round_gradients (a : args) (w : world) :
  exists (w' : world) (v : locals),
    train_step a main_criteria w = (w', Ok v) /\
    (optimizer_G w', (netG_S2T w', netG_T2S w'))
    = (fst (adam_G (optimizer_G w) (netG_S2T w, netG_T2S w)
              [(OfG G_S2T, loss_G v); (OfG G_T2S, loss_G v)]),
       (fst (snd (adam_G (optimizer_G w) (netG_S2T w, netG_T2S w)
                    [(OfG G_S2T, loss_G v); (OfG G_T2S, loss_G v)])),
        snd (snd (adam_G (optimizer_G w) (netG_S2T w, netG_T2S w)
                    [(OfG G_S2T, loss_G v); (OfG G_T2S, loss_G v)])))) /\
    (optimizer_D w', (netD_S w', netD_T w'))
    = (fst (adam_D (optimizer_D w) (netD_S w, netD_T w)
              [(OfD D_S, loss_D_S v); (OfD D_T, loss_D_T v)]),
       (fst (snd (adam_D (optimizer_D w) (netD_S w, netD_T w)
                    [(OfD D_S, loss_D_S v); (OfD D_T, loss_D_T v)])),
        snd (snd (adam_D (optimizer_D w) (netD_S w, netD_T w)
                    [(OfD D_S, loss_D_S v); (OfD D_T, loss_D_T v)])))).
Proof.
  eexists _, _. split; [vm_compute; reflexivity|].
  match goal with
  | |- (optimizer_G ?W, _) = (fst (adam_G _ _ [(_, loss_G ?V); _]), _) /\ _ =>
      assert (HG : (optimizer_G W, (netG_S2T W, netG_T2S W))
        = (fst (adam_G (optimizer_G w) (netG_S2T w, netG_T2S w)
             (filter (fun pl => owner (fst pl) = Opt_G)
                (filter (fun pl => owner (fst pl) <> Opt_G) (grads w)
                 ++ [(OfG G_S2T, loss_G V); (OfG G_T2S, loss_G V)]))),
           (fst (snd (adam_G (optimizer_G w) (netG_S2T w, netG_T2S w)
             (filter (fun pl => owner (fst pl) = Opt_G)
                (filter (fun pl => owner (fst pl) <> Opt_G) (grads w)
                 ++ [(OfG G_S2T, loss_G V); (OfG G_T2S, loss_G V)])))),
            snd (snd (adam_G (optimizer_G w) (netG_S2T w, netG_T2S w)
             (filter (fun pl => owner (fst pl) = Opt_G)
                (filter (fun pl => owner (fst pl) <> Opt_G) (grads w)
                 ++ [(OfG G_S2T, loss_G V); (OfG G_T2S, loss_G V)])))))))
        by (vm_compute; reflexivity);
      assert (HD : (optimizer_D W, (netD_S W, netD_T W))
        = (fst (adam_D (optimizer_D w) (netD_S w, netD_T w)
             (filter (fun pl => owner (fst pl) = Opt_D)
                ((filter (fun pl => owner (fst pl) <> Opt_D)
                    (filter (fun pl => owner (fst pl) <> Opt_G) (grads w)
                     ++ [(OfG G_S2T, loss_G V); (OfG G_T2S, loss_G V)])
                  ++ [(OfD D_S, loss_D_S V)]) ++ [(OfD D_T, loss_D_T V)]))),
           (fst (snd (adam_D (optimizer_D w) (netD_S w, netD_T w)
             (filter (fun pl => owner (fst pl) = Opt_D)
                ((filter (fun pl => owner (fst pl) <> Opt_D)
                    (filter (fun pl => owner (fst pl) <> Opt_G) (grads w)
                     ++ [(OfG G_S2T, loss_G V); (OfG G_T2S, loss_G V)])
                  ++ [(OfD D_S, loss_D_S V)]) ++ [(OfD D_T, loss_D_T V)])))),
            snd (snd (adam_D (optimizer_D w) (netD_S w, netD_T w)
             (filter (fun pl => owner (fst pl) = Opt_D)
                ((filter (fun pl => owner (fst pl) <> Opt_D)
                    (filter (fun pl => owner (fst pl) <> Opt_G) (grads w)
                     ++ [(OfG G_S2T, loss_G V); (OfG G_T2S, loss_G V)])
                  ++ [(OfD D_S, loss_D_S V)]) ++ [(OfD D_T, loss_D_T V)])))))))
        by (vm_compute; reflexivity)
  end.
  rewrite filter_app, filter_owner_of_rest in HG.
  rewrite !filter_app, filter_owner_of_rest in HD.
  split; [exact HG|exact HD].
Qed.

End TrainFrame.

(** ** What [train] shows, and when *)

Section TrainShows.

Context `{Trainer}.

Lemma train_step_shows_nothing (a : args) (w : world) :
  exists (w' : world) (v : locals) (evs : list event),
    train_step a main_criteria w = (w', Ok v) /\
    log w' = rev evs ++ log w /\
    omap shown_of evs = [].
Proof.
  destruct (train_step_events a w) as (w' & v & Hstep & _ & _ & Hlog & _).
  exists w', v, (step_events v). by repeat split.
Qed.

Lemma display_shows (a : args) (i : Z) (ms : meters) (v : locals) (w : world) :
  print_freq a <> 0 ->
  exists (w' : world) (evs : list event),
    display a i ms v w = (w', Ok tt) /\
    log w' = rev evs ++ log w /\
    omap shown_of evs = round_shows (print_freq a) i.
Proof.
  intros Hpf. unfold display, round_shows.
  destruct (Z.eqb_spec (print_freq a) 0) as [|_]; [contradiction|].
  destruct (i mod print_freq a =? 0).
  - eexists _, [_; _; _; _; _; _; _; _; _].
    split; [vm_compute; reflexivity|].
    split; vm_compute; reflexivity.
  - exists w, []. by repeat split.
Qed.

Lemma train_loop_shows (a : args) (iters : list Z) (ms : meters) (w : world) :
  print_freq a <> 0 ->
  exists (w' : world) (ms' : meters) (evs : list event),
    train_loop a main_criteria iters ms w = (w', Ok ms') /\
    log w' = rev evs ++ log w /\
    omap shown_of evs = flat_map (round_shows (print_freq a)) iters.
Proof.
  intros Hpf. revert ms w. induction iters as [|i iters IH]; intros ms w.
  - exists w, ms, []. by repeat split.
  - destruct (train_step_shows_nothing a w) as (w1 & v & evs1 & Hstep & Hlog1 & Hsh1).
    destruct (display_shows a i (update_meters ms v) v w1 Hpf)
      as (w2 & evs2 & Hdisp & Hlog2 & Hsh2).
    destruct (IH (update_meters ms v) w2) as (w3 & ms3 & evs3 & Hloop & Hlog3 & Hsh3).
    exists w3, ms3, (evs1 ++ evs2 ++ evs3).
    split.
    { cbn [train_loop]. unfold train_body.
      assert (Hbody : bind (train_step a main_criteria)
                (fun v => let ms0 := update_meters ms v in
                          bind (display a i ms0 v) (fun _ => ret ms0)) w
              = (w2, Ok (update_meters ms v))).
      { rewrite (bind_ok _ _ _ _ _ Hstep). by rewrite (bind_ok _ _ _ _ _ Hdisp). }
      by rewrite (bind_ok _ _ _ _ _ Hbody). }
    split.
    { rewrite Hlog3, Hlog2, Hlog1, !rev_app_distr. by rewrite <- !app_assoc. }
    rewrite !omap_app, Hsh1, Hsh2, Hsh3. reflexivity.
Qed.

(** X13: [train] prints the progress line exactly in the rounds [i] with
    [i % print_freq == 0] (so always in round 0), in order, and each time
    saves the eight images [real_S], [real_T], [fake_S], [fake_T], [rec_S],
    [rec_T], [identity_S], [identity_T] of that round, in this order; other
    rounds show nothing. *)
Theorem train_display_schedule (a : args) (epoch : Z) (w : world) :
  print_freq a <> 0 ->
  exists (w' : world) (evs : list event),
    train a main_criteria epoch w = (w', Ok tt) /\
    log w' = rev evs ++ log w /\
    omap shown_of evs
    = flat_map (fun i =>
                  if i mod print_freq a =? 0
                  then ShDisplay i ::
                       map (ShVisualize i)
                         ["real_S"; "real_T"; "fake_S"; "fake_T"; "rec_S"; "rec_T";
                          "identity_S"; "identity_T"]
                  else [])
        (Py.range 0 (iters_per_epoch a)).
Proof.
  intros Hpf. unfold train. rewrite emit_run.
  destruct (train_loop_shows a (Py.range 0 (iters_per_epoch a)) meters_new
              (set_log (EvTrain epoch :: log w) w) Hpf)
    as (w1 & ms & evs & Hloop & Hlog & Hsh).
  exists w1, (EvTrain epoch :: evs).
  split; [by rewrite (bind_ok _ _ _ _ _ Hloop)|].
  split; [rewrite Hlog; simpl; by rewrite <- app_assoc|].
  change (omap shown_of (EvTrain epoch :: evs)) with (omap shown_of evs).
  exact Hsh.
Qed.

End TrainShows.

(** ** Errors and edges of [main] *)

Section MainEdges.

Context `{Trainer}.

Lemma epoch_loop_latest (a : args) (es : list Z) (e_last : Z) (w : world) :
  print_freq a <> 0 ->
  exists w' : world,
    epoch_loop a (es ++ [e_last]) w = (w', Ok tt) /\
    files w' !! get_checkpoint_path (log_root a) "latest"
    = Some (state_dicts w' e_last a).
Proof.
  intros Hpf. revert w. induction es as [|e es IH]; intros w.
  - destruct (epoch_body_events a e_last w Hpf)
      as (w1 & w2 & evs & _ & Hbody & _ & _ & _ & _ & _ & _ & _ & _ & Hfiles & _).
    exists w2. split.
    + simpl. by rewrite (bind_ok _ _ _ _ _ Hbody).
    + rewrite Hfiles. apply lookup_insert_eq.
  - destruct (epoch_body_events a e w Hpf) as (w1 & w2 & evs & _ & Hbody & _).
    destruct (IH w2) as (w3 & Hloop & Hfile).
    exists w3. split; [|exact Hfile].
    change ((e :: es) ++ [e_last]) with (e :: (es ++ [e_last])).
    cbn [epoch_loop]. by rewrite (bind_ok _ _ _ _ _ Hbody).
Qed.

Lemma range_snoc (start stop : Z) :
  start < stop -> Py.range start stop = Py.range start (stop - 1) ++ [stop - 1].
Proof.
  intros Hlt. unfold Py.range.
  replace (stop - start) with (Z.of_nat (S (Z.to_nat (stop - 1 - start)))) by lia.
  rewrite seqZ_S. f_equal; [f_equal; lia|f_equal; lia].
Qed.

Lemma resume_from_restores (a : args) (w : world) (path : string) (c : checkpoint) :
  resume a = Some path -> path <> EmptyString -> files w !! path = Some c ->
  exists w0 : world,
    resume_from a w = (w0, Ok (set_start_epoch (ck_epoch c + 1) a)) /\
    state_dicts w0 (ck_epoch c) (ck_args c) = c /\
    log w0 = log w /\ files w0 = files w.
Proof.
  intros Hres Hpath Hfile. unfold resume_from. rewrite Hres.
  destruct (String.eqb_spec path "") as [|_]; [contradiction|].
  assert (Hload : torch_load path w = (w, Ok c))
    by (unfold torch_load; by rewrite Hfile).
  rewrite (bind_ok _ _ _ _ _ Hload).
  eexists. split; [reflexivity|]. split; [by destruct c|by split].
Qed.

(** X14: after a run of [main] that constructs its schedulers
    ([epochs_decay] is not 0) and trains at least one epoch, the file
    [latest] holds the checkpoint of the last epoch,
    [epochs + epochs_decay - 1], with the eight states as the run left
    them; resuming from that file in any later process restores exactly
    those states and sets the start epoch to [epochs + epochs_decay]. *)
Theorem main_latest_checkpoint_round_trip (a : args) (w : world) :
  epochs_decay a <> 0 ->
  print_freq a <> 0 -> phase a = "train" -> resume a = None ->
  start_epoch a < epochs a + epochs_decay a ->
  exists w' : world,
    main a w = (w', Ok tt) /\
    files w' !! get_checkpoint_path (log_root a) "latest"
    = Some (state_dicts w' (epochs a + epochs_decay a - 1) a) /\
    (forall (a2 : args) (w2 : world),
        resume a2 = Some (get_checkpoint_path (log_root a) "latest") ->
        get_checkpoint_path (log_root a) "latest" <> EmptyString ->
        files w2 !! get_checkpoint_path (log_root a) "latest"
        = files w' !! get_checkpoint_path (log_root a) "latest" ->
        exists w0 : world,
          resume_from a2 w2
          = (w0, Ok (set_start_epoch (epochs a + epochs_decay a) a2)) /\
          (netG_S2T w0, netG_T2S w0, netD_S w0, netD_T w0)
          = (netG_S2T w', netG_T2S w', netD_S w', netD_T w') /\
          (optimizer_G w0, optimizer_D w0, lr_scheduler_G w0, lr_scheduler_D w0)
          = (optimizer_G w', optimizer_D w', lr_scheduler_G w', lr_scheduler_D w')).
Proof.
  intros Hd Hpf Hphase Hres Hlt.
  destruct (epoch_loop_latest a (Py.range (start_epoch a) (epochs a + epochs_decay a - 1))
              (epochs a + epochs_decay a - 1) w Hpf) as (w' & Hloop & Hfile).
  exists w'. split.
  { rewrite (main_constructed a w Hd). unfold resume_from. rewrite Hres.
    change (bind (ret a) ?f w) with (f a w). cbv beta.
    rewrite Hphase. simpl String.eqb. cbv iota.
    rewrite range_snoc by exact Hlt. exact Hloop. }
  split; [exact Hfile|].
  intros a2 w2 Hres2 Hne Hsame. rewrite Hfile in Hsame.
  destruct (resume_from_restores a2 w2 _ _ Hres2 Hne Hsame) as (w0 & Hr & Hst & _).
  exists w0. simpl in Hr.
  replace (epochs a + epochs_decay a - 1 + 1) with (epochs a + epochs_decay a) in Hr by lia.
  split; [exact Hr|].
  simpl in Hst. unfold state_dicts in Hst. injection Hst as -> -> -> -> -> -> -> ->.
  by split.
Qed.

(** X15: once the schedulers are constructed ([epochs_decay] is not 0),
    [main] trains nothing and saves no checkpoint when the phase is not
    ['train'] or no epoch is left, that is when the start epoch, or the
    epoch after the resumed one, is [epochs + epochs_decay] or more; a
    resumed run still loads the eight states. *)
Theorem main_trains_nothing (a : args) (w : world) :
  epochs_decay a <> 0 ->
  (resume a = None ->
   phase a <> "train" \/ epochs a + epochs_decay a <= start_epoch a ->
   main a w = (w, Ok tt)) /\
  (forall (path : string) (c : checkpoint),
      resume a = Some path -> path <> EmptyString -> files w !! path = Some c ->
      phase a <> "train" \/ epochs a + epochs_decay a <= ck_epoch c + 1 ->
      exists w0 : world,
        main a w = (w0, Ok tt) /\
        state_dicts w0 (ck_epoch c) (ck_args c) = c /\
        log w0 = log w /\ files w0 = files w).
Proof.
  intros Hd. split.
  - intros Hres Hwhy. rewrite (main_constructed a w Hd). unfold resume_from. rewrite Hres.
    change (bind (ret a) ?f w) with (f a w). cbv beta.
    destruct Hwhy as [Hph|Hrange].
    + apply String.eqb_neq in Hph. by rewrite Hph.
    + destruct (String.eqb (phase a) "train"); [|reflexivity].
      unfold Py.range. by rewrite seqZ_nil by lia.
  - intros path c Hres Hpath Hfile Hwhy.
    destruct (resume_from_restores a w path c Hres Hpath Hfile) as (w0 & Hr & Hst & Hlog & Hf).
    exists w0. split; [|by repeat split].
    rewrite (main_constructed a w Hd), (bind_ok _ _ _ _ _ Hr).
    change (phase (set_start_epoch (ck_epoch c + 1) a)) with (phase a).
    destruct Hwhy as [Hph|Hrange].
    + apply String.eqb_neq in Hph. by rewrite Hph.
    + destruct (String.eqb (phase a) "train"); [|reflexivity].
      unfold Py.range. simpl. by rewrite seqZ_nil by lia.
Qed.

(** X16: when [args.resume] names a file that does not exist, [main],
    once it has constructed its schedulers ([epochs_decay] is not 0),
    raises [FileNotFoundError] before anything is trained, loaded or
    saved. *)
Theorem main_resume_missing_checkpoint (a : args) (w : world) (path : string) :
  epochs_decay a <> 0 ->
  resume a = Some path -> path <> EmptyString -> files w !! path = None ->
  main a w = (w, Raise FileNotFoundError).
Proof.
  intros Hd Hres Hpath Hfile. rewrite (main_constructed a w Hd). apply bind_raise.
  unfold resume_from. rewrite Hres.
  destruct (String.eqb_spec path "") as [|_]; [contradiction|].
  apply bind_raise. unfold torch_load. by rewrite Hfile.
Qed.

Lemma train_raises (a : args) (epoch : Z) (w : world) :
  print_freq a = 0 -> 0 < iters_per_epoch a ->
  exists (w' : world) (evs : list event),
    train a main_criteria epoch w = (w', Raise ZeroDivisionError) /\
    files w' = files w /\
    lr_scheduler_G w' = lr_scheduler_G w /\
    lr_scheduler_D w' = lr_scheduler_D w /\
    log w' = rev evs ++ log w /\
    omap optim_op evs = iteration_ops /\
    omap main_op_of evs = [MTrain epoch].
Proof.
  intros Hpf Hn. unfold train. rewrite emit_run.
  set (w0 := set_log (EvTrain epoch :: log w) w).
  destruct (train_step_events a w0) as (w1 & v & Hstep & _ & Hfiles & Hlog & Hops & Hmain).
  destruct (train_step_frame a w0) as (w1' & v' & Hstep' & _ & _ & HG & HD & _).
  rewrite Hstep in Hstep'. injection Hstep' as <- <-.
  exists w1, (EvTrain epoch :: step_events v).
  split.
  { apply bind_raise. unfold Py.range. rewrite Z.sub_0_r, seqZ_cons by exact Hn.
    cbn [train_loop]. apply bind_raise. unfold train_body.
    rewrite (bind_ok _ _ _ _ _ Hstep).
    by rewrite (bind_raise _ _ _ _ _ (display_raises a 0 _ v w1 Hpf)). }
  split; [exact Hfiles|]. split; [exact HG|]. split; [exact HD|].
  split.
  { rewrite Hlog.
    change (rev (EvTrain epoch :: step_events v))
      with (rev (step_events v) ++ [EvTrain epoch]).
    by rewrite <- app_assoc. }
  split.
  - change (omap optim_op (EvTrain epoch :: step_events v))
      with (omap optim_op (step_events v)). exact Hops.
  - change (omap main_op_of (EvTrain epoch :: step_events v))
      with (MTrain epoch :: omap main_op_of (step_events v)). by rewrite Hmain.
Qed.

(** X17: with [print_freq] 0 a training run that has constructed its
    schedulers ([epochs_decay] is not 0) aborts in its first epoch:
    the first round is carried out in full, both optimizers step, then
    [i % args.print_freq] raises [ZeroDivisionError]; no scheduler steps and
    no checkpoint is saved. *)
Theorem main_print_freq_zero_raises (a : args) (w : world) :
  epochs_decay a <> 0 ->
  print_freq a = 0 -> 0 < iters_per_epoch a ->
  phase a = "train" -> resume a = None ->
  start_epoch a < epochs a + epochs_decay a ->
  exists (w' : world) (evs : list event),
    main a w = (w', Raise ZeroDivisionError) /\
    files w' = files w /\
    lr_scheduler_G w' = lr_scheduler_G w /\
    lr_scheduler_D w' = lr_scheduler_D w /\
    log w' = rev evs ++ log w /\
    omap optim_op evs = iteration_ops /\
    omap main_op_of evs = [MTrain (start_epoch a)].
Proof.
  intros Hd Hpf Hn Hphase Hres Hlt.
  destruct (train_raises a (start_epoch a) w Hpf Hn)
    as (w' & evs & Htrain & Hrest).
  exists w', evs. split; [|exact Hrest].
  rewrite (main_constructed a w Hd). unfold resume_from. rewrite Hres.
  change (bind (ret a) ?f w) with (f a w). cbv beta.
  rewrite Hphase. simpl String.eqb. cbv iota.
  unfold Py.range. rewrite seqZ_cons by lia.
  cbn [epoch_loop]. apply bind_raise. unfold epoch_body. by apply bind_raise.
Qed.

(** X10: without epochs of decay the learning-rate factor cannot be
    computed: [lr_decay_function] divides by [float(0)] at every epoch, the
    constructor of the first scheduler calls it, and [main] raises
    [ZeroDivisionError] there, in either phase and with or without a
    checkpoint to resume, before anything is loaded, trained or saved. *)
Theorem main_epochs_decay_zero_raises (a : args) (w : world) :
  epochs_decay a = 0 ->
  (forall epoch : Z, lr_decay_function a epoch = Raise ZeroDivisionError) /\
  main a w = (w, Raise ZeroDivisionError).
Proof.
  intros Hd.
  assert (Hlr : forall epoch : Z, lr_decay_function a epoch = Raise ZeroDivisionError).
  { intros epoch. unfold lr_decay_function. by rewrite Hd. }
  split; [exact Hlr|].
  unfold main. apply bind_raise. unfold LambdaLR. by rewrite Hlr.
Qed.

End MainEdges.

(** ** The training properties at work on the small instance *)

Lemma train_leaves_discriminators_trainable_witness :
  exists w' : world,
    train toy_args main_criteria 0 toy_world = (w', Ok tt) /\
    lr_scheduler_G w' = lr_scheduler_G toy_world /\
    lr_scheduler_D w' = lr_scheduler_D toy_world /\
    files w' = files toy_world /\
    (0 < iters_per_epoch toy_args ->
     requires_grad_D_S w' = true /\ requires_grad_D_T w' = true) /\
    (iters_per_epoch toy_args <= 0 ->
     w' = set_log (EvTrain 0 :: log toy_world) toy_world).
Proof.
  assert (Hpf : print_freq toy_args <> 0) by (simpl; lia).
  exact (train_leaves_discriminators_trainable toy_args 0 toy_world Hpf).
Defined.

Lemma train_display_schedule_witness :
  exists (w' : world) (evs : list event),
    train toy_args main_criteria 0 toy_world = (w', Ok tt) /\
    log w' = rev evs ++ log toy_world /\
    omap shown_of evs
    = flat_map (fun i =>
                  if i mod print_freq toy_args =? 0
                  then ShDisplay i ::
                       map (ShVisualize i)
                         ["real_S"; "real_T"; "fake_S"; "fake_T"; "rec_S"; "rec_T";
                          "identity_S"; "identity_T"]
                  else [])
        (Py.range 0 (iters_per_epoch toy_args)).
Proof.
  assert (Hpf : print_freq toy_args <> 0) by (simpl; lia).
  exact (train_display_schedule toy_args 0 toy_world Hpf).
Defined.

Lemma main_latest_checkpoint_round_trip_witness :
  exists w' : world,
    main toy_args toy_world = (w', Ok tt) /\
    files w' !! get_checkpoint_path (log_root toy_args) "latest"
    = Some (state_dicts w' (epochs toy_args + epochs_decay toy_args - 1) toy_args) /\
    (forall (a2 : args) (w2 : world),
        resume a2 = Some (get_checkpoint_path (log_root toy_args) "latest") ->
        get_checkpoint_path (log_root toy_args) "latest" <> EmptyString ->
        files w2 !! get_checkpoint_path (log_root toy_args) "latest"
        = files w' !! get_checkpoint_path (log_root toy_args) "latest" ->
        exists w0 : world,
          resume_from a2 w2
          = (w0, Ok (set_start_epoch (epochs toy_args + epochs_decay toy_args) a2)) /\
          (netG_S2T w0, netG_T2S w0, netD_S w0, netD_T w0)
          = (netG_S2T w', netG_T2S w', netD_S w', netD_T w') /\
          (optimizer_G w0, optimizer_D w0, lr_scheduler_G w0, lr_scheduler_D w0)
          = (optimizer_G w', optimizer_D w', lr_scheduler_G w', lr_scheduler_D w')).
Proof.
  assert (Hd : epochs_decay toy_args <> 0) by (simpl; lia).
  assert (Hpf : print_freq toy_args <> 0) by (simpl; lia).
  assert (Hphase : phase toy_args = "train") by reflexivity.
  assert (Hres : resume toy_args = None) by reflexivity.
  assert (Hlt : start_epoch toy_args < epochs toy_args + epochs_decay toy_args)
    by (simpl; lia).
  exact (main_latest_checkpoint_round_trip toy_args toy_world Hd Hpf Hphase Hres Hlt).
Defined.

Lemma main_resume_missing_checkpoint_witness :
  main toy_args_resume toy_world = (toy_world, Raise FileNotFoundError).
Proof.
  assert (Hd : epochs_decay toy_args_resume <> 0) by (simpl; lia).
  assert (Hres : resume toy_args_resume = Some "cyclegan/checkpoints/latest.pth")
    by reflexivity.
  assert (Hpath : "cyclegan/checkpoints/latest.pth" <> EmptyString) by discriminate.
  assert (Hfile : files toy_world !! "cyclegan/checkpoints/latest.pth" = None)
    by reflexivity.
  exact (main_resume_missing_checkpoint toy_args_resume toy_world
           "cyclegan/checkpoints/latest.pth" Hd Hres Hpath Hfile).
Defined.

Lemma main_print_freq_zero_raises_witness :
  exists (w' : world) (evs : list event),
    main toy_args_no_print toy_world = (w', Raise ZeroDivisionError) /\
    files w' = files toy_world /\
    lr_scheduler_G w' = lr_scheduler_G toy_world /\
    lr_scheduler_D w' = lr_scheduler_D toy_world /\
    log w' = rev evs ++ log toy_world /\
    omap optim_op evs = iteration_ops /\
    omap main_op_of evs = [MTrain (start_epoch toy_args_no_print)].
Proof.
  assert (Hd : epochs_decay toy_args_no_print <> 0) by (simpl; lia).
  assert (Hpf : print_freq toy_args_no_print = 0) by reflexivity.
  assert (Hn : 0 < iters_per_epoch toy_args_no_print) by (simpl; lia).
  assert (Hphase : phase toy_args_no_print = "train") by reflexivity.
  assert (Hres : resume toy_args_no_print = None) by reflexivity.
  assert (Hlt : start_epoch toy_args_no_print
                < epochs toy_args_no_print + epochs_decay toy_args_no_print)
    by (simpl; lia).
  exact (main_print_freq_zero_raises toy_args_no_print toy_world Hd Hpf Hn Hphase Hres Hlt).
Defined.

Lemma main_epochs_decay_zero_raises_witness :
  (forall epoch : Z, lr_decay_function toy_args_no_decay epoch = Raise ZeroDivisionError) /\
  main toy_args_no_decay toy_world_after = (toy_world_after, Raise ZeroDivisionError).
Proof.
  assert (Hd : epochs_decay toy_args_no_decay = 0) by reflexivity.
  exact (main_epochs_decay_zero_raises toy_args_no_decay toy_world_after Hd).
Defined.

Example toy_train_shows :
  omap shown_of (rev (log (fst (train toy_args main_criteria 0 toy_world))))
  = ShDisplay 0 ::
    map (ShVisualize 0)
      ["real_S"; "real_T"; "fake_S"; "fake_T"; "rec_S"; "rec_T";
       "identity_S"; "identity_T"].
Proof. vm_compute. reflexivity. Qed.

(** ** Batches drawn *)

Section TrainBatches.

Context `{Trainer}.

Lemma train_step_draws (a : args) (w : world) :
  exists (w' : world) (v : locals),
    train_step a main_criteria w = (w', Ok v) /\
    train_source_iter w' = snd (next_batch (train_source_iter w)) /\
    train_target_iter w' = snd (next_batch (train_target_iter w)).
Proof.
  eexists _, _. split; [vm_compute; reflexivity|].
  split; vm_compute; reflexivity.
Qed.

Lemma train_loop_draws (a : args) (iters : list Z) (ms : meters) (w : world) :
  print_freq a <> 0 ->
  exists (w' : world) (ms' : meters),
    train_loop a main_criteria iters ms w = (w', Ok ms') /\
    train_source_iter w'
    = Nat.iter (length iters) (fun it => snd (next_batch it)) (train_source_iter w) /\
    train_target_iter w'
    = Nat.iter (length iters) (fun it => snd (next_batch it)) (train_target_iter w).
Proof.
  intros Hpf. revert ms w. induction iters as [|i iters IH]; intros ms w.
  - exists w, ms. by repeat split.
  - destruct (train_step_draws a w) as (w1 & v & Hstep & HS & HT).
    destruct (display_events a i (update_meters ms v) v w1 Hpf)
      as (w2 & evs & Hdisp & Hframe & _).
    destruct (IH (update_meters ms v) w2) as (w3 & ms3 & Hloop & HS3 & HT3).
    exists w3, ms3. split.
    { cbn [train_loop]. unfold train_body.
      assert (Hbody : bind (train_step a main_criteria)
                (fun v => let ms0 := update_meters ms v in
                          bind (display a i ms0 v) (fun _ => ret ms0)) w
              = (w2, Ok (update_meters ms v))).
      { rewrite (bind_ok _ _ _ _ _ Hstep). by rewrite (bind_ok _ _ _ _ _ Hdisp). }
      by rewrite (bind_ok _ _ _ _ _ Hbody). }
    assert (HS2 : train_source_iter w2 = train_source_iter w1) by (by rewrite Hframe).
    assert (HT2 : train_target_iter w2 = train_target_iter w1) by (by rewrite Hframe).
    cbn [length]. rewrite !Nat.iter_succ_r, HS3, HT3, HS2, HT2, HS, HT. by split.
Qed.

(** X18: a call of [train] that returns has drawn exactly one batch from
    the source iterator and one from the target iterator per round:
    [iters_per_epoch] of each. *)
Theorem train_draws_one_batch_per_round (a : args) (epoch : Z) (w : world) :
  print_freq a <> 0 ->
  exists w' : world,
    train a main_criteria epoch w = (w', Ok tt) /\
    train_source_iter w'
    = Nat.iter (Z.to_nat (iters_per_epoch a)) (fun it => snd (next_batch it))
        (train_source_iter w) /\
    train_target_iter w'
    = Nat.iter (Z.to_nat (iters_per_epoch a)) (fun it => snd (next_batch it))
        (train_target_iter w).
Proof.
  intros Hpf. unfold train. rewrite emit_run.
  destruct (train_loop_draws a (Py.range 0 (iters_per_epoch a)) meters_new
              (set_log (EvTrain epoch :: log w) w) Hpf)
    as (w1 & ms & Hloop & HS & HT).
  exists w1. split; [by rewrite (bind_ok _ _ _ _ _ Hloop)|].
  rewrite range_length in HS, HT. by split.
Qed.

End TrainBatches.

Lemma train_draws_one_batch_per_round_witness :
  exists w' : world,
    train toy_args main_criteria 0 toy_world = (w', Ok tt) /\
    train_source_iter w'
    = Nat.iter (Z.to_nat (iters_per_epoch toy_args)) (fun it => snd (next_batch it))
        (train_source_iter toy_world) /\
    train_target_iter w'
    = Nat.iter (Z.to_nat (iters_per_epoch toy_args)) (fun it => snd (next_batch it))
        (train_target_iter toy_world).
Proof.
  assert (Hpf : print_freq toy_args <> 0) by (simpl; lia).
  exact (train_draws_one_batch_per_round toy_args 0 toy_world Hpf).
Defined.

(** ** Instances of the two-sided statements *)

Lemma VOC_getitem_bounds_witness :
  VOC_getitem voc_images voc_dataset 2 = Raise IndexError /\
  VOC_getitem voc_images voc_dataset (-1)
  = VOC_getitem voc_images voc_dataset (-1 + VOC_len voc_dataset).
Proof.
  assert (Hout : 2 < - VOC_len voc_dataset \/ VOC_len voc_dataset <= 2)
    by (right; vm_compute; discriminate).
  assert (Hneg : - VOC_len voc_dataset <= -1 < 0) by (vm_compute; split; [discriminate|reflexivity]).
  exact (conj (proj1 (VOC_getitem_bounds voc_images voc_dataset 2) Hout)
              (proj2 (VOC_getitem_bounds voc_images voc_dataset (-1)) Hneg)).
Defined.

Lemma main_trains_nothing_witness :
  main (set_start_epoch 2 toy_args) toy_world = (toy_world, Ok tt) /\
  exists w0 : world,
    main toy_args_again toy_world_after = (w0, Ok tt) /\
    state_dicts w0 1 toy_args = state_dicts toy_world_after 1 toy_args /\
    log w0 = log toy_world_after /\ files w0 = files toy_world_after.
Proof.
  assert (Hd : epochs_decay (set_start_epoch 2 toy_args) <> 0) by (simpl; lia).
  assert (Hd2 : epochs_decay toy_args_again <> 0) by (simpl; lia).
  assert (Hnone : resume (set_start_epoch 2 toy_args) = None) by reflexivity.
  assert (Hdone : phase (set_start_epoch 2 toy_args) <> "train" \/
                  epochs (set_start_epoch 2 toy_args)
                  + epochs_decay (set_start_epoch 2 toy_args)
                  <= start_epoch (set_start_epoch 2 toy_args))
    by (right; vm_compute; discriminate).
  assert (Hres : resume toy_args_again = Some "cyclegan/checkpoints/latest.pth")
    by reflexivity.
  assert (Hpath : "cyclegan/checkpoints/latest.pth" <> EmptyString) by discriminate.
  assert (Hfile : files toy_world_after !! "cyclegan/checkpoints/latest.pth"
                  = Some (state_dicts toy_world_after 1 toy_args))
    by (vm_compute; reflexivity).
  assert (Hleft : phase toy_args_again <> "train" \/
                  epochs toy_args_again + epochs_decay toy_args_again
                  <= ck_epoch (state_dicts toy_world_after 1 toy_args) + 1)
    by (right; vm_compute; discriminate).
  exact (conj (proj1 (main_trains_nothing (set_start_epoch 2 toy_args) toy_world Hd)
                 Hnone Hdone)
              (proj2 (main_trains_nothing toy_args_again toy_world_after Hd2)
                 _ _ Hres Hpath Hfile Hleft)).
Defined.

Lemma main_translate_target_by_character_witness :
  main_translate [] [voc_dataset] None (Some "out") repaint repaint 4 voc_images
  = translate voc_dataset repaint "o" 4 voc_images.
Proof.
  assert (Hone : [voc_dataset] = [voc_dataset]) by reflexivity.
  assert (Hout : "out" = String "o" "ut") by reflexivity.
  exact (proj2 (proj2 (proj2
           (main_translate_target_by_character [] [voc_dataset] "out"
              repaint repaint 4 voc_images)))
           voc_dataset "o"%char "ut" Hone Hout).
Defined.
